(** * Iagon MCP server: batch transfer, enumeration and pagination

    A shallow embedding of the batch tools ([tools/batch-tools.ts]), of the
    storage client ([services/iagon-client.ts]), of the pagination schema
    ([schemas/input-schemas.ts]) and of the constants they share, followed
    by the properties of the design specification that concern them.

    JavaScript numbers that hold counts, offsets and byte sizes are
    modelled as [Z] (exact on the safe-integer range); strings as
    [string]; thrown values as an explicit [Result]; the process-wide
    client singleton, the HTTP traffic and the invocations of
    [client.uploadFile] as an explicit [World] that every effectful
    function threads through. *)

From Stdlib Require Import ZArith List String Ascii Bool Lia QArith Qround.
From Stdlib Require Import DecimalString.
Import ListNotations.

Open Scope string_scope.
Open Scope Z_scope.

(* ================================================================== *)
(** ** Strings *)
(* ================================================================== *)

Definition dquote : string := String "034"%char EmptyString.
Definition newline : string := String "010"%char EmptyString.

(** Template-literal rendering of an integer-valued JS number. *)
Definition string_of_Z (z : Z) : string := NilZero.string_of_int (Z.to_int z).

(** [needle] occurs in [hay] ([String.prototype.includes]). *)
Definition occurs_in (needle hay : string) : Prop :=
  exists before after, hay = before ++ needle ++ after.

(** [Array.prototype.join("\n")]. *)
Fixpoint join_lines (lines : list string) : string :=
  match lines with
  | [] => EmptyString
  | [l] => l
  | l :: rest => l ++ newline ++ join_lines rest
  end.

(** [s.replace(/c/g, by)] for a one-character pattern [c] and a
    replacement [by] without [$] sequences. *)
Fixpoint replace_all (c : ascii) (by_ : string) (s : string) : string :=
  match s with
  | EmptyString => EmptyString
  | String x rest =>
      if Ascii.eqb x c then by_ ++ replace_all c by_ rest
      else String x (replace_all c by_ rest)
  end.

(** JS truthiness of an optional string: [undefined] and the empty string are falsy. *)
Definition truthy (s : option string) : bool :=
  match s with
  | Some (String _ _) => true
  | _ => false
  end.

(** [a || b] on optional strings. *)
Definition or_else (a b : option string) : option string :=
  if truthy a then a else b.

(* ================================================================== *)
(** ** Thrown values and results *)
(* ================================================================== *)

(** What a [catch (error)] clause can receive. *)
Inductive ErrorValue : Type :=
| AxiosError (response : option (Z * option string)) (code : option string)
             (message : string)
    (** [axios.isAxiosError(error)]; [response] is
        [(error.response.status, error.response.data?.message)]. *)
| JsError (message : string)
    (** any other [Error] instance *)
| NonError (text : string).
    (** a thrown non-[Error] value, with its [String(error)] *)

Inductive Result (A : Type) : Type :=
| Ok (a : A)
| Throw (e : ErrorValue).
Arguments Ok {A} a.
Arguments Throw {A} e.

(** [error instanceof Error ? error.message : String(error)]. *)
Definition error_text (e : ErrorValue) : string :=
  match e with
  | AxiosError _ _ m => m
  | JsError m => m
  | NonError t => t
  end.

(* ================================================================== *)
(** ** constants.ts *)
(* ================================================================== *)

Definition FILE_SIZE_LIMIT : Z := 40 * 1024 * 1024.
Definition CHARACTER_LIMIT : Z := 25000.
Definition DEFAULT_PAGE_LIMIT : Z := 20.
Definition MAX_PAGE_LIMIT : Z := 100.

Inductive ResponseFormat : Type := MARKDOWN | JSON.

(* ================================================================== *)
(** ** types.ts *)
(* ================================================================== *)

Record IagonFile : Type := mkIagonFile {
  file_id : string;
  file_name : string;
  file_size : Z;
  file_mimeType : option string;
  file_createdAt : string
}.

Record PaginatedResponse : Type := mkPage {
  items : list IagonFile;
  total : Z;
  count : Z;
  offset : Z;
  hasMore : bool;
  nextOffset : option Z
}.

Record UploadResult : Type := mkUploadResult {
  success : bool;
  fileId : option string;
  fileName : string;
  fileSize : Z;
  message : string
}.

Inductive Status : Type := Success | Failed | Skipped.

Record Outcome : Type := mkOutcome {
  out_path : string;
  out_status : Status;
  out_message : string;
  out_fileId : option string
}.

Record BulkOperationResult : Type := mkBulk {
  bulk_total : Z;
  successful : Z;
  failed : Z;
  skipped : Z;
  results : list Outcome
}.

(** What a tool handler returns: one text block, flagged or not. *)
Record ToolResponse : Type := mkResponse {
  isError : bool;
  text : string
}.

(* ================================================================== *)
(** ** The local file system *)
(* ================================================================== *)

(** A node as [fs.statSync] and [fs.readdirSync(_, {withFileTypes: true})]
    show it.  Every node has a byte size; a directory lists its entries in
    [readdirSync] order; [OtherNode] is an entry that is neither
    [isFile()] nor [isDirectory()] (symbolic link, socket, device). *)
#[local] Set Warnings "-register-all".
Inductive fsnode : Type :=
| RegularFile (size : Z)
| Directory (size : Z) (entries : list (string * fsnode))
| OtherNode (size : Z).

Record Stats : Type := mkStats {
  st_size : Z;
  st_isDirectory : bool;
  st_isFile : bool
}.

Definition stats_of (n : fsnode) : Stats :=
  match n with
  | RegularFile sz => mkStats sz false true
  | Directory sz _ => mkStats sz true false
  | OtherNode sz => mkStats sz false false
  end.

(* ================================================================== *)
(** ** HTTP traffic *)
(* ================================================================== *)

Inductive Request : Type :=
| PostUpload (localPath fileName : string)
    (** [POST /files/upload], multipart body streaming [localPath] *)
| GetFiles (folderId : option string) (limit offset : Z)
    (** [GET /files] *)
| GetSearch (q : string) (limit offset : Z).
    (** [GET /files/search] *)

(** The fields of a JSON response body that the client reads. *)
Record Body : Type := mkBody {
  body_id : option string;
  body_fileId : option string;
  body_files : option (list IagonFile);
  body_items : option (list IagonFile);
  body_total : option Z
}.

Inductive AxiosOutcome : Type :=
| Resolved (data : Body)
| Rejected (e : ErrorValue).

(* ================================================================== *)
(** ** The host: Node.js, the environment and the remote service *)
(* ================================================================== *)

(** Everything the program obtains from outside itself.  The file system
    is static during one tool call.  [host_http] is the remote service: it
    answers a request knowing the requests made before it.
    [host_formatNonZero] is [formatBytes] on a non-zero argument, which
    the source computes with [Math.log], a division and [toFixed] on
    doubles.  [host_RegExp_test src s] is [new RegExp(src, "i").test(s)],
    [Throw] standing for the constructor's [SyntaxError].
    [host_JSON_stringify] is [JSON.stringify(_, null, 2)] on a page and
    [host_replace text pat by] is [text.replace(pat, by)] for a string
    [pat]. *)
Record Host : Type := mkHost {
  host_fs : string -> option fsnode;
  host_join : string -> string -> string;
  host_basename : string -> string;
  host_formatNonZero : Z -> string;
  host_RegExp_test : string -> string -> Result bool;
  host_http : list Request -> Request -> AxiosOutcome;
  host_JSON_stringify : PaginatedResponse -> string;
  host_replace : string -> string -> string -> string;
  host_IAGON_ACCESS_TOKEN : option string
}.

(** [formatBytes] of constants.ts. *)
Definition formatBytes (h : Host) (bytes : Z) : string :=
  if bytes =? 0 then "0 Bytes" else host_formatNonZero h bytes.

Definition existsSync (h : Host) (p : string) : bool :=
  match host_fs h p with Some _ => true | None => false end.

Definition statSync (h : Host) (p : string) : Result Stats :=
  match host_fs h p with
  | Some n => Ok (stats_of n)
  | None => Throw (JsError ("ENOENT: no such file or directory, stat '" ++ p ++ "'"))
  end.

(** Induction over a tree: a directory has the property as soon as the
    nodes of all its entries have it. *)
Fixpoint fsnode_tree_ind (P : fsnode -> Prop)
    (Hfile : forall sz, P (RegularFile sz))
    (Hdir : forall sz entries,
        Forall (fun e => P (snd e)) entries -> P (Directory sz entries))
    (Hother : forall sz, P (OtherNode sz))
    (n : fsnode) {struct n} : P n :=
  match n with
  | RegularFile sz => Hfile sz
  | Directory sz entries =>
      Hdir sz entries
        ((fix all (es : list (string * fsnode)) : Forall (fun e => P (snd e)) es :=
            match es with
            | [] => Forall_nil _
            | e :: rest =>
                Forall_cons e (fsnode_tree_ind P Hfile Hdir Hother (snd e)) (all rest)
            end) entries)
  | OtherNode sz => Hother sz
  end.

(* ================================================================== *)
(** ** A regular-expression engine for translated glob patterns *)
(* ================================================================== *)

(** The sources that [getFilesFromDirectory] hands to [RegExp] are made of
    ordinary characters, of [.] and of [.*].  [GlobRegex] interprets
    exactly these, with the [i] flag, over ASCII names; a source with any
    other regular-expression syntax is not interpreted ([None]). *)
Module GlobRegex.

Inductive atom : Type :=
| Lit (c : ascii)     (** an ordinary character *)
| AnyChar             (** [.] *)
| AnyStar.            (** [.*] *)

(** Characters with a meaning of their own in a pattern source. *)
Definition is_syntax (c : ascii) : bool :=
  existsb (Ascii.eqb c)
    (list_ascii_of_string "\^$*+?()[]{}|").

(** Parsing of a source; [None] outside the interpreted fragment. *)
Fixpoint parse (src : string) : option (list atom) :=
  match src with
  | EmptyString => Some []
  | String "."%char (String "*"%char rest) =>
      option_map (cons AnyStar) (parse rest)
  | String "."%char rest => option_map (cons AnyChar) (parse rest)
  | String c rest =>
      if is_syntax c then None else option_map (cons (Lit c)) (parse rest)
  end.

(** Canonicalisation under the [i] flag: ASCII upper-casing. *)
Definition upcase (c : ascii) : ascii :=
  let n := nat_of_ascii c in
  if (97 <=? n)%nat && (n <=? 122)%nat then ascii_of_nat (n - 32) else c.

Definition same_letter (a b : ascii) : bool :=
  Ascii.eqb (upcase a) (upcase b).

(** [.] matches every character but a line terminator. *)
Definition dot (c : ascii) : bool :=
  negb (Ascii.eqb c "010"%char || Ascii.eqb c "013"%char).

(** Does [re] match a prefix of [s]?  Backtracking over [.*]. *)
Fixpoint match_here (re : list atom) (s : list ascii) : bool :=
  match re with
  | [] => true
  | Lit a :: re' =>
      match s with
      | c :: s' => same_letter a c && match_here re' s'
      | [] => false
      end
  | AnyChar :: re' =>
      match s with
      | c :: s' => dot c && match_here re' s'
      | [] => false
      end
  | AnyStar :: re' =>
      (fix star (t : list ascii) : bool :=
         match_here re' t ||
         match t with
         | c :: t' => dot c && star t'
         | [] => false
         end) s
  end.

(** Does [re] match somewhere in [s]?  A source without [^] and [$] is
    not anchored: [test] tries every start position. *)
Fixpoint search (re : list atom) (s : list ascii) : bool :=
  match_here re s ||
  match s with
  | _ :: s' => search re s'
  | [] => false
  end.

(** [new RegExp(src, "i").test(subject)] on the fragment. *)
Definition test (src subject : string) : option bool :=
  option_map (fun re => search re (list_ascii_of_string subject)) (parse src).

(** An engine for [Host]: the fragment, and a [SyntaxError] elsewhere. *)
Definition engine (src subject : string) : Result bool :=
  match test src subject with
  | Some b => Ok b
  | None => Throw (JsError ("Invalid regular expression: /" ++ src ++ "/"))
  end.

End GlobRegex.

(* ================================================================== *)
(** ** tools/batch-tools.ts: the input enumerator *)
(* ================================================================== *)

(** The source text handed to [RegExp]:
    [pattern.replace(/\*/g, ".*").replace(/\?/g, ".")]. *)
Definition pattern_source (pattern : string) : string :=
  replace_all "?"%char "." (replace_all "*"%char ".*" pattern).

Section Enumerator.
Variable h : Host.
Variable recursive : bool.
Variable pattern : option string.

(** The pattern filter on one file entry: [Ok true] keeps the entry,
    [Ok false] is the [continue]. *)
Definition pattern_keeps (name : string) : Result bool :=
  if truthy pattern then
    match pattern with
    | Some p => host_RegExp_test h (pattern_source p) name
    | None => Ok true
    end
  else Ok true.

(** The [for (const entry of entries)] loop, [files] being the array
    built so far; [descend] is the recursive call on a subdirectory. *)
Fixpoint scan_entries (descend : fsnode -> string -> Result (list string))
    (dirPath : string) (entries : list (string * fsnode))
    (files : list string) : Result (list string) :=
  match entries with
  | [] => Ok files
  | (name, child) :: rest =>
      let fullPath := host_join h dirPath name in
      match child with
      | Directory _ _ =>
          if recursive then
            match descend child fullPath with
            | Ok sub => scan_entries descend dirPath rest (files ++ sub)
            | Throw e => Throw e
            end
          else scan_entries descend dirPath rest files
      | RegularFile _ =>
          match pattern_keeps name with
          | Ok true => scan_entries descend dirPath rest (files ++ [fullPath])
          | Ok false => scan_entries descend dirPath rest files
          | Throw e => Throw e
          end
      | OtherNode _ => scan_entries descend dirPath rest files
      end
  end.

(** [getFilesFromDirectory] once [dirPath] is known to hold [node].  The
    recursive call on an entry that [isDirectory()] finds that entry's
    own listing: the tree is what the file system holds below
    [dirPath]. *)
Fixpoint enumerate (node : fsnode) (dirPath : string) {struct node}
    : Result (list string) :=
  match node with
  | Directory _ entries =>
      scan_entries (fun child p => enumerate child p) dirPath entries []
  | _ =>
      Throw (JsError ("ENOTDIR: not a directory, scandir '" ++ dirPath ++ "'"))
  end.

(** [getFilesFromDirectory(dirPath, recursive, pattern)]. *)
Definition getFilesFromDirectory (dirPath : string) : Result (list string) :=
  match host_fs h dirPath with
  | None => Ok []
  | Some node => enumerate node dirPath
  end.

End Enumerator.

(* ================================================================== *)
(** ** The world and the effect monad *)
(* ================================================================== *)

Record IagonClient : Type := mkIagonClient { client_token : string }.

(** [clientInstance] is the module-level singleton of iagon-client.ts;
    [requests] the HTTP requests issued so far, oldest first;
    [uploadCalls] the local paths [client.uploadFile] was invoked with,
    oldest first (a call counter, kept for the specification only). *)
Record World : Type := mkWorld {
  clientInstance : option IagonClient;
  uploadCalls : list string;
  requests : list Request
}.

Definition M (A : Type) : Type := World -> Result A * World.

Definition ret {A : Type} (a : A) : M A := fun w => (Ok a, w).

Definition throw {A : Type} (e : ErrorValue) : M A := fun w => (Throw e, w).

Definition lift {A : Type} (r : Result A) : M A := fun w => (r, w).

Definition bind {A B : Type} (c : M A) (k : A -> M B) : M B :=
  fun w =>
    match c w with
    | (Ok a, w') => k a w'
    | (Throw e, w') => (Throw e, w')
    end.

(** [try { c } catch (error) { handler error }]. *)
Definition try_catch {A : Type} (c : M A) (handler : ErrorValue -> M A) : M A :=
  fun w =>
    match c w with
    | (Ok a, w') => (Ok a, w')
    | (Throw e, w') => handler e w'
    end.

Declare Scope io_scope.
Delimit Scope io_scope with io.
Notation "x <- c ;; k" := (bind c (fun x => k))
  (at level 61, c at next level, right associativity) : io_scope.

(** [for (const x of xs) { acc = step acc x }], stopped by a throw. *)
Fixpoint for_each {A S : Type} (step : S -> A -> M S) (xs : list A) (acc : S)
    : M S :=
  match xs with
  | [] => ret acc
  | x :: rest => bind (step acc x) (for_each step rest)
  end.

(* ================================================================== *)
(** ** services/iagon-client.ts *)
(* ================================================================== *)

Section Client.
Variable h : Host.
Open Scope io_scope.

(** [handleError]: a thrown value turned into an actionable message. *)
Definition handleError (error : ErrorValue) : string :=
  match error with
  | AxiosError (Some (status, data_message)) _ _ =>
      if status =? 401 then
        "Authentication failed. Please check your IAGON_ACCESS_TOKEN is valid. Generate a new one at https://app.iagon.com → Settings."
      else if status =? 403 then
        "Permission denied. You don't have access to this resource."
      else if status =? 404 then
        "Resource not found. Please check the file/folder ID is correct."
      else if status =? 413 then
        "File too large. Iagon has a 40MB limit per file for sharding."
      else if status =? 429 then
        "Rate limit exceeded. Please wait before making more requests."
      else if status =? 500 then
        "Iagon server error. Please try again later."
      else
        match or_else data_message None with
        | Some m => m
        | None => "API request failed with status " ++ string_of_Z status
        end
  | AxiosError None (Some "ECONNABORTED") _ =>
      "Request timed out. The file may be too large or the network is slow."
  | AxiosError None (Some "ENOTFOUND") _ =>
      "Cannot connect to Iagon servers. Please check your internet connection."
  | _ => "Unexpected error: " ++ error_text error
  end.

(** The constructor of [IagonClient], called without a token. *)
Definition new_IagonClient : Result IagonClient :=
  match or_else (host_IAGON_ACCESS_TOKEN h) None with
  | Some token => Ok (mkIagonClient token)
  | None =>
      Throw (JsError
        "IAGON_ACCESS_TOKEN is required. Generate one at https://app.iagon.com → Settings → Generate Token")
  end.

(** [getIagonClient]: the lazily built singleton. *)
Definition getIagonClient : M IagonClient :=
  fun w =>
    match clientInstance w with
    | Some c => (Ok c, w)
    | None =>
        match new_IagonClient with
        | Ok c => (Ok c, mkWorld (Some c) (uploadCalls w) (requests w))
        | Throw e => (Throw e, w)
        end
    end.

(** One [await this.client.get/post(...)]: the request goes out and the
    remote service answers. *)
Definition send (r : Request) : M Body :=
  fun w =>
    let w' := mkWorld (clientInstance w) (uploadCalls w) (requests w ++ [r]) in
    match host_http h (requests w) r with
    | Resolved data => (Ok data, w')
    | Rejected e => (Throw e, w')
    end.

Definition enter_uploadFile (localPath : string) : M unit :=
  fun w =>
    (Ok tt, mkWorld (clientInstance w) (uploadCalls w ++ [localPath]) (requests w)).

(** [IagonClient.uploadFile(localPath, remotePath?)]. *)
Definition uploadFile (localPath : string) (remotePath : option string)
    : M UploadResult :=
  _ <- enter_uploadFile localPath ;;
  if negb (existsSync h localPath) then
    ret {| success := false;
           fileId := None;
           fileName := host_basename h localPath;
           fileSize := 0;
           message := "File not found: " ++ localPath |}
  else
    stats <- lift (statSync h localPath) ;;
    let fileName :=
      match or_else remotePath None with
      | Some name => name
      | None => host_basename h localPath
      end in
    if st_size stats >? FILE_SIZE_LIMIT then
      ret {| success := false;
             fileId := None;
             fileName := fileName;
             fileSize := st_size stats;
             message :=
               "File " ++ fileName ++ " (" ++ formatBytes h (st_size stats)
               ++ ") exceeds Iagon's 40MB limit. Consider compressing the video or splitting it into smaller segments." |}
    else
      try_catch
        (data <- send (PostUpload localPath fileName) ;;
         ret {| success := true;
                fileId := or_else (body_id data) (body_fileId data);
                fileName := fileName;
                fileSize := st_size stats;
                message :=
                  "Successfully uploaded " ++ fileName ++ " ("
                  ++ formatBytes h (st_size stats) ++ ")" |})
        (fun error =>
           ret {| success := false;
                  fileId := None;
                  fileName := fileName;
                  fileSize := st_size stats;
                  message := handleError error |}).

(** The shared tail of [listFiles] and [searchFiles]: the page built
    from a response body and the requested offset. *)
Definition page_of (data : Body) (offset : Z) : PaginatedResponse :=
  let items :=
    match body_files data with
    | Some files => files
    | None => match body_items data with Some its => its | None => [] end
    end in
  let len := Z.of_nat (List.length items) in
  let total :=
    match body_total data with
    | Some t => if t =? 0 then len else t
    | None => len
    end in
  {| items := items;
     total := total;
     count := len;
     offset := offset;
     hasMore := total >? offset + len;
     nextOffset := if total >? offset + len then Some (offset + len) else None |}.

(** A parameter with a default value: [limit: number = 20]. *)
Definition defaulted (arg : option Z) (default : Z) : Z :=
  match arg with Some v => v | None => default end.

(** [IagonClient.listFiles(folderId?, limit = 20, offset = 0)]. *)
Definition listFiles (folderId : option string) (limit offset : option Z)
    : M PaginatedResponse :=
  let limit := defaulted limit 20 in
  let offset := defaulted offset 0 in
  try_catch
    (data <- send (GetFiles folderId limit offset) ;;
     ret (page_of data offset))
    (fun error => throw (JsError (handleError error))).

(** [IagonClient.searchFiles(query, limit = 20, offset = 0)]. *)
Definition searchFiles (query : string) (limit offset : option Z)
    : M PaginatedResponse :=
  let limit := defaulted limit 20 in
  let offset := defaulted offset 0 in
  try_catch
    (data <- send (GetSearch query limit offset) ;;
     ret (page_of data offset))
    (fun error => throw (JsError (handleError error))).

End Client.

(* ================================================================== *)
(** ** tools/batch-tools.ts: the two batch tools *)
(* ================================================================== *)

Record UploadDirectoryInput : Type := mkUploadDirectoryInput {
  local_directory : string;
  dir_folder_id : option string;
  include_pattern : option string;
  recursive : bool
}.

Record BulkUploadInput : Type := mkBulkUploadInput {
  file_paths : list string;
  bulk_folder_id : option string
}.

Section BatchTools.
Variable h : Host.
Open Scope io_scope.

Definition status_icon (s : Status) : string :=
  match s with Success => "+" | Failed => "X" | Skipped => "-" end.

(** The lines that one outcome adds under "Details". *)
Definition detail_lines (r : Outcome) : list string :=
  ("[" ++ status_icon (out_status r) ++ "] **" ++ host_basename h (out_path r)
     ++ "**: " ++ out_message r)
  :: match or_else (out_fileId r) None with
     | Some id => ["    ID: `" ++ id ++ "`"]
     | None => []
     end.

(** [formatBulkResultAsMarkdown]. *)
Definition formatBulkResultAsMarkdown (result : BulkOperationResult) : string :=
  join_lines
    ([ "# Bulk Upload Results";
       EmptyString;
       "## Summary";
       "- **Total**: " ++ string_of_Z (bulk_total result);
       "- **Successful**: " ++ string_of_Z (successful result);
       "- **Failed**: " ++ string_of_Z (failed result);
       "- **Skipped**: " ++ string_of_Z (skipped result);
       EmptyString ]
     ++ match results result with
        | [] => []
        | _ :: _ =>
            ["## Details"; EmptyString] ++ flat_map detail_lines (results result)
        end).

(** The summary object as both handlers create it before their loop. *)
Definition new_summary (n : nat) : BulkOperationResult :=
  {| bulk_total := Z.of_nat n;
     successful := 0; failed := 0; skipped := 0;
     results := [] |}.

(** [result.failed++; result.results.push({path, status: "failed", message})]. *)
Definition record_failed (result : BulkOperationResult) (p msg : string)
    : BulkOperationResult :=
  {| bulk_total := bulk_total result;
     successful := successful result;
     failed := failed result + 1;
     skipped := skipped result;
     results := results result ++ [mkOutcome p Failed msg None] |}.

(** [result.skipped++; result.results.push({path, status: "skipped", message})]. *)
Definition record_skipped (result : BulkOperationResult) (p msg : string)
    : BulkOperationResult :=
  {| bulk_total := bulk_total result;
     successful := successful result;
     failed := failed result;
     skipped := skipped result + 1;
     results := results result ++ [mkOutcome p Skipped msg None] |}.

(** [result.successful++; result.results.push({path, status: "success",
    message, fileId})]. *)
Definition record_success (result : BulkOperationResult) (p msg : string)
    (id : option string) : BulkOperationResult :=
  {| bulk_total := bulk_total result;
     successful := successful result + 1;
     failed := failed result;
     skipped := skipped result;
     results := results result ++ [mkOutcome p Success msg id] |}.

(** The size check and the upload, common to both loops: what follows
    [const stats = fs.statSync(filePath)]. *)
Definition check_size_and_upload (result : BulkOperationResult)
    (filePath : string) (stats : Stats) : M BulkOperationResult :=
  if st_size stats >? FILE_SIZE_LIMIT then
    ret (record_skipped result filePath
           ("Exceeds 40MB limit (" ++ formatBytes h (st_size stats) ++ ")"))
  else
    uploadResult <- uploadFile h filePath None ;;
    if success uploadResult then
      ret (record_success result filePath
             ("Uploaded (" ++ formatBytes h (st_size stats) ++ ")")
             (fileId uploadResult))
    else
      ret (record_failed result filePath (message uploadResult)).

(** One turn of the loop of [iagon_upload_directory]. *)
Definition directory_step (result : BulkOperationResult) (filePath : string)
    : M BulkOperationResult :=
  stats <- lift (statSync h filePath) ;;
  check_size_and_upload result filePath stats.

(** One turn of the loop of [iagon_bulk_upload]. *)
Definition bulk_step (result : BulkOperationResult) (filePath : string)
    : M BulkOperationResult :=
  if negb (existsSync h filePath) then
    ret (record_failed result filePath "File not found")
  else
    stats <- lift (statSync h filePath) ;;
    check_size_and_upload result filePath stats.

(** The summary of [iagon_upload_directory] over the enumerated files. *)
Definition uploadDirectory_run (files : list string) : M BulkOperationResult :=
  for_each directory_step files (new_summary (List.length files)).

(** The summary of [iagon_bulk_upload] over [params.file_paths]. *)
Definition bulkUpload_run (paths : list string) : M BulkOperationResult :=
  for_each bulk_step paths (new_summary (List.length paths)).

(** The [catch] clause of every handler. *)
Definition error_response (error : ErrorValue) : M ToolResponse :=
  ret (mkResponse true ("Error: " ++ error_text error)).

(** The text returned when the enumeration is empty. *)
Definition no_files_text (params : UploadDirectoryInput) : string :=
  "No files found in " ++ local_directory params
  ++ match or_else (include_pattern params) None with
     | Some p => " matching pattern " ++ dquote ++ p ++ dquote
     | None => EmptyString
     end.

(** The handler of [iagon_upload_directory]. *)
Definition iagon_upload_directory (params : UploadDirectoryInput)
    : M ToolResponse :=
  try_catch
    (if negb (existsSync h (local_directory params)) then
       ret (mkResponse true ("Directory not found: " ++ local_directory params))
     else
       stats <- lift (statSync h (local_directory params)) ;;
       if negb (st_isDirectory stats) then
         ret (mkResponse true
                ("Path is not a directory: " ++ local_directory params))
       else
         files <- lift (getFilesFromDirectory h (recursive params)
                          (include_pattern params) (local_directory params)) ;;
         match files with
         | [] => ret (mkResponse false (no_files_text params))
         | _ :: _ =>
             _ <- getIagonClient h ;;
             result <- uploadDirectory_run files ;;
             ret (mkResponse false (formatBulkResultAsMarkdown result))
         end)
    error_response.

(** The handler of [iagon_bulk_upload]. *)
Definition iagon_bulk_upload (params : BulkUploadInput) : M ToolResponse :=
  try_catch
    (_ <- getIagonClient h ;;
     result <- bulkUpload_run (file_paths params) ;;
     ret (mkResponse false (formatBulkResultAsMarkdown result)))
    error_response.

End BatchTools.

(* ================================================================== *)
(** ** schemas/input-schemas.ts *)
(* ================================================================== *)

(** A JSON value as a tool receives it; a number is any rational. *)
Inductive JsonValue : Type :=
| JNull
| JBoolean (b : bool)
| JNumber (x : Q)
| JString (s : string)
| JCompound.   (** an array or an object *)

(** The outcome of [schema.safeParse]: the parsed value, or the issues. *)
Inductive Parsed (A : Type) : Type :=
| Valid (a : A)
| Invalid (issues : list string).
Arguments Valid {A} a.
Arguments Invalid {A} issues.

Definition issues_of {A : Type} (p : Parsed A) : list string :=
  match p with Valid _ => [] | Invalid issues => issues end.

(** [Number.isInteger]. *)
Definition Q_isInteger (x : Q) : bool := Qeq_bool x (inject_Z (Qfloor x)).

(** The issue a check raises when it fails. *)
Definition check (holds : bool) (issue : string) : list string :=
  if holds then [] else [issue].

(** [z.number().int().min(1, ..).max(MAX_PAGE_LIMIT, ..).default(DEFAULT_PAGE_LIMIT)]. *)
Definition parse_limit (v : option JsonValue) : Parsed Z :=
  match v with
  | None => Valid DEFAULT_PAGE_LIMIT
  | Some (JNumber x) =>
      match (check (Q_isInteger x) "Expected integer, received float"
             ++ check (Qle_bool 1 x) "Limit must be at least 1"
             ++ check (Qle_bool x (inject_Z MAX_PAGE_LIMIT))
                  ("Limit cannot exceed " ++ string_of_Z MAX_PAGE_LIMIT)%string)%list with
      | [] => Valid (Qfloor x)
      | issues => Invalid issues
      end
  | Some _ => Invalid ["Expected number"]
  end.

(** [z.number().int().min(0, ..).default(0)]. *)
Definition parse_offset (v : option JsonValue) : Parsed Z :=
  match v with
  | None => Valid 0
  | Some (JNumber x) =>
      match (check (Q_isInteger x) "Expected integer, received float"
             ++ check (Qle_bool 0 x) "Offset cannot be negative")%list with
      | [] => Valid (Qfloor x)
      | issues => Invalid issues
      end
  | Some _ => Invalid ["Expected number"]
  end.

(** [z.string().optional()]. *)
Definition parse_optional_string (v : option JsonValue) : Parsed (option string) :=
  match v with
  | None => Valid None
  | Some (JString s) => Valid (Some s)
  | Some _ => Invalid ["Expected string"]
  end.

(** [z.nativeEnum(ResponseFormat).default(ResponseFormat.MARKDOWN)]. *)
Definition parse_response_format (v : option JsonValue) : Parsed ResponseFormat :=
  match v with
  | None => Valid MARKDOWN
  | Some (JString "markdown") => Valid MARKDOWN
  | Some (JString "json") => Valid JSON
  | Some _ => Invalid ["Invalid enum value"]
  end.

(** [z.string().min(1, ..).max(200, ..)]. *)
Definition parse_query (v : option JsonValue) : Parsed string :=
  match v with
  | None => Invalid ["Required"]
  | Some (JString s) =>
      match (check (1 <=? String.length s)%nat "Search query is required"
             ++ check (String.length s <=? 200)%nat "Search query too long")%list with
      | [] => Valid s
      | issues => Invalid issues
      end
  | Some _ => Invalid ["Expected string"]
  end.

(** [.strict()]: a key that the schema does not declare is an issue. *)
Definition strict (unknown_keys : list string) : list string :=
  match unknown_keys with
  | [] => []
  | _ :: _ => ["Unrecognized key(s) in object"]
  end.

(** The arguments object handed to [iagon_list_files], field by field. *)
Record ListFilesArgs : Type := mkListFilesArgs {
  lf_limit : option JsonValue;
  lf_offset : option JsonValue;
  lf_folder_id : option JsonValue;
  lf_response_format : option JsonValue;
  lf_unknown_keys : list string
}.

Record ListFilesInput : Type := mkListFilesInput {
  list_limit : Z;
  list_offset : Z;
  list_folder_id : option string;
  list_response_format : ResponseFormat
}.

(** [ListFilesSchema]: [PaginationSchema.extend({folder_id, response_format}).strict()]. *)
Definition ListFilesSchema (args : ListFilesArgs) : Parsed ListFilesInput :=
  match parse_limit (lf_limit args), parse_offset (lf_offset args),
        parse_optional_string (lf_folder_id args),
        parse_response_format (lf_response_format args),
        strict (lf_unknown_keys args) with
  | Valid l, Valid o, Valid f, Valid r, [] => Valid (mkListFilesInput l o f r)
  | pl, po, pf, pr, extra =>
      Invalid (issues_of pl ++ issues_of po ++ issues_of pf ++ issues_of pr ++ extra)%list
  end.

(** The arguments object handed to [iagon_search_files]. *)
Record SearchFilesArgs : Type := mkSearchFilesArgs {
  sf_limit : option JsonValue;
  sf_offset : option JsonValue;
  sf_query : option JsonValue;
  sf_response_format : option JsonValue;
  sf_unknown_keys : list string
}.

Record SearchFilesInput : Type := mkSearchFilesInput {
  search_limit : Z;
  search_offset : Z;
  search_query : string;
  search_response_format : ResponseFormat
}.

(** [SearchFilesSchema]: [PaginationSchema.extend({query, response_format}).strict()]. *)
Definition SearchFilesSchema (args : SearchFilesArgs) : Parsed SearchFilesInput :=
  match parse_limit (sf_limit args), parse_offset (sf_offset args),
        parse_query (sf_query args),
        parse_response_format (sf_response_format args),
        strict (sf_unknown_keys args) with
  | Valid l, Valid o, Valid q, Valid r, [] => Valid (mkSearchFilesInput l o q r)
  | pl, po, pq, pr, extra =>
      Invalid (issues_of pl ++ issues_of po ++ issues_of pq ++ issues_of pr ++ extra)%list
  end.

(* ================================================================== *)
(** ** tools/file-tools.ts: listing and search *)
(* ================================================================== *)

(** What the caller of a registered tool gets back.  The server checks the
    arguments against the tool's [inputSchema] first and runs the handler
    only on arguments that parse. *)
Inductive ToolResult : Type :=
| InvalidParams (issues : list string)
| Handled (response : ToolResponse).

Definition call_tool {Args Input : Type} (inputSchema : Args -> Parsed Input)
    (handler : Input -> M ToolResponse) (args : Args)
    : World -> ToolResult * World :=
  fun w =>
    match inputSchema args with
    | Invalid issues => (InvalidParams issues, w)
    | Valid params =>
        match handler params w with
        | (Ok response, w') => (Handled response, w')
        | (Throw e, w') => (Handled (mkResponse true (error_text e)), w')
        end
    end.

Section FileTools.
Variable h : Host.
Open Scope io_scope.

(** The lines of one file under the heading. *)
Definition file_lines (file : IagonFile) : list string :=
  [ "## " ++ file_name file;
    "- **ID**: `" ++ file_id file ++ "`";
    "- **Size**: " ++ formatBytes h (file_size file) ]
  ++ match or_else (file_mimeType file) None with
     | Some t => ["- **Type**: " ++ t]
     | None => []
     end
  ++ [ "- **Created**: " ++ file_createdAt file; EmptyString ].

(** [formatFilesAsMarkdown]. *)
Definition formatFilesAsMarkdown (files : list IagonFile) (total offset : Z)
    (hasMore : bool) : string :=
  join_lines
    ([ "# Files in Iagon Storage"; EmptyString;
       "Showing " ++ string_of_Z (Z.of_nat (List.length files)) ++ " of "
         ++ string_of_Z total ++ " files (offset: " ++ string_of_Z offset ++ ")";
       EmptyString ]
     ++ match files with
        | [] => ["*No files found*"]
        | _ :: _ => flat_map file_lines files
        end
     ++ (if hasMore then
           [ "---";
             "*More files available. Use offset="
               ++ string_of_Z (offset + Z.of_nat (List.length files))
               ++ " to see next page.*" ]
         else [])).

(** The cut at [CHARACTER_LIMIT]. *)
Definition truncate (text : string) : string :=
  if Z.of_nat (String.length text) >? CHARACTER_LIMIT then
    substring 0 (Z.to_nat CHARACTER_LIMIT) text
    ++ newline ++ newline
    ++ "*Response truncated. Use pagination to see more results.*"
  else text.

(** The handler of [iagon_list_files]. *)
Definition iagon_list_files (params : ListFilesInput) : M ToolResponse :=
  try_catch
    (_ <- getIagonClient h ;;
     result <- listFiles h (list_folder_id params)
                 (Some (list_limit params)) (Some (list_offset params)) ;;
     let text :=
       match list_response_format params with
       | JSON => host_JSON_stringify h result
       | MARKDOWN =>
           formatFilesAsMarkdown (items result) (total result) (offset result)
             (hasMore result)
       end in
     ret (mkResponse false (truncate text)))
    (error_response).

(** The handler of [iagon_search_files]. *)
Definition iagon_search_files (params : SearchFilesInput) : M ToolResponse :=
  try_catch
    (_ <- getIagonClient h ;;
     result <- searchFiles h (search_query params)
                 (Some (search_limit params)) (Some (search_offset params)) ;;
     let text :=
       match search_response_format params with
       | JSON => host_JSON_stringify h result
       | MARKDOWN =>
           host_replace h
             (formatFilesAsMarkdown (items result) (total result)
                (offset result) (hasMore result))
             "# Files in Iagon Storage"
             ("# Search Results: " ++ dquote ++ search_query params ++ dquote)
       end in
     ret (mkResponse false (truncate text)))
    (error_response).

(** The two tools as registered: schema first, then handler. *)
Definition list_files_tool : ListFilesArgs -> World -> ToolResult * World :=
  call_tool ListFilesSchema iagon_list_files.

Definition search_files_tool : SearchFilesArgs -> World -> ToolResult * World :=
  call_tool SearchFilesSchema iagon_search_files.

End FileTools.

(* ================================================================== *)
(** ** A concrete host *)
(* ================================================================== *)

(** A small POSIX machine and a remote collection of 45 files, on which
    the program can be run. *)
Module Sample.

Definition join (dirPath name : string) : string := dirPath ++ "/" ++ name.

Fixpoint basename_from (s acc : string) : string :=
  match s with
  | EmptyString => acc
  | String "/"%char rest => basename_from rest EmptyString
  | String c rest => basename_from rest (acc ++ String c EmptyString)
  end.

Definition basename (p : string) : string := basename_from p EmptyString.

(** How often [bytes] can be divided by 1024: the unit index that
    [Math.floor(Math.log(bytes) / Math.log(1024))] stands for. *)
Fixpoint unit_index (fuel : nat) (bytes : Z) : nat :=
  match fuel with
  | O => O
  | S fuel' => if bytes <? 1024 then O else S (unit_index fuel' (bytes / 1024))
  end.

(** [formatBytes] on a positive integer, read in exact arithmetic:
    two decimals, nearest with ties upwards, trailing zeros dropped. *)
Definition formatNonZero (bytes : Z) : string :=
  let i := unit_index 12 bytes in
  let unit := 1024 ^ Z.of_nat i in
  let hundredths := (200 * bytes + unit) / (2 * unit) in
  let whole := hundredths / 100 in
  let frac := hundredths mod 100 in
  (if frac =? 0 then string_of_Z whole
   else if frac mod 10 =? 0 then string_of_Z whole ++ "." ++ string_of_Z (frac / 10)
   else string_of_Z whole ++ "." ++ (if frac <? 10 then "0" else EmptyString)
        ++ string_of_Z frac)
  ++ " " ++ nth i ["Bytes"; "KB"; "MB"; "GB"; "TB"] "undefined".

(** Every node of a tree with its absolute path. *)
Fixpoint listing (node : fsnode) (p : string) {struct node}
    : list (string * fsnode) :=
  (p, node)
  :: match node with
     | Directory _ entries =>
         flat_map (fun e => listing (snd e) (join p (fst e))) entries
     | _ => []
     end.

Definition videos : fsnode :=
  Directory 4096
    [ ("clip.MP4", RegularFile 1048576);
      ("clip.mp4x", RegularFile 2048);
      ("notes.txt", RegularFile 12);
      ("raw", Directory 4096 [ ("take1.mp4", RegularFile 52428800) ]);
      ("latest", OtherNode 9) ].

Definition big : fsnode :=
  Directory 4096
    [ ("exact.bin", RegularFile 41943040);
      ("over.bin", RegularFile 41943041) ].

Definition table : list (string * fsnode) :=
  listing videos "/videos" ++ listing big "/big"
  ++ listing (Directory 4096 []) "/empty".

Fixpoint lookup (t : list (string * fsnode)) (p : string) : option fsnode :=
  match t with
  | [] => None
  | (q, node) :: rest => if String.eqb p q then Some node else lookup rest p
  end.

(** [text.replace(pat, by)] for a replacement without [$] sequences: the
    first occurrence of [pat] gives way to [by]. *)
Fixpoint replace_first (text pat by_ : string) : string :=
  if prefix pat text then
    by_ ++ substring (String.length pat)
             (String.length text - String.length pat) text
  else
    match text with
    | EmptyString => EmptyString
    | String c rest => String c (replace_first rest pat by_)
    end.

(** A stand-in for [JSON.stringify]: the pagination fields of a page. *)
Definition stringify (page : PaginatedResponse) : string :=
  "{ total: " ++ string_of_Z (total page)
  ++ ", count: " ++ string_of_Z (count page)
  ++ ", offset: " ++ string_of_Z (offset page)
  ++ (if hasMore page then ", hasMore: true" else ", hasMore: false")
  ++ match nextOffset page with
     | Some n => ", nextOffset: " ++ string_of_Z n
     | None => EmptyString
     end
  ++ " }".

Definition remote_file (i : nat) : IagonFile :=
  let n := string_of_Z (Z.of_nat i) in
  mkIagonFile ("f" ++ n) ("file-" ++ n ++ ".mp4") (Z.of_nat i * 1024)
    None "2025-01-01T00:00:00Z".

Definition remote_files : list IagonFile := map remote_file (seq 0 45).

Definition window (limit offset : Z) : list IagonFile :=
  firstn (Z.to_nat limit) (skipn (Z.to_nat offset) remote_files).

(** The remote service: uploads succeed except for [notes.txt], which is
    answered 413; listing reports the collection size, search does not. *)
Definition http (history : list Request) (r : Request) : AxiosOutcome :=
  match r with
  | PostUpload _ name =>
      if String.eqb name "notes.txt" then
        Rejected (AxiosError (Some (413, None)) None
                    "Request failed with status code 413")
      else Resolved (mkBody (Some ("id-" ++ name)) None None None None)
  | GetFiles _ limit offset =>
      Resolved (mkBody None None (Some (window limit offset)) None (Some 45))
  | GetSearch _ limit offset =>
      Resolved (mkBody None None None (Some (window limit offset)) None)
  end.

Definition host : Host :=
  {| host_fs := lookup table;
     host_join := join;
     host_basename := basename;
     host_formatNonZero := formatNonZero;
     host_RegExp_test := GlobRegex.engine;
     host_http := http;
     host_JSON_stringify := stringify;
     host_replace := replace_first;
     host_IAGON_ACCESS_TOKEN := Some "token" |}.

(** A fresh process: no client yet, nothing sent. *)
Definition world0 : World := mkWorld None [] [].

End Sample.

(* ================================================================== *)
(** ** Vocabulary of the specification *)
(* ================================================================== *)

Definition status_eqb (a b : Status) : bool :=
  match a, b with
  | Success, Success | Failed, Failed | Skipped, Skipped => true
  | _, _ => false
  end.

(** How many outcomes of a list carry the status [s]. *)
Definition count_status (s : Status) (os : list Outcome) : Z :=
  Z.of_nat (List.length (filter (fun o => status_eqb (out_status o) s) os)).

(** The summary [r] accounts for the candidates, one outcome each, in
    their order, and its counters count what its outcomes say. *)
Record covers (r : BulkOperationResult) (candidates : list string) : Prop :=
  mkCovers {
    covers_total : bulk_total r = Z.of_nat (List.length candidates);
    covers_sum : bulk_total r = successful r + failed r + skipped r;
    covers_length : List.length (results r) = List.length candidates;
    covers_order : map out_path (results r) = candidates;
    covers_successful : successful r = count_status Success (results r);
    covers_failed : failed r = count_status Failed (results r);
    covers_skipped : skipped r = count_status Skipped (results r)
  }.

(** [p] is the path of a regular file listed in [entries] itself, kept by
    the pattern. *)
Definition direct_file (h : Host) (pattern : option string) (root : string)
    (entries : list (string * fsnode)) (p : string) : Prop :=
  exists name sz,
    In (name, RegularFile sz) entries
    /\ pattern_keeps h pattern name = Ok true
    /\ p = host_join h root name.

(** [p] is enumerated from below a subdirectory listed in [entries]. *)
Definition nested_file (h : Host) (pattern : option string) (root : string)
    (entries : list (string * fsnode)) (p : string) : Prop :=
  exists dname dsz sub files,
    In (dname, Directory dsz sub) entries
    /\ enumerate h true pattern (Directory dsz sub) (host_join h root dname)
       = Ok files
    /\ In p files.

(** *** Reference semantics of patterns *)



(** The filter as the specification words it: a shell glob in which [*]
    stands for any run of characters and [?] for exactly one character,
    every other character for itself, compared without regard to case
    with the whole base name. *)
Fixpoint glob_match (pattern name : list ascii) : bool :=
  match pattern with
  | [] => match name with [] => true | _ :: _ => false end
  | "*"%char :: pattern' =>
      (fix star (t : list ascii) : bool :=
         glob_match pattern' t
         || match t with
            | _ :: t' => star t'
            | [] => false
            end) name
  | "?"%char :: pattern' =>
      match name with
      | _ :: name' => glob_match pattern' name'
      | [] => false
      end
  | c :: pattern' =>
      match name with
      | x :: name' => GlobRegex.same_letter c x && glob_match pattern' name'
      | [] => false
      end
  end.

Definition spec_pattern_keeps (pattern name : string) : bool :=
  glob_match (list_ascii_of_string pattern) (list_ascii_of_string name).



(** *** File systems whose lookups agree with their listings *)

(** What a directory lists under [name] is what the path of that entry
    leads to. *)
Definition coherent (h : Host) : Prop :=
  forall d sz entries name child,
    host_fs h d = Some (Directory sz entries) ->
    In (name, child) entries ->
    host_fs h (host_join h d name) = Some child.

(** The client can be obtained: it exists already or the token is set. *)
Definition client_available (h : Host) (w : World) : Prop :=
  clientInstance w <> None \/ truthy (host_IAGON_ACCESS_TOKEN h) = true.


(** The world after [client.uploadFile(p)] returned without a request. *)
Definition after_call (w : World) (p : string) : World :=
  mkWorld (clientInstance w) (uploadCalls w ++ [p]) (requests w).

(** The world after [client.uploadFile(p)] posted [p] under [name]. *)
Definition after_upload (w : World) (p name : string) : World :=
  mkWorld (clientInstance w) (uploadCalls w ++ [p])
    (requests w ++ [PostUpload p name]).

(** The name a file is uploaded under: [remotePath || path.basename(p)]. *)
Definition upload_name (h : Host) (p : string) (remotePath : option string)
    : string :=
  match or_else remotePath None with
  | Some name => name
  | None => host_basename h p
  end.

(** The candidate passes both local checks: [uploadFile] will be called. *)
Definition uploadable (h : Host) (p : string) : bool :=
  match host_fs h p with
  | Some node => negb (st_size (stats_of node) >? FILE_SIZE_LIMIT)
  | None => false
  end.

(** [r'] is [r] after one more outcome [o]: the outcome is appended and
    the counter of its status, and no other, is incremented. *)
Definition appended (r r' : BulkOperationResult) (o : Outcome) : Prop :=
  results r' = (results r ++ [o])%list
  /\ bulk_total r' = bulk_total r
  /\ successful r' = successful r + count_status Success [o]
  /\ failed r' = failed r + count_status Failed [o]
  /\ skipped r' = skipped r + count_status Skipped [o].

(** What the state of the candidate's path says about its outcome in the
    bulk loop. *)
Definition outcome_explained (h : Host) (o : Outcome) : Prop :=
  match host_fs h (out_path o) with
  | None =>
      out_status o = Failed /\ out_message o = "File not found"
      /\ out_fileId o = None
  | Some node =>
      if st_size (stats_of node) >? FILE_SIZE_LIMIT then
        out_status o = Skipped
        /\ out_message o
           = "Exceeds 40MB limit (" ++ formatBytes h (st_size (stats_of node)) ++ ")"
        /\ out_fileId o = None
      else out_status o <> Skipped
  end.

(** What one turn of a batch loop on the candidate [p] does to the world:
    one call of [uploadFile] and one request if [p] passes the local
    checks, nothing otherwise. *)
Definition step_effect (h : Host) (p : string) (w w' : World) : Prop :=
  clientInstance w' = clientInstance w
  /\ uploadCalls w' = (uploadCalls w ++ if uploadable h p then [p] else [])%list
  /\ requests w'
     = (requests w
        ++ if uploadable h p then [PostUpload p (host_basename h p)] else [])%list.

(* ================================================================== *)
(** ** tools/file-tools.ts: the upload tool *)
(* ================================================================== *)

Record UploadFileInput : Type := mkUploadFileInput {
  local_path : string;
  remote_path : option string;
  upload_folder_id : option string
}.

(** An optional string inside a template literal: an absent value prints
    as the word undefined. *)
Definition show_optional (s : option string) : string :=
  match s with Some x => x | None => "undefined" end.

Section UploadTool.
Variable h : Host.
Open Scope io_scope.

(** The text of the response of [iagon_upload_file]. *)
Definition upload_text (result : UploadResult) : string :=
  if success result then
    "**Upload Successful**" ++ newline ++ newline
    ++ "- File: " ++ fileName result ++ newline
    ++ "- Size: " ++ formatBytes h (fileSize result) ++ newline
    ++ "- ID: `" ++ show_optional (fileId result) ++ "`"
  else
    "**Upload Failed**" ++ newline ++ newline ++ message result.

(** The handler of [iagon_upload_file]. *)
Definition iagon_upload_file (params : UploadFileInput) : M ToolResponse :=
  try_catch
    (_ <- getIagonClient h ;;
     result <- uploadFile h (local_path params) (remote_path params) ;;
     ret (mkResponse (negb (success result)) (upload_text result)))
    error_response.

End UploadTool.

(* ================================================================== *)
(** ** schemas/input-schemas.ts: the inputs of the upload tools *)
(* ================================================================== *)

(** [z.string().min(1, issue)]. *)
Definition parse_required_string (issue : string) (v : option JsonValue)
    : Parsed string :=
  match v with
  | None => Invalid ["Required"]
  | Some (JString s) =>
      match check (1 <=? String.length s)%nat issue with
      | [] => Valid s
      | issues => Invalid issues
      end
  | Some _ => Invalid ["Expected string"]
  end.

(** [z.boolean().default(false)]. *)
Definition parse_recursive (v : option JsonValue) : Parsed bool :=
  match v with
  | None => Valid false
  | Some (JBoolean b) => Valid b
  | Some _ => Invalid ["Expected boolean"]
  end.

(** A field that may hold an array, with the elements of the array. *)
Inductive JsonArrayField : Type :=
| NotArray (v : JsonValue)
| Elements (xs : list JsonValue).

(** The elements of [z.array(z.string())], one by one. *)
Fixpoint parse_strings (xs : list JsonValue) : Parsed (list string) :=
  match xs with
  | [] => Valid []
  | x :: rest =>
      match x, parse_strings rest with
      | JString s, Valid ss => Valid (s :: ss)
      | JString _, Invalid issues => Invalid issues
      | _, Valid _ => Invalid ["Expected string"]
      | _, Invalid issues => Invalid ("Expected string" :: issues)
      end
  end.

(** [z.array(z.string()).min(1, ..).max(100, ..)]. *)
Definition parse_file_paths (v : option JsonArrayField) : Parsed (list string) :=
  match v with
  | None => Invalid ["Required"]
  | Some (NotArray _) => Invalid ["Expected array"]
  | Some (Elements xs) =>
      match (check (1 <=? List.length xs)%nat "At least one file path is required"
             ++ check (List.length xs <=? 100)%nat
                  "Cannot upload more than 100 files at once"
             ++ issues_of (parse_strings xs))%list with
      | [] => parse_strings xs
      | issues => Invalid issues
      end
  end.

Record UploadFileArgs : Type := mkUploadFileArgs {
  uf_local_path : option JsonValue;
  uf_remote_path : option JsonValue;
  uf_folder_id : option JsonValue;
  uf_unknown_keys : list string
}.

(** [UploadFileSchema]. *)
Definition UploadFileSchema (args : UploadFileArgs) : Parsed UploadFileInput :=
  match parse_required_string "Local path is required" (uf_local_path args),
        parse_optional_string (uf_remote_path args),
        parse_optional_string (uf_folder_id args),
        strict (uf_unknown_keys args) with
  | Valid l, Valid r, Valid f, [] => Valid (mkUploadFileInput l r f)
  | pl, pr, pf, extra =>
      Invalid (issues_of pl ++ issues_of pr ++ issues_of pf ++ extra)%list
  end.

Record UploadDirectoryArgs : Type := mkUploadDirectoryArgs {
  ud_local_directory : option JsonValue;
  ud_folder_id : option JsonValue;
  ud_include_pattern : option JsonValue;
  ud_recursive : option JsonValue;
  ud_unknown_keys : list string
}.

(** [UploadDirectorySchema]. *)
Definition UploadDirectorySchema (args : UploadDirectoryArgs)
    : Parsed UploadDirectoryInput :=
  match parse_required_string "Directory path is required" (ud_local_directory args),
        parse_optional_string (ud_folder_id args),
        parse_optional_string (ud_include_pattern args),
        parse_recursive (ud_recursive args),
        strict (ud_unknown_keys args) with
  | Valid d, Valid f, Valid p, Valid r, [] =>
      Valid (mkUploadDirectoryInput d f p r)
  | pd, pf, pp, pr, extra =>
      Invalid (issues_of pd ++ issues_of pf ++ issues_of pp ++ issues_of pr
               ++ extra)%list
  end.

Record BulkUploadArgs : Type := mkBulkUploadArgs {
  bu_file_paths : option JsonArrayField;
  bu_folder_id : option JsonValue;
  bu_unknown_keys : list string
}.

(** [BulkUploadSchema]. *)
Definition BulkUploadSchema (args : BulkUploadArgs) : Parsed BulkUploadInput :=
  match parse_file_paths (bu_file_paths args),
        parse_optional_string (bu_folder_id args),
        strict (bu_unknown_keys args) with
  | Valid ps, Valid f, [] => Valid (mkBulkUploadInput ps f)
  | pp, pf, extra => Invalid (issues_of pp ++ issues_of pf ++ extra)%list
  end.

(** The three upload tools as registered. *)
Definition upload_file_tool (h : Host)
    : UploadFileArgs -> World -> ToolResult * World :=
  call_tool UploadFileSchema (iagon_upload_file h).

Definition upload_directory_tool (h : Host)
    : UploadDirectoryArgs -> World -> ToolResult * World :=
  call_tool UploadDirectorySchema (iagon_upload_directory h).

Definition bulk_upload_tool (h : Host)
    : BulkUploadArgs -> World -> ToolResult * World :=
  call_tool BulkUploadSchema (iagon_bulk_upload h).

(* ================================================================== *)
(** ** services/iagon-client.ts: file metadata, deletion and folders *)
(* ================================================================== *)

(** The metadata of one file as [GET /files/:id] returns it. *)
Record FileDetails : Type := mkFileDetails {
  details_file : IagonFile;
  details_folderId : option string;
  details_updatedAt : string
}.

Record IagonFolder : Type := mkIagonFolder {
  folder_id : string;
  folder_name : string;
  folder_parentId : option string
}.

Inductive ApiRequest : Type :=
| GetFile (fileId : string)                         (** [GET /files/:id] *)
| DeleteFile (fileId : string)                      (** [DELETE /files/:id] *)
| PostFolder (name : string) (parentId : option string)  (** [POST /folders] *)
| DeleteFolder (folderId : string).                 (** [DELETE /folders/:id] *)

(** A session: the world of the upload and listing calls, and the
    requests of the calls below, oldest first. *)
Record Session : Type := mkSession {
  session_world : World;
  session_requests : list ApiRequest
}.

(** The remote service on these endpoints.  A resolved request carries the
    response body, [None] being an empty (falsy) body; a rejected one the
    thrown value.  [remote_stringify] is [JSON.stringify(file, null, 2)]. *)
Record Remote : Type := mkRemote {
  remote_getFile : Session -> string -> Result (option FileDetails);
  remote_delete : Session -> ApiRequest -> Result unit;
  remote_postFolder : Session -> string -> option string -> Result (option IagonFolder);
  remote_stringify : FileDetails -> string
}.

Definition MS (A : Type) : Type := Session -> Result A * Session.

Definition retS {A : Type} (a : A) : MS A := fun s => (Ok a, s).

Definition throwS {A : Type} (e : ErrorValue) : MS A := fun s => (Throw e, s).

Definition bindS {A B : Type} (c : MS A) (k : A -> MS B) : MS B :=
  fun s =>
    match c s with
    | (Ok a, s') => k a s'
    | (Throw e, s') => (Throw e, s')
    end.

Definition try_catchS {A : Type} (c : MS A) (handler : ErrorValue -> MS A)
    : MS A :=
  fun s =>
    match c s with
    | (Ok a, s') => (Ok a, s')
    | (Throw e, s') => handler e s'
    end.

(** A computation of the smaller world, run inside a session. *)
Definition in_world {A : Type} (c : M A) : MS A :=
  fun s =>
    match c (session_world s) with
    | (r, w') => (r, mkSession w' (session_requests s))
    end.

(** One request on these endpoints goes out. *)
Definition sent (s : Session) (r : ApiRequest) : Session :=
  mkSession (session_world s) (session_requests s ++ [r]).

Declare Scope session_scope.
Delimit Scope session_scope with session.
Notation "x <- c ;; k" := (bindS c (fun x => k))
  (at level 61, c at next level, right associativity) : session_scope.

Record OperationResult : Type := mkOperationResult {
  op_success : bool;
  op_message : string
}.

Record CreateFolderResult : Type := mkCreateFolderResult {
  created_success : bool;
  created_folder : option IagonFolder;
  created_message : string
}.

(** [axios.isAxiosError(error) && error.response?.status === 404]. *)
Definition is_404 (error : ErrorValue) : bool :=
  match error with
  | AxiosError (Some (status, _)) _ _ => status =? 404
  | _ => false
  end.

Section RemainingClient.
Variable remote : Remote.

(** [IagonClient.getFileInfo(fileId)]. *)
Definition getFileInfo (fileId : string) : MS (option FileDetails) :=
  fun s =>
    match remote_getFile remote s fileId with
    | Ok data => (Ok data, sent s (GetFile fileId))
    | Throw error =>
        if is_404 error then (Ok None, sent s (GetFile fileId))
        else (Throw (JsError (handleError error)), sent s (GetFile fileId))
    end.

(** [IagonClient.deleteFile(fileId)]. *)
Definition deleteFile (fileId : string) : MS OperationResult :=
  fun s =>
    match remote_delete remote s (DeleteFile fileId) with
    | Ok _ =>
        (Ok (mkOperationResult true ("File " ++ fileId ++ " deleted successfully")),
         sent s (DeleteFile fileId))
    | Throw error =>
        (Ok (mkOperationResult false (handleError error)),
         sent s (DeleteFile fileId))
    end.

(** [IagonClient.deleteFolder(folderId)]. *)
Definition deleteFolder (folderId : string) : MS OperationResult :=
  fun s =>
    match remote_delete remote s (DeleteFolder folderId) with
    | Ok _ =>
        (Ok (mkOperationResult true
               ("Folder " ++ folderId ++ " deleted successfully")),
         sent s (DeleteFolder folderId))
    | Throw error =>
        (Ok (mkOperationResult false (handleError error)),
         sent s (DeleteFolder folderId))
    end.

(** [IagonClient.createFolder(name, parentId?)]. *)
Definition createFolder (name : string) (parentId : option string)
    : MS CreateFolderResult :=
  fun s =>
    match remote_postFolder remote s name parentId with
    | Ok data =>
        (Ok (mkCreateFolderResult true data
               ("Folder " ++ dquote ++ name ++ dquote ++ " created successfully")),
         sent s (PostFolder name parentId))
    | Throw error =>
        (Ok (mkCreateFolderResult false None (handleError error)),
         sent s (PostFolder name parentId))
    end.

End RemainingClient.

(* ================================================================== *)
(** ** tools: file metadata, deletion and folder creation *)
(* ================================================================== *)

Record GetFileInfoInput : Type := mkGetFileInfoInput {
  info_file_id : string;
  info_response_format : ResponseFormat
}.

Record CreateFolderInput : Type := mkCreateFolderInput {
  new_folder_name : string;
  new_folder_parent_id : option string
}.

(** [lines.filter(Boolean)]: [null] and the empty string are dropped. *)
Fixpoint filter_Boolean (lines : list (option string)) : list string :=
  match lines with
  | [] => []
  | Some (String c s) :: rest => String c s :: filter_Boolean rest
  | _ :: rest => filter_Boolean rest
  end.

(** [value ? `prefix${value}` : null]. *)
Definition line_if (label : string) (value : option string) : option string :=
  match or_else value None with
  | Some v => Some (label ++ v)
  | None => None
  end.

Section RemainingTools.
Variable h : Host.
Variable remote : Remote.
Open Scope session_scope.

(** The [catch] clause of the handlers, in a session. *)
Definition error_responseS (error : ErrorValue) : MS ToolResponse :=
  in_world (error_response error).

(** The markdown of [iagon_get_file_info]. *)
Definition file_details_text (file : FileDetails) : string :=
  join_lines
    (filter_Boolean
       [ Some ("# File: " ++ file_name (details_file file));
         Some EmptyString;
         Some ("- **ID**: `" ++ file_id (details_file file) ++ "`");
         Some ("- **Size**: " ++ formatBytes h (file_size (details_file file)));
         line_if "- **Type**: " (file_mimeType (details_file file));
         line_if "- **Folder**: " (details_folderId file);
         Some ("- **Created**: " ++ file_createdAt (details_file file));
         Some ("- **Updated**: " ++ details_updatedAt file) ]).

(** The handler of [iagon_get_file_info]. *)
Definition iagon_get_file_info (params : GetFileInfoInput) : MS ToolResponse :=
  try_catchS
    (_ <- in_world (getIagonClient h) ;;
     file <- getFileInfo remote (info_file_id params) ;;
     match file with
     | None =>
         retS (mkResponse true ("File not found: " ++ info_file_id params))
     | Some f =>
         retS (mkResponse false
                 match info_response_format params with
                 | JSON => remote_stringify remote f
                 | MARKDOWN => file_details_text f
                 end)
     end)
    error_responseS.

(** The handler of [iagon_delete_file]. *)
Definition iagon_delete_file (fileId : string) : MS ToolResponse :=
  try_catchS
    (_ <- in_world (getIagonClient h) ;;
     result <- deleteFile remote fileId ;;
     retS (mkResponse (negb (op_success result))
             (if op_success result then
                "**File Deleted**" ++ newline ++ newline ++ "File ID `" ++ fileId
                ++ "` has been permanently deleted."
              else "**Delete Failed**" ++ newline ++ newline ++ op_message result)))
    error_responseS.

(** The handler of [iagon_delete_folder]. *)
Definition iagon_delete_folder (folderId : string) : MS ToolResponse :=
  try_catchS
    (_ <- in_world (getIagonClient h) ;;
     result <- deleteFolder remote folderId ;;
     retS (mkResponse (negb (op_success result))
             (if op_success result then
                "**Folder Deleted**" ++ newline ++ newline ++ "Folder ID `"
                ++ folderId ++ "` has been permanently deleted."
              else "**Delete Failed**" ++ newline ++ newline ++ op_message result)))
    error_responseS.

(** The handler of [iagon_create_folder]. *)
Definition iagon_create_folder (params : CreateFolderInput) : MS ToolResponse :=
  try_catchS
    (_ <- in_world (getIagonClient h) ;;
     result <- createFolder remote (new_folder_name params)
                 (new_folder_parent_id params) ;;
     match created_success result, created_folder result with
     | true, Some folder =>
         retS (mkResponse false
                 (join_lines
                    (filter_Boolean
                       [ Some "**Folder Created Successfully**";
                         Some EmptyString;
                         Some ("- **Name**: " ++ folder_name folder);
                         Some ("- **ID**: `" ++ folder_id folder ++ "`");
                         line_if "- **Parent**: " (folder_parentId folder) ])))
     | _, _ =>
         retS (mkResponse true
                 ("**Failed to Create Folder**" ++ newline ++ newline
                  ++ created_message result))
     end)
    error_responseS.

End RemainingTools.

(** *** Vocabulary of the further properties *)

(** The candidate exists and is over the size limit. *)
Definition oversize (h : Host) (p : string) : bool :=
  match host_fs h p with
  | Some node => st_size (stats_of node) >? FILE_SIZE_LIMIT
  | None => false
  end.

(** The entries of a listing that the flat enumeration keeps: regular
    files whose name the filter keeps, in listing order. *)
Definition kept_entries (h : Host) (pattern : option string)
    (entries : list (string * fsnode)) : list string :=
  map fst
    (filter (fun e =>
               match snd e with
               | RegularFile _ =>
                   match pattern_keeps h pattern (fst e) with
                   | Ok keep => keep
                   | Throw _ => false
                   end
               | _ => false
               end) entries).



(** The gateway lists a fixed collection under [folderId]: every request
    is answered with the requested window and the size of the collection. *)
Definition serves (h : Host) (folderId : option string)
    (collection : list IagonFile) : Prop :=
  forall history limit offset,
    host_http h history (GetFiles folderId limit offset)
    = Resolved
        (mkBody None None
           (Some (firstn (Z.to_nat limit) (skipn (Z.to_nat offset) collection)))
           None (Some (Z.of_nat (List.length collection)))).


(** The response of a tool that needs the client when there is no token. *)
Definition token_error : ToolResponse :=
  mkResponse true
    "Error: IAGON_ACCESS_TOKEN is required. Generate one at https://app.iagon.com → Settings → Generate Token".

(** A remote service to run the calls of a session on: [f1] is a file,
    [gone] an identifier answered with an empty body, any other file
    identifier a 404; the file [locked] cannot be deleted; the folder
    [ghost] is created without a body in the answer. *)
Definition sample_remote : Remote :=
  {| remote_getFile := fun _ fileId =>
       if String.eqb fileId "f1" then
         Ok (Some (mkFileDetails
                     (mkIagonFile "f1" "clip.mp4" 2048 None "2025-01-01T00:00:00Z")
                     None "2025-01-02T00:00:00Z"))
       else if String.eqb fileId "gone" then Ok None
       else if String.eqb fileId "down" then
         Throw (AxiosError (Some (500, None)) None "Request failed with status code 500")
       else
         Throw (AxiosError (Some (404, None)) None "Request failed with status code 404");
     remote_delete := fun _ r =>
       match r with
       | DeleteFile fileId =>
           if String.eqb fileId "locked" then
             Throw (AxiosError (Some (403, None)) None
                      "Request failed with status code 403")
           else Ok tt
       | _ => Ok tt
       end;
     remote_postFolder := fun _ name parentId =>
       if String.eqb name "ghost" then Ok None
       else Ok (Some (mkIagonFolder ("id-" ++ name) name parentId));
     remote_stringify := fun f => file_id (details_file f) |}.

(** A session of a process that has its client. *)
Definition session0 : Session :=
  mkSession (mkWorld (Some (mkIagonClient "token")) [] []) [].

(* ================================================================== *)
(** ** Strings: facts *)
(* ================================================================== *)

Lemma append_assoc (a b c : string) : (a ++ b) ++ c = a ++ (b ++ c).
Proof.
  induction a as [|x a IH]; simpl; [reflexivity | now rewrite IH].
Qed.

Lemma occurs_in_here (before needle after : string) :
  occurs_in needle (before ++ needle ++ after).
Proof. now exists before, after. Qed.

Lemma occurs_in_prefix (needle after : string) :
  occurs_in needle (needle ++ after).
Proof. now exists EmptyString, after. Qed.

Lemma occurs_in_append_r (needle a b : string) :
  occurs_in needle b -> occurs_in needle (a ++ b).
Proof.
  intros (x & y & ->). exists (a ++ x), y.
  now rewrite !append_assoc.
Qed.

(* ================================================================== *)
(** ** The enumerator: facts *)
(* ================================================================== *)

Section EnumeratorFacts.
Variable h : Host.
Variable pattern : option string.

(** The array built so far is only ever appended to. *)
Lemma scan_entries_acc b descend dirPath entries files :
  scan_entries h b pattern descend dirPath entries files
  = match scan_entries h b pattern descend dirPath entries [] with
    | Ok found => Ok (files ++ found)%list
    | Throw e => Throw e
    end.
Proof.
  revert files.
  induction entries as [|[name child] rest IH]; intros files; simpl.
  - now rewrite app_nil_r.
  - destruct child as [fsz | dsz sub | osz]; try apply IH.
    + destruct (pattern_keeps h pattern name) as [[|]|e]; try apply IH; trivial.
      rewrite IH, (IH [host_join h dirPath name]).
      destruct (scan_entries h b pattern descend dirPath rest []); trivial.
      now rewrite app_assoc.
    + destruct b; try apply IH.
      destruct (descend _ _) as [found|e]; trivial.
      rewrite IH, (IH found).
      destruct (scan_entries h true pattern descend dirPath rest []); trivial.
      now rewrite app_assoc.
Qed.

(** What the loop over one listing returns. *)
Lemma scan_entries_In b descend dirPath entries files :
  scan_entries h b pattern descend dirPath entries [] = Ok files ->
  forall p,
    In p files <->
    (exists name sz,
        In (name, RegularFile sz) entries
        /\ pattern_keeps h pattern name = Ok true
        /\ p = host_join h dirPath name)
    \/ (b = true
        /\ exists dname dsz sub found,
             In (dname, Directory dsz sub) entries
             /\ descend (Directory dsz sub) (host_join h dirPath dname) = Ok found
             /\ In p found).
Proof.
  revert files.
  induction entries as [|[name child] rest IH]; intros files; simpl.
  - intros [= <-] p. split; [intros [] |].
    intros [(? & ? & [] & _) | (_ & ? & ? & ? & ? & [] & _)].
  - destruct child as [fsz | dsz sub | osz].
    + destruct (pattern_keeps h pattern name) as [[|]|e] eqn:K; try discriminate.
      * rewrite scan_entries_acc.
        destruct (scan_entries h b pattern descend dirPath rest []) as [found|e] eqn:R;
          try discriminate.
        intros [= <-] p. specialize (IH found eq_refl p).
        simpl. rewrite IH. split.
        -- intros [<- | [(n & s & Hin & Hk & ->) | (Hb & d & ds & su & fo & Hin & Hd & Hp)]].
           ++ left. exists name, fsz. auto.
           ++ left. exists n, s. auto.
           ++ right. split; trivial. exists d, ds, su, fo. auto.
        -- intros [(n & s & [Heq | Hin] & Hk & ->) | (Hb & d & ds & su & fo & [Heq | Hin] & Hd & Hp)].
           ++ injection Heq as -> _. now left.
           ++ right. left. exists n, s. auto.
           ++ discriminate.
           ++ right. right. split; trivial. exists d, ds, su, fo. auto.
      * intros Hscan p. rewrite (IH files Hscan p). split.
        -- intros [(n & s & Hin & Hk & ->) | (Hb & d & ds & su & fo & Hin & Hd & Hp)].
           ++ left. exists n, s. auto.
           ++ right. split; trivial. exists d, ds, su, fo. auto.
        -- intros [(n & s & [Heq | Hin] & Hk & ->) | (Hb & d & ds & su & fo & [Heq | Hin] & Hd & Hp)].
           ++ injection Heq as -> _. congruence.
           ++ left. exists n, s. auto.
           ++ discriminate.
           ++ right. split; trivial. exists d, ds, su, fo. auto.
    + destruct b.
      * destruct (descend (Directory dsz sub) (host_join h dirPath name))
          as [below|e] eqn:D; try discriminate.
        rewrite scan_entries_acc.
        destruct (scan_entries h true pattern descend dirPath rest []) as [found|e] eqn:R;
          try discriminate.
        intros [= <-] p. specialize (IH found eq_refl p).
        simpl. rewrite in_app_iff, IH. split.
        -- intros [Hp | [(n & s & Hin & Hk & ->) | (Hb & d & ds & su & fo & Hin & Hd & Hp)]].
           ++ right. split; trivial. exists name, dsz, sub, below. auto.
           ++ left. exists n, s. auto.
           ++ right. split; trivial. exists d, ds, su, fo. auto.
        -- intros [(n & s & [Heq | Hin] & Hk & ->) | (Hb & d & ds & su & fo & [Heq | Hin] & Hd & Hp)].
           ++ discriminate.
           ++ right. left. exists n, s. auto.
           ++ injection Heq as -> -> ->. left. congruence.
           ++ right. right. split; trivial. exists d, ds, su, fo. auto.
      * intros Hscan p. rewrite (IH files Hscan p). split.
        -- intros [(n & s & Hin & Hk & ->) | (Hb & _)]; [| discriminate].
           left. exists n, s. auto.
        -- intros [(n & s & [Heq | Hin] & Hk & ->) | (Hb & _)]; try discriminate.
           left. exists n, s. auto.
    + intros Hscan p. rewrite (IH files Hscan p). split.
      * intros [(n & s & Hin & Hk & ->) | (Hb & d & ds & su & fo & Hin & Hd & Hp)].
        -- left. exists n, s. auto.
        -- right. split; trivial. exists d, ds, su, fo. auto.
      * intros [(n & s & [Heq | Hin] & Hk & ->) | (Hb & d & ds & su & fo & [Heq | Hin] & Hd & Hp)];
          try discriminate.
        -- left. exists n, s. auto.
        -- right. split; trivial. exists d, ds, su, fo. auto.
Qed.

(** With a filter that never throws, the enumeration of a directory
    returns: the recursion follows the finite tree. *)
Lemma enumerate_returns b :
  (forall name, exists keep, pattern_keeps h pattern name = Ok keep) ->
  forall node dirPath,
    match node with
    | Directory _ _ => exists files, enumerate h b pattern node dirPath = Ok files
    | _ => True
    end.
Proof.
  intros Hfilter node.
  induction node as [fsz | dsz entries IH | osz] using fsnode_tree_ind;
    trivial.
  intros dirPath. simpl.
  generalize (@nil string) as files.
  induction IH as [|[name child] rest Hchild _ IHrest]; intros files; simpl.
  - now exists files.
  - destruct child as [fsz | csz sub | osz]; try apply IHrest.
    + destruct (Hfilter name) as [[|] ->]; apply IHrest.
    + destruct b; try apply IHrest.
      destruct (Hchild (host_join h dirPath name)) as [found Hfound].
      cbn [snd] in Hfound. rewrite Hfound. apply IHrest.
Qed.

End EnumeratorFacts.

(** C8: with [recursive = false] the enumeration of a directory returns
    exactly the regular files listed in that directory itself (those the
    pattern keeps) and nothing from below its subdirectories, whatever
    they contain; with [recursive = true] it returns these files and, in
    addition, everything enumerated from below each subdirectory.  With a
    filter that does not throw, the enumeration returns in both modes. *)
Theorem C8_recursive_flag_controls_descent
    (h : Host) (pattern : option string) (root : string) (sz : Z)
    (entries : list (string * fsnode)) :
  host_fs h root = Some (Directory sz entries) ->
  (forall files,
      getFilesFromDirectory h false pattern root = Ok files ->
      forall p, In p files <-> direct_file h pattern root entries p)
  /\ (forall files,
         getFilesFromDirectory h true pattern root = Ok files ->
         forall p,
           In p files <->
           direct_file h pattern root entries p
           \/ nested_file h pattern root entries p)
  /\ ((forall name, exists keep, pattern_keeps h pattern name = Ok keep) ->
      forall recursive,
      exists files, getFilesFromDirectory h recursive pattern root = Ok files).
Proof.
  intros Hroot. unfold getFilesFromDirectory. rewrite Hroot.
  split; [| split].
  - intros files Hscan p. simpl in Hscan.
    rewrite (scan_entries_In h pattern false _ root entries files Hscan p).
    unfold direct_file. split.
    + intros [Hd | (Hb & _)]; [exact Hd | discriminate].
    + intros Hd. now left.
  - intros files Hscan p. simpl in Hscan.
    rewrite (scan_entries_In h pattern true _ root entries files Hscan p).
    unfold direct_file, nested_file. split.
    + intros [Hd | (_ & Hn)]; [now left | now right].
    + intros [Hd | Hn]; [now left | right; now split].
  - intros Hfilter recursive.
    apply (enumerate_returns h pattern recursive Hfilter (Directory sz entries) root).
Qed.

(** The enumeration of [/videos] on the sample machine, flat and deep. *)
Lemma C8_recursive_flag_witness :
  host_fs Sample.host "/videos" = Some Sample.videos
  /\ (forall p,
         In p ["/videos/clip.MP4"; "/videos/clip.mp4x"; "/videos/notes.txt"] <->
         direct_file Sample.host None "/videos"
           [ ("clip.MP4", RegularFile 1048576);
             ("clip.mp4x", RegularFile 2048);
             ("notes.txt", RegularFile 12);
             ("raw", Directory 4096 [ ("take1.mp4", RegularFile 52428800) ]);
             ("latest", OtherNode 9) ] p)
  /\ (In "/videos/raw/take1.mp4"
         ["/videos/clip.MP4"; "/videos/clip.mp4x"; "/videos/notes.txt";
          "/videos/raw/take1.mp4"] <->
       direct_file Sample.host None "/videos"
         [ ("clip.MP4", RegularFile 1048576);
           ("clip.mp4x", RegularFile 2048);
           ("notes.txt", RegularFile 12);
           ("raw", Directory 4096 [ ("take1.mp4", RegularFile 52428800) ]);
           ("latest", OtherNode 9) ] "/videos/raw/take1.mp4"
       \/ nested_file Sample.host None "/videos"
            [ ("clip.MP4", RegularFile 1048576);
              ("clip.mp4x", RegularFile 2048);
              ("notes.txt", RegularFile 12);
              ("raw", Directory 4096 [ ("take1.mp4", RegularFile 52428800) ]);
              ("latest", OtherNode 9) ] "/videos/raw/take1.mp4")
  /\ (forall recursive,
       exists files,
         getFilesFromDirectory Sample.host recursive None "/videos" = Ok files).
Proof.
  split; [reflexivity |].
  pose proof (C8_recursive_flag_controls_descent
                Sample.host None "/videos" 4096 _ eq_refl)
    as (Hflat & Hdeep & Hreturns).
  split; [exact (Hflat _ eq_refl) |].
  split; [exact (Hdeep _ eq_refl "/videos/raw/take1.mp4") |].
  apply Hreturns. intros name. now exists true.
Defined.



(* ================================================================== *)
(** ** The client: facts *)
(* ================================================================== *)

Section ClientFacts.
Variable h : Host.

Lemma uploadFile_missing p remotePath w :
  host_fs h p = None ->
  uploadFile h p remotePath w
  = (Ok (mkUploadResult false None (host_basename h p) 0
           ("File not found: " ++ p)),
     after_call w p).
Proof.
  intros Hp. unfold uploadFile, bind, enter_uploadFile, existsSync.
  now rewrite Hp.
Qed.

Lemma uploadFile_oversize p remotePath w node :
  host_fs h p = Some node ->
  FILE_SIZE_LIMIT < st_size (stats_of node) ->
  uploadFile h p remotePath w
  = (Ok (mkUploadResult false None (upload_name h p remotePath)
           (st_size (stats_of node))
           ("File " ++ upload_name h p remotePath ++ " ("
            ++ formatBytes h (st_size (stats_of node))
            ++ ") exceeds Iagon's 40MB limit. Consider compressing the video or splitting it into smaller segments.")),
     after_call w p).
Proof.
  intros Hp Hsize.
  unfold uploadFile, bind, enter_uploadFile, existsSync, statSync, lift.
  rewrite Hp. cbn [negb].
  apply Z.gtb_lt in Hsize. now rewrite Hsize.
Qed.

Lemma uploadFile_within_limit p remotePath w node :
  host_fs h p = Some node ->
  st_size (stats_of node) <= FILE_SIZE_LIMIT ->
  exists result,
    uploadFile h p remotePath w
    = (Ok result, after_upload w p (upload_name h p remotePath))
    /\ (success result = false -> fileId result = None).
Proof.
  intros Hp Hsize.
  unfold uploadFile, bind, enter_uploadFile, existsSync, statSync, lift.
  rewrite Hp. cbn [negb].
  assert (Hle : (st_size (stats_of node) >? FILE_SIZE_LIMIT) = false).
  { rewrite Z.gtb_ltb. apply Z.ltb_ge. exact Hsize. }
  rewrite Hle. unfold try_catch, bind, send, ret. cbn [requests].
  fold (upload_name h p remotePath).
  destruct (host_http h (requests w) (PostUpload p (upload_name h p remotePath)));
    eexists; (split; [reflexivity |]); cbn; congruence.
Qed.

(** [uploadFile] resolves on every input: it never throws. *)
Lemma uploadFile_returns p remotePath w :
  exists result w', uploadFile h p remotePath w = (Ok result, w').
Proof.
  destruct (host_fs h p) as [node|] eqn:Hp.
  - destruct (Z.lt_ge_cases FILE_SIZE_LIMIT (st_size (stats_of node))) as [Hbig | Hok].
    + rewrite (uploadFile_oversize p remotePath w node Hp Hbig). eauto.
    + destruct (uploadFile_within_limit p remotePath w node Hp Hok)
        as (result & -> & _). eauto.
  - rewrite (uploadFile_missing p remotePath w Hp). eauto.
Qed.

Lemma page_of_shape data off :
  let page := page_of data off in
  count page = Z.of_nat (List.length (items page))
  /\ offset page = off
  /\ hasMore page = (total page >? off + count page)
  /\ nextOffset page
     = (if hasMore page then Some (off + count page) else None).
Proof. cbv zeta. unfold page_of. cbn. auto. Qed.

Lemma page_of_without_total data off :
  body_total data = None \/ body_total data = Some 0 ->
  total (page_of data off) = count (page_of data off).
Proof. unfold page_of. cbn. intros [-> | ->]; reflexivity. Qed.

Lemma page_of_ends_without_total data off :
  0 <= off ->
  body_total data = None \/ body_total data = Some 0 ->
  total (page_of data off) = Z.of_nat (List.length (items (page_of data off)))
  /\ hasMore (page_of data off) = false
  /\ nextOffset (page_of data off) = None.
Proof.
  intros Hoff Htotal.
  destruct (page_of_shape data off) as (Hcount & _ & Hmore & Hnext).
  cbv zeta in *.
  pose proof (page_of_without_total data off Htotal) as Hsame.
  assert (Hno : hasMore (page_of data off) = false).
  { rewrite Hmore, Hsame, Z.gtb_ltb. apply Z.ltb_ge. lia. }
  rewrite Hnext, Hno, Hsame, Hcount. auto.
Qed.

Lemma listFiles_page folderId limit_arg offset_arg w page w' :
  listFiles h folderId limit_arg offset_arg w = (Ok page, w') ->
  exists data,
    host_http h (requests w)
      (GetFiles folderId (defaulted limit_arg 20) (defaulted offset_arg 0))
    = Resolved data
    /\ page = page_of data (defaulted offset_arg 0).
Proof.
  unfold listFiles, try_catch, bind, send, ret, throw.
  destruct (host_http h (requests w) _) as [data|e]; [| discriminate].
  intros [= <- _]. now exists data.
Qed.

Lemma searchFiles_page query limit_arg offset_arg w page w' :
  searchFiles h query limit_arg offset_arg w = (Ok page, w') ->
  exists data,
    host_http h (requests w)
      (GetSearch query (defaulted limit_arg 20) (defaulted offset_arg 0))
    = Resolved data
    /\ page = page_of data (defaulted offset_arg 0).
Proof.
  unfold searchFiles, try_catch, bind, send, ret, throw.
  destruct (host_http h (requests w) _) as [data|e]; [| discriminate].
  intros [= <- _]. now exists data.
Qed.

End ClientFacts.

(** C5: on every page that [listFiles] or [searchFiles] returns, [count]
    is the number of items, [hasMore] is true exactly when
    [total > offset + count] (false exactly when [offset + count >= total]),
    and [nextOffset] is defined exactly when [hasMore] is true, in which
    case it is [offset + count]. *)
Theorem C5_page_fields_are_derived
    (h : Host) (folderId : option string) (query : string)
    (limit_arg offset_arg : option Z) (w w' : World) (page : PaginatedResponse) :
  listFiles h folderId limit_arg offset_arg w = (Ok page, w')
  \/ searchFiles h query limit_arg offset_arg w = (Ok page, w') ->
  count page = Z.of_nat (List.length (items page))
  /\ (hasMore page = true <-> total page > offset page + count page)
  /\ (hasMore page = false <-> offset page + count page >= total page)
  /\ (nextOffset page <> None <-> hasMore page = true)
  /\ (nextOffset page = None <-> hasMore page = false)
  /\ (hasMore page = true -> nextOffset page = Some (offset page + count page)).
Proof.
  intros Hpage.
  assert (Hshape : exists data off, page = page_of data off).
  { destruct Hpage as [Hl | Hs].
    - destruct (listFiles_page h _ _ _ _ _ _ Hl) as (data & _ & ->). eauto.
    - destruct (searchFiles_page h _ _ _ _ _ _ Hs) as (data & _ & ->). eauto. }
  destruct Hshape as (data & off & ->).
  destruct (page_of_shape data off) as (Hcount & Hoff & Hmore & Hnext).
  cbv zeta in *. rewrite Hoff.
  set (page := page_of data off) in *.
  rewrite Hnext, Hmore.
  destruct (Z.gtb_spec (total page) (off + count page)) as [Hgt | Hle].
  - repeat split; intros; try congruence; try lia.
  - repeat split; intros; try congruence; try lia.
Qed.

(** The last page of the sample collection. *)
Lemma C5_page_fields_witness :
  (listFiles Sample.host None (Some 20) (Some 40) Sample.world0
   = (Ok (page_of
            (mkBody None None (Some (Sample.window 20 40)) None (Some 45)) 40),
      mkWorld None [] [GetFiles None 20 40]))
  /\ count (page_of (mkBody None None (Some (Sample.window 20 40)) None (Some 45)) 40)
     = 5.
Proof.
  split; [reflexivity |].
  exact (proj1 (C5_page_fields_are_derived Sample.host None EmptyString
                  (Some 20) (Some 40) Sample.world0
                  (mkWorld None [] [GetFiles None 20 40])
                  (page_of (mkBody None None (Some (Sample.window 20 40)) None
                              (Some 45)) 40)
                  (or_introl eq_refl))).
Defined.

(** C9: when the body of the gateway's answer carries no [total] (or a
    [total] of 0), the page's [total] is the number of items of that
    answer, so [hasMore] is false and [nextOffset] is undefined, whatever
    the remote collection holds.  The offset is one that the pagination
    schema lets through: omitted or not negative. *)
Theorem C9_missing_total_ends_the_listing
    (h : Host) (folderId : option string) (query : string)
    (limit_arg offset_arg : option Z) (w w' : World)
    (data : Body) (page : PaginatedResponse) :
  0 <= defaulted offset_arg 0 ->
  body_total data = None \/ body_total data = Some 0 ->
  (host_http h (requests w)
     (GetFiles folderId (defaulted limit_arg 20) (defaulted offset_arg 0))
   = Resolved data
   /\ listFiles h folderId limit_arg offset_arg w = (Ok page, w'))
  \/ (host_http h (requests w)
        (GetSearch query (defaulted limit_arg 20) (defaulted offset_arg 0))
      = Resolved data
      /\ searchFiles h query limit_arg offset_arg w = (Ok page, w')) ->
  total page = Z.of_nat (List.length (items page))
  /\ hasMore page = false
  /\ nextOffset page = None.
Proof.
  intros Hoff Htotal Hrun.
  assert (Hpage : page = page_of data (defaulted offset_arg 0)).
  { destruct Hrun as [(Hhttp & Hl) | (Hhttp & Hs)].
    - destruct (listFiles_page h _ _ _ _ _ _ Hl) as (data' & Hhttp' & ->).
      congruence.
    - destruct (searchFiles_page h _ _ _ _ _ _ Hs) as (data' & Hhttp' & ->).
      congruence. }
  subst page. now apply page_of_ends_without_total.
Qed.

(** A search on the sample service, whose answers carry no total. *)
Lemma C9_missing_total_witness :
  0 <= defaulted (Some 0) 0
  /\ (body_total (mkBody None None None (Some (Sample.window 20 0)) None) = None
      \/ body_total (mkBody None None None (Some (Sample.window 20 0)) None)
         = Some 0)
  /\ searchFiles Sample.host "mp4" (Some 20) (Some 0) Sample.world0
     = (Ok (page_of (mkBody None None None (Some (Sample.window 20 0)) None) 0),
        mkWorld None [] [GetSearch "mp4" 20 0])
  /\ total (page_of (mkBody None None None (Some (Sample.window 20 0)) None) 0) = 20
  /\ hasMore (page_of (mkBody None None None (Some (Sample.window 20 0)) None) 0)
     = false
  /\ nextOffset (page_of (mkBody None None None (Some (Sample.window 20 0)) None) 0)
     = None.
Proof.
  assert (Hoff : 0 <= defaulted (Some 0) 0) by discriminate.
  split; [exact Hoff |]. split; [now left |]. split; [reflexivity |].
  exact (C9_missing_total_ends_the_listing Sample.host None "mp4"
           (Some 20) (Some 0) Sample.world0
           (mkWorld None [] [GetSearch "mp4" 20 0])
           (mkBody None None None (Some (Sample.window 20 0)) None)
           (page_of (mkBody None None None (Some (Sample.window 20 0)) None) 0)
           Hoff (or_introl eq_refl) (or_intror (conj eq_refl eq_refl))).
Defined.

(** C10: [IagonClient.uploadFile] checks the candidate itself before any
    request and resolves on every input.  A missing path gives
    [success = false], [fileSize = 0] and a message containing
    "File not found"; a file over 41,943,040 bytes gives [success = false]
    and a message containing the formatted size and "40MB limit"; in both
    cases no request is sent. *)
Theorem C10_uploadFile_checks_before_sending
    (h : Host) (localPath : string) (remotePath : option string) (w : World) :
  FILE_SIZE_LIMIT = 41943040
  /\ (exists result w', uploadFile h localPath remotePath w = (Ok result, w'))
  /\ (host_fs h localPath = None ->
      exists result w',
        uploadFile h localPath remotePath w = (Ok result, w')
        /\ success result = false
        /\ fileSize result = 0
        /\ occurs_in "File not found" (message result)
        /\ requests w' = requests w)
  /\ (forall node,
         host_fs h localPath = Some node ->
         41943040 < st_size (stats_of node) ->
         exists result w',
           uploadFile h localPath remotePath w = (Ok result, w')
           /\ success result = false
           /\ fileSize result = st_size (stats_of node)
           /\ occurs_in (formatBytes h (st_size (stats_of node))) (message result)
           /\ occurs_in "40MB limit" (message result)
           /\ requests w' = requests w).
Proof.
  split; [reflexivity |].
  split; [apply uploadFile_returns |].
  split.
  - intros Hmissing.
    rewrite (uploadFile_missing h localPath remotePath w Hmissing).
    do 2 eexists. split; [reflexivity |]. cbn.
    repeat split. apply occurs_in_prefix with (needle := "File not found").
  - intros node Hnode Hsize.
    rewrite (uploadFile_oversize h localPath remotePath w node Hnode Hsize).
    do 2 eexists. split; [reflexivity |]. cbn.
    repeat split.
    + exists ("File " ++ upload_name h localPath remotePath ++ " (").
      eexists. rewrite !append_assoc. reflexivity.
    + exists ("File " ++ upload_name h localPath remotePath ++ " ("
              ++ formatBytes h (st_size (stats_of node)) ++ ") exceeds Iagon's ").
      exists ". Consider compressing the video or splitting it into smaller segments.".
      rewrite !append_assoc. reflexivity.
Qed.

(** A missing path and an oversize file on the sample machine. *)
Lemma C10_uploadFile_checks_witness :
  host_fs Sample.host "/nowhere/a.mp4" = None
  /\ host_fs Sample.host "/big/over.bin" = Some (RegularFile 41943041)
  /\ (exists result w',
         uploadFile Sample.host "/nowhere/a.mp4" None Sample.world0 = (Ok result, w')
         /\ success result = false
         /\ fileSize result = 0
         /\ occurs_in "File not found" (message result)
         /\ requests w' = requests Sample.world0)
  /\ (exists result w',
         uploadFile Sample.host "/big/over.bin" None Sample.world0 = (Ok result, w')
         /\ success result = false
         /\ fileSize result = 41943041
         /\ occurs_in (formatBytes Sample.host 41943041) (message result)
         /\ occurs_in "40MB limit" (message result)
         /\ requests w' = requests Sample.world0).
Proof.
  split; [reflexivity |]. split; [reflexivity |]. split.
  - exact (proj1 (proj2 (proj2 (C10_uploadFile_checks_before_sending
                                  Sample.host "/nowhere/a.mp4" None Sample.world0)))
             eq_refl).
  - exact (proj2 (proj2 (proj2 (C10_uploadFile_checks_before_sending
                                  Sample.host "/big/over.bin" None Sample.world0)))
             (RegularFile 41943041) eq_refl eq_refl).
Defined.

(* ================================================================== *)
(** ** The batch loops: facts *)
(* ================================================================== *)

Lemma count_status_app s os os' :
  count_status s (os ++ os') = count_status s os + count_status s os'.
Proof.
  unfold count_status. rewrite filter_app, length_app. lia.
Qed.

Lemma count_status_all os :
  count_status Success os + count_status Failed os + count_status Skipped os
  = Z.of_nat (List.length os).
Proof.
  induction os as [|o os IH]; [reflexivity |].
  change (o :: os) with ([o] ++ os)%list.
  rewrite !count_status_app, length_app, Nat2Z.inj_add.
  assert (Hone : count_status Success [o] + count_status Failed [o]
                 + count_status Skipped [o] = 1).
  { unfold count_status. cbn. destruct (out_status o); reflexivity. }
  change (Z.of_nat (List.length [o])) with 1. lia.
Qed.

Section BatchFacts.
Variable h : Host.

Lemma appended_failed r p msg :
  appended r (record_failed r p msg) (mkOutcome p Failed msg None).
Proof. unfold appended, count_status. cbn. repeat split; lia. Qed.

Lemma appended_skipped r p msg :
  appended r (record_skipped r p msg) (mkOutcome p Skipped msg None).
Proof. unfold appended, count_status. cbn. repeat split; lia. Qed.

Lemma appended_success r p msg id :
  appended r (record_success r p msg id) (mkOutcome p Success msg id).
Proof. unfold appended, count_status. cbn. repeat split; lia. Qed.

Lemma step_effect_none p w :
  uploadable h p = false -> step_effect h p w w.
Proof.
  intros Hu. unfold step_effect. rewrite Hu, !app_nil_r. auto.
Qed.

(** A candidate over the limit is skipped and nothing else happens. *)
Lemma check_size_over result p node w :
  host_fs h p = Some node ->
  FILE_SIZE_LIMIT < st_size (stats_of node) ->
  check_size_and_upload h result p (stats_of node) w
  = (Ok (record_skipped result p
           ("Exceeds 40MB limit (" ++ formatBytes h (st_size (stats_of node)) ++ ")")),
     w).
Proof.
  intros _ Hsize. unfold check_size_and_upload.
  apply Z.gtb_lt in Hsize. now rewrite Hsize.
Qed.

(** A candidate within the limit is handed to [uploadFile], which posts
    it; the outcome is a success or a failure, as the gateway decides. *)
Lemma check_size_within result p node w :
  host_fs h p = Some node ->
  st_size (stats_of node) <= FILE_SIZE_LIMIT ->
  exists r' o,
    check_size_and_upload h result p (stats_of node) w
    = (Ok r', after_upload w p (host_basename h p))
    /\ appended result r' o
    /\ out_path o = p
    /\ out_status o <> Skipped.
Proof.
  intros Hp Hsize. unfold check_size_and_upload.
  assert (Hle : (st_size (stats_of node) >? FILE_SIZE_LIMIT) = false).
  { rewrite Z.gtb_ltb. apply Z.ltb_ge. exact Hsize. }
  rewrite Hle. unfold bind.
  destruct (uploadFile_within_limit h p None w node Hp Hsize) as (res & -> & _).
  change (upload_name h p None) with (host_basename h p).
  destruct (success res); unfold ret.
  - do 2 eexists. split; [reflexivity |].
    split; [apply appended_success |]. cbn. split; [reflexivity | discriminate].
  - do 2 eexists. split; [reflexivity |].
    split; [apply appended_failed |]. cbn. split; [reflexivity | discriminate].
Qed.

(** One turn on a path that exists. *)
Lemma check_size_spec result p node w :
  host_fs h p = Some node ->
  exists r' o w',
    check_size_and_upload h result p (stats_of node) w = (Ok r', w')
    /\ appended result r' o
    /\ out_path o = p
    /\ outcome_explained h o
    /\ step_effect h p w w'.
Proof.
  intros Hp.
  destruct (Z.lt_ge_cases FILE_SIZE_LIMIT (st_size (stats_of node))) as [Hbig | Hok].
  - rewrite (check_size_over result p node w Hp Hbig).
    do 3 eexists. split; [reflexivity |].
    split; [apply appended_skipped |]. cbn. split; [reflexivity |].
    apply Z.gtb_lt in Hbig. split.
    + unfold outcome_explained. cbn [out_path]. rewrite Hp, Hbig. cbn. auto.
    + apply step_effect_none. unfold uploadable. now rewrite Hp, Hbig.
  - destruct (check_size_within result p node w Hp Hok)
      as (r' & o & -> & Happ & Hpath & Hstatus).
    assert (Hle : (st_size (stats_of node) >? FILE_SIZE_LIMIT) = false).
    { rewrite Z.gtb_ltb. apply Z.ltb_ge. exact Hok. }
    exists r', o, (after_upload w p (host_basename h p)).
    split; [reflexivity |]. split; [exact Happ |]. split; [exact Hpath |].
    split.
    + unfold outcome_explained. now rewrite Hpath, Hp, Hle.
    + unfold step_effect, uploadable. rewrite Hp, Hle. cbn. auto.
Qed.

Lemma bulk_step_missing result p w :
  existsSync h p = false ->
  bulk_step h result p w = (Ok (record_failed result p "File not found"), w).
Proof. intros He. unfold bulk_step. now rewrite He. Qed.

Lemma existsSync_false p : existsSync h p = false <-> host_fs h p = None.
Proof. unfold existsSync. destruct (host_fs h p); split; congruence. Qed.

Lemma bulk_step_existing result p node w :
  host_fs h p = Some node ->
  bulk_step h result p w = check_size_and_upload h result p (stats_of node) w.
Proof.
  intros Hp. unfold bulk_step, existsSync, bind, lift, statSync.
  now rewrite Hp.
Qed.

Lemma directory_step_existing result p node w :
  host_fs h p = Some node ->
  directory_step h result p w = check_size_and_upload h result p (stats_of node) w.
Proof.
  intros Hp. unfold directory_step, bind, lift, statSync. now rewrite Hp.
Qed.

(** One turn of the bulk loop, on any path. *)
Lemma bulk_step_spec result p w :
  exists r' o w',
    bulk_step h result p w = (Ok r', w')
    /\ appended result r' o
    /\ out_path o = p
    /\ outcome_explained h o
    /\ step_effect h p w w'.
Proof.
  destruct (host_fs h p) as [node|] eqn:Hp.
  - rewrite (bulk_step_existing result p node w Hp).
    now apply check_size_spec.
  - rewrite (bulk_step_missing result p w (proj2 (existsSync_false p) Hp)).
    do 3 eexists. split; [reflexivity |].
    split; [apply appended_failed |]. cbn. split; [reflexivity |].
    split.
    + unfold outcome_explained. cbn [out_path]. rewrite Hp. cbn. auto.
    + apply step_effect_none. unfold uploadable. now rewrite Hp.
Qed.

(** One turn of the directory loop, on a path that [statSync] finds. *)
Lemma directory_step_spec result p w :
  host_fs h p <> None ->
  exists r' o w',
    directory_step h result p w = (Ok r', w')
    /\ appended result r' o
    /\ out_path o = p
    /\ outcome_explained h o
    /\ step_effect h p w w'.
Proof.
  destruct (host_fs h p) as [node|] eqn:Hp; [intros _ | congruence].
  rewrite (directory_step_existing result p node w Hp).
  now apply check_size_spec.
Qed.

(** A loop whose every turn appends one outcome for its candidate runs to
    the end of the list and accounts for each candidate in order. *)
Lemma for_each_spec (step : BulkOperationResult -> string -> M BulkOperationResult)
    (good : string -> Prop) :
  (forall acc x w,
      good x ->
      exists r' o w',
        step acc x w = (Ok r', w')
        /\ appended acc r' o
        /\ out_path o = x
        /\ outcome_explained h o
        /\ step_effect h x w w') ->
  forall xs,
    Forall good xs ->
    forall acc w,
    exists r os w',
      for_each step xs acc w = (Ok r, w')
      /\ results r = (results acc ++ os)%list
      /\ map out_path os = xs
      /\ bulk_total r = bulk_total acc
      /\ successful r = successful acc + count_status Success os
      /\ failed r = failed acc + count_status Failed os
      /\ skipped r = skipped acc + count_status Skipped os
      /\ Forall (outcome_explained h) os
      /\ clientInstance w' = clientInstance w
      /\ uploadCalls w' = (uploadCalls w ++ filter (uploadable h) xs)%list
      /\ requests w'
         = (requests w
            ++ map (fun p => PostUpload p (host_basename h p))
                 (filter (uploadable h) xs))%list.
Proof.
  intros Hstep xs Hgood.
  induction Hgood as [|x xs Hx _ IH]; intros acc w.
  - exists acc, [], w. cbn. rewrite !app_nil_r.
    unfold count_status. cbn. repeat split; auto; lia.
  - destruct (Hstep acc x w Hx)
      as (r1 & o & w1 & Hrun & (Hres & Htot & Hs & Hf & Hk) & Hpath & Hexp
          & Hci & Hcalls & Hreqs).
    destruct (IH r1 w1)
      as (r & os & w' & Hloop & Hres' & Hmap & Htot' & Hs' & Hf' & Hk' & Hall
          & Hci' & Hcalls' & Hreqs').
    exists r, (o :: os), w'.
    cbn [for_each]. unfold bind at 1. rewrite Hrun.
    split; [exact Hloop |].
    change (o :: os) with ([o] ++ os)%list.
    rewrite !count_status_app.
    split; [rewrite Hres', Hres, <- app_assoc; reflexivity |].
    split; [cbn; now rewrite Hpath, Hmap |].
    split; [congruence |].
    split; [lia |]. split; [lia |]. split; [lia |].
    split; [now constructor |].
    split; [congruence |].
    cbn [filter]. rewrite Hcalls', Hcalls, Hreqs', Hreqs.
    destruct (uploadable h x); cbn; rewrite <- !app_assoc; auto.
Qed.

(** The summary of a loop that started from [new_summary] covers the
    candidates. *)
Lemma covers_from_new_summary xs r os :
  results r = (results (new_summary (List.length xs)) ++ os)%list ->
  map out_path os = xs ->
  bulk_total r = bulk_total (new_summary (List.length xs)) ->
  successful r = successful (new_summary (List.length xs)) + count_status Success os ->
  failed r = failed (new_summary (List.length xs)) + count_status Failed os ->
  skipped r = skipped (new_summary (List.length xs)) + count_status Skipped os ->
  covers r xs.
Proof.
  cbn. intros Hres Hmap Htot Hs Hf Hk.
  assert (Hlen : List.length os = List.length xs).
  { rewrite <- Hmap. now rewrite length_map. }
  pose proof (count_status_all os) as Hall.
  constructor; rewrite ?Hres; try assumption; try lia.
Qed.

(** Both loops run to the end and their summary covers the candidates. *)
Lemma bulkUpload_run_covers paths w :
  exists r w', bulkUpload_run h paths w = (Ok r, w') /\ covers r paths.
Proof.
  destruct (for_each_spec (bulk_step h) (fun _ => True)
              (fun acc x w0 _ => bulk_step_spec acc x w0) paths
              (proj2 (Forall_forall _ _) (fun _ _ => I))
              (new_summary (List.length paths)) w)
    as (r & os & w' & Hrun & Hres & Hmap & Htot & Hs & Hf & Hk & _).
  exists r, w'. split; [exact Hrun |].
  now apply (covers_from_new_summary paths r os).
Qed.

Lemma uploadDirectory_run_covers files w :
  Forall (fun p => host_fs h p <> None) files ->
  exists r w', uploadDirectory_run h files w = (Ok r, w') /\ covers r files.
Proof.
  intros Hfiles.
  destruct (for_each_spec (directory_step h) (fun p => host_fs h p <> None)
              (fun acc x w0 Hx => directory_step_spec acc x w0 Hx) files
              Hfiles (new_summary (List.length files)) w)
    as (r & os & w' & Hrun & Hres & Hmap & Htot & Hs & Hf & Hk & _).
  exists r, w'. split; [exact Hrun |].
  now apply (covers_from_new_summary files r os).
Qed.

End BatchFacts.







(* ================================================================== *)
(** ** The handlers of the batch tools: facts *)
(* ================================================================== *)

Lemma occurs_in_char c needle hay :
  occurs_in (String c needle) hay -> In c (list_ascii_of_string hay).
Proof.
  intros (before & after & ->).
  induction before as [|x before IH]; cbn; auto.
Qed.

Lemma formatBulkResultAsMarkdown_heading h r :
  exists rest, formatBulkResultAsMarkdown h r = String "#"%char rest.
Proof. unfold formatBulkResultAsMarkdown. cbn. eauto. Qed.

Lemma getIagonClient_available h w :
  client_available h w ->
  exists c,
    getIagonClient h w = (Ok c, mkWorld (Some c) (uploadCalls w) (requests w)).
Proof.
  intros Havailable. unfold getIagonClient.
  destruct w as [[c|] calls reqs]; cbn.
  - now exists c.
  - destruct Havailable as [Hc | Htoken]; [now elim Hc |].
    unfold new_IagonClient, or_else. rewrite Htoken.
    destruct (host_IAGON_ACCESS_TOKEN h) as [token|]; [| discriminate].
    now exists (mkIagonClient token).
Qed.

(** With a client at hand, [iagon_bulk_upload] answers with the rendering
    of a summary that covers [file_paths]. *)
Lemma iagon_bulk_upload_summary h params w :
  client_available h w ->
  exists r w',
    iagon_bulk_upload h params w
    = (Ok (mkResponse false (formatBulkResultAsMarkdown h r)), w')
    /\ covers r (file_paths params).
Proof.
  intros Havailable.
  destruct (getIagonClient_available h w Havailable) as (c & Hclient).
  destruct (bulkUpload_run_covers h (file_paths params)
              (mkWorld (Some c) (uploadCalls w) (requests w)))
    as (r & w' & Hrun & Hcovers).
  exists r, w'. split; [| exact Hcovers].
  unfold iagon_bulk_upload, try_catch, bind. now rewrite Hclient, Hrun.
Qed.

(** With a client at hand, [iagon_upload_directory] on a directory whose
    enumeration is not empty answers with the rendering of a summary that
    covers the enumerated files. *)
Lemma iagon_upload_directory_summary h params w sz entries files :
  client_available h w ->
  host_fs h (local_directory params) = Some (Directory sz entries) ->
  getFilesFromDirectory h (recursive params) (include_pattern params)
    (local_directory params) = Ok files ->
  files <> [] ->
  Forall (fun p => host_fs h p <> None) files ->
  exists r w',
    iagon_upload_directory h params w
    = (Ok (mkResponse false (formatBulkResultAsMarkdown h r)), w')
    /\ covers r files.
Proof.
  intros Havailable Hdir Henum Hsome Hfiles.
  destruct (getIagonClient_available h w Havailable) as (c & Hclient).
  destruct (uploadDirectory_run_covers h files
              (mkWorld (Some c) (uploadCalls w) (requests w)) Hfiles)
    as (r & w' & Hrun & Hcovers).
  exists r, w'. split; [| exact Hcovers].
  unfold iagon_upload_directory, try_catch, bind, lift, existsSync, statSync.
  rewrite Hdir. cbn [negb stats_of st_isDirectory]. rewrite Henum.
  destruct files as [|f files']; [congruence |].
  now rewrite Hclient, Hrun.
Qed.

(** C6 (as the code has it): when the enumeration of the directory is
    empty, [iagon_upload_directory] returns at once with a note, "No files
    found in <directory>", followed by the pattern when one was given.  The
    response is not an error, and the world is unchanged: no client is
    built, [uploadFile] is not called and nothing is sent.  No summary is
    created on this path: the note is the whole response. *)
Theorem C6_empty_enumeration_returns_a_note
    (h : Host) (params : UploadDirectoryInput) (w : World) (sz : Z)
    (entries : list (string * fsnode)) :
  host_fs h (local_directory params) = Some (Directory sz entries) ->
  getFilesFromDirectory h (recursive params) (include_pattern params)
    (local_directory params) = Ok [] ->
  iagon_upload_directory h params w
  = (Ok (mkResponse false (no_files_text params)), w)
  /\ occurs_in ("No files found in " ++ local_directory params)
       (no_files_text params)
  /\ (forall p, include_pattern params = Some p -> p <> EmptyString ->
      occurs_in p (no_files_text params)).
Proof.
  intros Hdir Henum. split; [| split].
  - unfold iagon_upload_directory, try_catch, bind, lift, existsSync, statSync.
    rewrite Hdir. cbn [negb stats_of st_isDirectory]. now rewrite Henum.
  - unfold no_files_text. rewrite <- append_assoc. apply occurs_in_prefix.
  - intros p Hp Hne. unfold no_files_text. rewrite Hp.
    destruct p as [|c p']; [congruence |]. cbn [or_else truthy].
    do 4 apply occurs_in_append_r. apply occurs_in_prefix.
Qed.

(** The empty directory of the sample machine. *)
Lemma C6_empty_enumeration_witness :
  host_fs Sample.host "/empty" = Some (Directory 4096 [])
  /\ iagon_upload_directory Sample.host
       (mkUploadDirectoryInput "/empty" None (Some "*.mp4") false) Sample.world0
     = (Ok (mkResponse false
              ("No files found in /empty matching pattern "
               ++ dquote ++ "*.mp4" ++ dquote)),
        Sample.world0).
Proof.
  split; [reflexivity |].
  exact (proj1 (C6_empty_enumeration_returns_a_note Sample.host
                  (mkUploadDirectoryInput "/empty" None (Some "*.mp4") false)
                  Sample.world0 4096 [] eq_refl eq_refl)).
Defined.

(** C6 as the specification states it fails: on an empty directory the
    response is the note alone; no rendering of a summary, with total 0
    or any other, is part of it. *)
Lemma C6_summary_counterexample :
  getFilesFromDirectory Sample.host false None "/empty" = Ok []
  /\ iagon_upload_directory Sample.host
       (mkUploadDirectoryInput "/empty" None None false) Sample.world0
     = (Ok (mkResponse false "No files found in /empty"), Sample.world0)
  /\ ~ (exists r,
          bulk_total r = 0
          /\ occurs_in (formatBulkResultAsMarkdown Sample.host r)
               "No files found in /empty").
Proof.
  split; [reflexivity |]. split; [reflexivity |].
  intros (r & _ & Hin).
  destruct (formatBulkResultAsMarkdown_heading Sample.host r) as (rest & Heq).
  rewrite Heq in Hin. apply occurs_in_char in Hin.
  cbn in Hin. intuition discriminate.
Qed.

(* ================================================================== *)
(** ** The pagination schema: facts *)
(* ================================================================== *)



Lemma parse_limit_valid v l :
  parse_limit v = Valid l ->
  1 <= l <= 100 /\ (v = None -> l = 20).
Proof.
  unfold parse_limit, check.
  destruct v as [[| |x| |]|]; try discriminate.
  - destruct (Q_isInteger x); try discriminate.
    destruct (Qle_bool 1 x) eqn:Hlow; try discriminate.
    destruct (Qle_bool x (inject_Z MAX_PAGE_LIMIT)) eqn:Hhigh; try discriminate.
    cbn. intros [= <-].
    apply Qle_bool_iff in Hlow. apply Qle_bool_iff in Hhigh.
    apply Qfloor_resp_le in Hlow. apply Qfloor_resp_le in Hhigh.
    rewrite Qfloor_Z in Hhigh. change (Qfloor 1) with 1 in Hlow.
    unfold MAX_PAGE_LIMIT in Hhigh. split; [lia | discriminate].
  - intros [= <-]. unfold DEFAULT_PAGE_LIMIT. split; [lia | reflexivity].
Qed.

Lemma parse_offset_valid v o :
  parse_offset v = Valid o ->
  0 <= o /\ (v = None -> o = 0).
Proof.
  unfold parse_offset, check.
  destruct v as [[| |x| |]|]; try discriminate.
  - destruct (Q_isInteger x); try discriminate.
    destruct (Qle_bool 0 x) eqn:Hlow; try discriminate.
    cbn. intros [= <-].
    apply Qle_bool_iff in Hlow. apply Qfloor_resp_le in Hlow.
    change (Qfloor 0) with 0 in Hlow. split; [lia | discriminate].
  - intros [= <-]. split; [lia | reflexivity].
Qed.



Lemma ListFilesSchema_valid args params :
  ListFilesSchema args = Valid params ->
  parse_limit (lf_limit args) = Valid (list_limit params)
  /\ parse_offset (lf_offset args) = Valid (list_offset params).
Proof.
  unfold ListFilesSchema.
  destruct (parse_limit (lf_limit args)); try discriminate.
  destruct (parse_offset (lf_offset args)); try discriminate.
  destruct (parse_optional_string (lf_folder_id args)); try discriminate.
  destruct (parse_response_format (lf_response_format args)); try discriminate.
  destruct (strict (lf_unknown_keys args)); try discriminate.
  intros [= <-]. auto.
Qed.


Lemma call_tool_invalid {Args Input : Type} (schema : Args -> Parsed Input)
    (handler : Input -> M ToolResponse) args issues w :
  schema args = Invalid issues ->
  call_tool schema handler args w = (InvalidParams issues, w).
Proof. intros Hs. unfold call_tool. now rewrite Hs. Qed.

(** Through the listing tool the offset is never negative, so a body
    without [total] always ends the listing. *)
Lemma validated_listing_without_total h args params w w' data page :
  ListFilesSchema args = Valid params ->
  host_http h (requests w)
    (GetFiles (list_folder_id params) (list_limit params) (list_offset params))
  = Resolved data ->
  body_total data = None \/ body_total data = Some 0 ->
  listFiles h (list_folder_id params) (Some (list_limit params))
    (Some (list_offset params)) w = (Ok page, w') ->
  total page = Z.of_nat (List.length (items page))
  /\ hasMore page = false
  /\ nextOffset page = None.
Proof.
  intros Hvalid Hhttp Htotal Hrun.
  destruct (ListFilesSchema_valid args params Hvalid) as (_ & Ho).
  destruct (parse_offset_valid _ _ Ho) as (Hnonneg & _).
  destruct (listFiles_page h _ _ _ _ _ _ Hrun) as (data' & Hhttp' & ->).
  cbn [defaulted] in *. assert (data' = data) as -> by congruence.
  now apply page_of_ends_without_total.
Qed.



(* ================================================================== *)
(** ** Patterns: facts *)
(* ================================================================== *)

Section PatternFacts.
Import GlobRegex.
















End PatternFacts.

(** C2: the pattern ["*.mp4"] is handed to [RegExp] as [.*.mp4], without
    anchors and with its dot unescaped.  The enumeration keeps [clip.MP4],
    as the glob of the specification does; it also keeps [clip.mp4x],
    which that glob rejects: the file is returned although [*.mp4] does not
    match its name. *)
Theorem C2_pattern_is_not_anchored :
  pattern_source "*.mp4" = ".*.mp4"
  /\ spec_pattern_keeps "*.mp4" "clip.MP4" = true
  /\ pattern_keeps Sample.host (Some "*.mp4") "clip.MP4" = Ok true
  /\ spec_pattern_keeps "*.mp4" "clip.mp4x" = false
  /\ pattern_keeps Sample.host (Some "*.mp4") "clip.mp4x" = Ok true
  /\ getFilesFromDirectory Sample.host false (Some "*.mp4") "/videos"
     = Ok ["/videos/clip.MP4"; "/videos/clip.mp4x"].
Proof. repeat split; reflexivity. Qed.

(* ================================================================== *)
(** ** Enumerated files on a coherent file system *)
(* ================================================================== *)

(** On a file system whose lookups agree with its listings, every
    enumerated path leads to a node: the [statSync] of the directory loop
    finds it. *)
Lemma enumerated_files_exist h b pattern :
  coherent h ->
  forall node root files,
    host_fs h root = Some node ->
    enumerate h b pattern node root = Ok files ->
    forall p, In p files -> host_fs h p <> None.
Proof.
  intros Hcoherent node.
  induction node as [fsz | dsz entries IH | osz] using fsnode_tree_ind;
    intros root files Hroot Henum p Hp; try discriminate.
  cbn in Henum.
  apply (scan_entries_In h pattern b _ root entries files Henum p) in Hp.
  destruct Hp as [(name & sz & Hin & _ & ->)
                 | (_ & dname & csz & sub & found & Hin & Hfound & Hp)].
  - rewrite (Hcoherent root dsz entries name _ Hroot Hin). discriminate.
  - pose proof (proj1 (Forall_forall _ _) IH _ Hin) as Hchild.
    cbn [snd] in Hchild.
    apply (Hchild (host_join h root dname) found); auto.
    exact (Hcoherent root dsz entries dname _ Hroot Hin).
Qed.

(** So, on such a file system and with a client at hand, the directory
    tool answers a non-empty enumeration with a summary that covers it. *)
Lemma iagon_upload_directory_covers h params w sz entries files :
  coherent h ->
  client_available h w ->
  host_fs h (local_directory params) = Some (Directory sz entries) ->
  getFilesFromDirectory h (recursive params) (include_pattern params)
    (local_directory params) = Ok files ->
  files <> [] ->
  exists r w',
    iagon_upload_directory h params w
    = (Ok (mkResponse false (formatBulkResultAsMarkdown h r)), w')
    /\ covers r files.
Proof.
  intros Hcoherent Havailable Hdir Henum Hsome.
  apply (iagon_upload_directory_summary h params w sz entries files); auto.
  apply Forall_forall. intros p Hp.
  unfold getFilesFromDirectory in Henum. rewrite Hdir in Henum.
  exact (enumerated_files_exist h _ _ Hcoherent _ _ _ Hdir Henum p Hp).
Qed.

Lemma sample_host_coherent : coherent Sample.host.
Proof.
  intros d sz entries name child Hd Hin.
  revert Hd. cbn.
  repeat match goal with
         | |- context [String.eqb d ?k] =>
             destruct (String.eqb_spec d k) as [-> | _]
         end;
    intros Hd; try discriminate;
    injection Hd as <- <-; cbn in Hin;
    repeat (destruct Hin as [Hin | Hin];
            [injection Hin as <- <-; reflexivity |]);
    contradiction.
Qed.

(* ================================================================== *)
(** ** The scenarios of the specification, run *)
(* ================================================================== *)

(** A bulk upload of a missing path, a 50 MB file and a 1 MB file. *)
Example bulk_upload_of_three :
  exists r w',
    bulkUpload_run Sample.host
      ["/missing.mp4"; "/videos/raw/take1.mp4"; "/videos/clip.MP4"]
      Sample.world0 = (Ok r, w')
    /\ (bulk_total r, successful r, failed r, skipped r) = (3, 1, 1, 1)
    /\ map out_status (results r) = [Failed; Skipped; Success]
    /\ map out_message (results r)
       = ["File not found"; "Exceeds 40MB limit (50 MB)"; "Uploaded (1 MB)"]
    /\ uploadCalls w' = ["/videos/clip.MP4"].
Proof. do 2 eexists. repeat split. Qed.

(** Three pages of 20 over a remote collection of 45 files. *)
Example listing_of_forty_five :
  exists p1 p2 p3 w1 w2 w3,
    listFiles Sample.host None (Some 20) (Some 0) Sample.world0 = (Ok p1, w1)
    /\ (count p1, hasMore p1, nextOffset p1) = (20, true, Some 20)
    /\ listFiles Sample.host None (Some 20) (nextOffset p1) w1 = (Ok p2, w2)
    /\ (count p2, hasMore p2, nextOffset p2) = (20, true, Some 40)
    /\ listFiles Sample.host None (Some 20) (nextOffset p2) w2 = (Ok p3, w3)
    /\ (count p3, hasMore p3, nextOffset p3) = (5, false, None).
Proof. do 6 eexists. repeat split. Qed.

(** A 413 from the gateway is relayed as the gateway's message, which
    differs from the message of the local size check. *)
Example remote_413_is_relayed :
  exists r w',
    bulkUpload_run Sample.host ["/videos/notes.txt"] Sample.world0 = (Ok r, w')
    /\ map out_status (results r) = [Failed]
    /\ map out_message (results r)
       = ["File too large. Iagon has a 40MB limit per file for sharding."].
Proof. do 2 eexists. repeat split. Qed.

(** A listing through the tool, with the defaults: the request carries
    limit 20 and offset 0. *)
Example list_files_with_defaults :
  exists response,
    list_files_tool Sample.host (mkListFilesArgs None None None None [])
      Sample.world0
    = (Handled response,
       mkWorld (Some (mkIagonClient "token")) [] [GetFiles None 20 0])
    /\ isError response = false.
Proof. eexists. split; reflexivity. Qed.

(** The directory tool on the sample machine: the enumeration of
    [/videos] with its subdirectory is uploaded and summarised. *)
Example upload_of_a_directory :
  exists files r w',
    getFilesFromDirectory Sample.host true None "/videos" = Ok files
    /\ uploadDirectory_run Sample.host files
         (mkWorld (Some (mkIagonClient "token")) [] []) = (Ok r, w')
    /\ iagon_upload_directory Sample.host
         (mkUploadDirectoryInput "/videos" None None true) Sample.world0
       = (Ok (mkResponse false (formatBulkResultAsMarkdown Sample.host r)), w')
    /\ (bulk_total r, successful r, failed r, skipped r) = (4, 2, 1, 1)
    /\ map out_status (results r) = [Success; Success; Failed; Skipped].
Proof. do 3 eexists. repeat split. Qed.

(** The sample machine is coherent, so the directory tool covers whatever
    it enumerates there. *)
Example upload_of_a_directory_covers :
  exists r w',
    iagon_upload_directory Sample.host
      (mkUploadDirectoryInput "/videos" None (Some "*.mp4") false) Sample.world0
    = (Ok (mkResponse false (formatBulkResultAsMarkdown Sample.host r)), w')
    /\ covers r ["/videos/clip.MP4"; "/videos/clip.mp4x"].
Proof.
  apply (iagon_upload_directory_covers Sample.host
           (mkUploadDirectoryInput "/videos" None (Some "*.mp4") false)
           Sample.world0 4096 _ _ sample_host_coherent (or_intror eq_refl)
           eq_refl eq_refl).
  discriminate.
Qed.

(* ================================================================== *)
(** ** Further properties of the batch loops *)
(* ================================================================== *)

Lemma count_status_cons s o os :
  count_status s (o :: os) = count_status s [o] + count_status s os.
Proof. exact (count_status_app s [o] os). Qed.

Lemma explained_skipped h os :
  Forall (outcome_explained h) os ->
  count_status Skipped os
  = Z.of_nat (List.length (filter (oversize h) (map out_path os))).
Proof.
  induction 1 as [| o os Ho _ IH]; [reflexivity |].
  rewrite (count_status_cons Skipped o os), IH. cbn [map filter].
  unfold outcome_explained in Ho. unfold oversize at 2. unfold count_status.
  cbn [filter].
  destruct (host_fs h (out_path o)) as [node|].
  - destruct (st_size (stats_of node) >? FILE_SIZE_LIMIT).
    + destruct Ho as (-> & _). cbn [status_eqb List.length]. lia.
    + destruct (out_status o); try congruence; cbn [status_eqb List.length]; lia.
  - destruct Ho as (-> & _). cbn [status_eqb List.length]. lia.
Qed.

Lemma explained_failed_and_successful h os :
  Forall (outcome_explained h) os ->
  Z.of_nat (List.length (filter (fun p => negb (existsSync h p)) (map out_path os)))
  <= count_status Failed os
  /\ count_status Success os
     <= Z.of_nat (List.length (filter (uploadable h) (map out_path os))).
Proof.
  induction 1 as [| o os Ho _ (IHf & IHs)]; [cbn; lia |].
  rewrite (count_status_cons Failed o os), (count_status_cons Success o os).
  cbn [map filter].
  unfold outcome_explained in Ho. unfold existsSync at 1. unfold uploadable at 1.
  unfold count_status at 1 3. cbn [filter].
  destruct (host_fs h (out_path o)) as [node|].
  - destruct (st_size (stats_of node) >? FILE_SIZE_LIMIT); cbn [negb].
    + destruct Ho as (-> & _). cbn [status_eqb List.length]. lia.
    + destruct (out_status o); try congruence; cbn [status_eqb List.length]; lia.
  - destruct Ho as (-> & _). cbn [negb status_eqb List.length]. lia.
Qed.

(** X1: a batch run calls [uploadFile], and posts to the gateway, exactly
    once for every candidate that exists and is within the size limit, in
    the order of the candidates, and not at all for the others; it leaves
    the client singleton as it was. *)
Theorem batch_posts_once_per_uploadable_candidate
    (h : Host) (paths files : list string) (w : World) :
  Forall (fun p => host_fs h p <> None) files ->
  (exists r w',
      bulkUpload_run h paths w = (Ok r, w')
      /\ clientInstance w' = clientInstance w
      /\ uploadCalls w' = (uploadCalls w ++ filter (uploadable h) paths)%list
      /\ requests w'
         = (requests w
            ++ map (fun p => PostUpload p (host_basename h p))
                 (filter (uploadable h) paths))%list)
  /\ (exists r w',
         uploadDirectory_run h files w = (Ok r, w')
         /\ clientInstance w' = clientInstance w
         /\ uploadCalls w' = (uploadCalls w ++ filter (uploadable h) files)%list
         /\ requests w'
            = (requests w
               ++ map (fun p => PostUpload p (host_basename h p))
                    (filter (uploadable h) files))%list).
Proof.
  intros Hfiles. split.
  - destruct (for_each_spec h (bulk_step h) (fun _ => True)
                (fun acc x w0 _ => bulk_step_spec h acc x w0) paths
                (proj2 (Forall_forall _ _) (fun _ _ => I))
                (new_summary (List.length paths)) w)
      as (r & os & w' & Hrun & _ & _ & _ & _ & _ & _ & _ & Hci & Hcalls & Hreqs).
    exists r, w'. auto.
  - destruct (for_each_spec h (directory_step h) (fun p => host_fs h p <> None)
                (fun acc x w0 Hx => directory_step_spec h acc x w0 Hx) files
                Hfiles (new_summary (List.length files)) w)
      as (r & os & w' & Hrun & _ & _ & _ & _ & _ & _ & _ & Hci & Hcalls & Hreqs).
    exists r, w'. auto.
Qed.

(** The two files of [/big] in the directory loop. *)
Lemma batch_posts_once_witness :
  Forall (fun p => host_fs Sample.host p <> None) ["/big/exact.bin"; "/big/over.bin"]
  /\ exists r w',
       uploadDirectory_run Sample.host ["/big/exact.bin"; "/big/over.bin"]
         Sample.world0 = (Ok r, w')
       /\ clientInstance w' = None
       /\ uploadCalls w' = ["/big/exact.bin"]
       /\ requests w' = [PostUpload "/big/exact.bin" "exact.bin"].
Proof.
  assert (Hfiles : Forall (fun p => host_fs Sample.host p <> None)
                     ["/big/exact.bin"; "/big/over.bin"]).
  { repeat constructor; discriminate. }
  split; [exact Hfiles |].
  exact (proj2 (batch_posts_once_per_uploadable_candidate Sample.host []
                  ["/big/exact.bin"; "/big/over.bin"] Sample.world0 Hfiles)).
Defined.

(** X2: in the summary of a batch run [skipped] is exactly the number of
    candidates over the size limit; in the bulk loop [failed] is at least
    the number of missing candidates and [successful] at most the number
    of candidates that exist within the limit. *)
Theorem summary_counters_follow_the_candidates
    (h : Host) (paths files : list string) (w : World) :
  Forall (fun p => host_fs h p <> None) files ->
  (exists r w',
      bulkUpload_run h paths w = (Ok r, w')
      /\ skipped r = Z.of_nat (List.length (filter (oversize h) paths))
      /\ Z.of_nat (List.length (filter (fun p => negb (existsSync h p)) paths))
         <= failed r
      /\ successful r <= Z.of_nat (List.length (filter (uploadable h) paths)))
  /\ (exists r w',
         uploadDirectory_run h files w = (Ok r, w')
         /\ skipped r = Z.of_nat (List.length (filter (oversize h) files))
         /\ successful r + failed r
            = Z.of_nat (List.length (filter (uploadable h) files))).
Proof.
  intros Hfiles. split.
  - destruct (for_each_spec h (bulk_step h) (fun _ => True)
                (fun acc x w0 _ => bulk_step_spec h acc x w0) paths
                (proj2 (Forall_forall _ _) (fun _ _ => I))
                (new_summary (List.length paths)) w)
      as (r & os & w' & Hrun & _ & Hmap & _ & Hs & Hf & Hk & Hall & _).
    exists r, w'. split; [exact Hrun |].
    pose proof (explained_skipped h os Hall) as Hskip.
    destruct (explained_failed_and_successful h os Hall) as (Hfail & Hsucc).
    rewrite Hmap in *. cbn in Hs, Hf, Hk. lia.
  - destruct (for_each_spec h (directory_step h) (fun p => host_fs h p <> None)
                (fun acc x w0 Hx => directory_step_spec h acc x w0 Hx) files
                Hfiles (new_summary (List.length files)) w)
      as (r & os & w' & Hrun & _ & Hmap & _ & Hs & Hf & Hk & Hall & _).
    exists r, w'. split; [exact Hrun |].
    pose proof (explained_skipped h os Hall) as Hskip.
    destruct (explained_failed_and_successful h os Hall) as (Hfail & Hsucc).
    pose proof (count_status_all os) as Htotal.
    rewrite Hmap in *. cbn in Hs, Hf, Hk.
    assert (Hnone : filter (fun p => negb (existsSync h p)) files = []).
    { clear - Hfiles. induction Hfiles as [| p ps Hp _ IH]; [reflexivity |].
      cbn [filter]. unfold existsSync at 1.
      destruct (host_fs h p); [exact IH | congruence]. }
    assert (Hsplit : (List.length (filter (oversize h) files)
                      + List.length (filter (uploadable h) files))%nat
                     = List.length files).
    { clear - Hfiles. induction Hfiles as [| p ps Hp _ IH]; [reflexivity |].
      cbn [filter]. unfold oversize at 1. unfold uploadable at 1.
      destruct (host_fs h p) as [node|]; [| congruence].
      destruct (st_size (stats_of node) >? FILE_SIZE_LIMIT); cbn; lia. }
    assert (Hlen : List.length os = List.length files).
    { rewrite <- Hmap. now rewrite length_map. }
    split; lia.
Qed.

(** The sample batch of a missing, an oversize and a small file. *)
Lemma summary_counters_witness :
  Forall (fun p => host_fs Sample.host p <> None) ["/big/over.bin"]
  /\ exists r w',
       bulkUpload_run Sample.host
         ["/missing.mp4"; "/videos/raw/take1.mp4"; "/videos/clip.MP4"]
         Sample.world0 = (Ok r, w')
       /\ skipped r = 1 /\ 1 <= failed r /\ successful r <= 1.
Proof.
  assert (Hfiles : Forall (fun p => host_fs Sample.host p <> None) ["/big/over.bin"]).
  { repeat constructor; discriminate. }
  split; [exact Hfiles |].
  exact (proj1 (summary_counters_follow_the_candidates Sample.host
                  ["/missing.mp4"; "/videos/raw/take1.mp4"; "/videos/clip.MP4"]
                  ["/big/over.bin"] Sample.world0 Hfiles)).
Defined.

(** What the loops do with the gateway's answer to an upload. *)
Lemma check_size_relays h result p node w :
  host_fs h p = Some node ->
  st_size (stats_of node) <= FILE_SIZE_LIMIT ->
  check_size_and_upload h result p (stats_of node) w
  = match host_http h (requests w) (PostUpload p (host_basename h p)) with
    | Resolved data =>
        (Ok (record_success result p
               ("Uploaded (" ++ formatBytes h (st_size (stats_of node)) ++ ")")
               (or_else (body_id data) (body_fileId data))),
         after_upload w p (host_basename h p))
    | Rejected e =>
        (Ok (record_failed result p (handleError e)),
         after_upload w p (host_basename h p))
    end.
Proof.
  intros Hp Hsize. unfold check_size_and_upload.
  assert (Hle : (st_size (stats_of node) >? FILE_SIZE_LIMIT) = false).
  { rewrite Z.gtb_ltb. apply Z.ltb_ge. exact Hsize. }
  rewrite Hle.
  unfold bind, uploadFile, bind, enter_uploadFile, existsSync, statSync, lift.
  rewrite Hp. cbn [negb]. rewrite Hle.
  unfold try_catch, bind, send, ret. cbn [requests or_else truthy].
  destruct (host_http h (requests w) (PostUpload p (host_basename h p)));
    reflexivity.
Qed.



(** X4: when the gateway answers an upload with status 413 the candidate
    is recorded as failed, not skipped, with a message that names the
    40MB limit and that no local size check ever produces: a remote and a
    local size rejection can be told apart. *)
Theorem remote_413_is_a_failure_not_a_skip
    (h : Host) (result : BulkOperationResult) (p : string) (node : fsnode)
    (w : World) (data_message code : option string) (text : string) :
  host_fs h p = Some node ->
  st_size (stats_of node) <= FILE_SIZE_LIMIT ->
  host_http h (requests w) (PostUpload p (host_basename h p))
  = Rejected (AxiosError (Some (413, data_message)) code text) ->
  exists r' o,
    bulk_step h result p w = (Ok r', after_upload w p (host_basename h p))
    /\ directory_step h result p w = (Ok r', after_upload w p (host_basename h p))
    /\ appended result r' o
    /\ out_status o = Failed
    /\ occurs_in "40MB" (out_message o)
    /\ occurs_in "limit" (out_message o)
    /\ forall size,
         out_message o <> "Exceeds 40MB limit (" ++ formatBytes h size ++ ")".
Proof.
  intros Hp Hsize Hhttp.
  rewrite (bulk_step_existing h result p node w Hp).
  rewrite (directory_step_existing h result p node w Hp).
  rewrite (check_size_relays h result p node w Hp Hsize), Hhttp.
  do 2 eexists. split; [reflexivity |]. split; [reflexivity |].
  split; [apply appended_failed |]. cbn.
  split; [reflexivity |].
  split; [exact (occurs_in_here "File too large. Iagon has a " "40MB"
                   " limit per file for sharding.") |].
  split; [exact (occurs_in_here "File too large. Iagon has a 40MB " "limit"
                   " per file for sharding.") |].
  intros size. discriminate.
Qed.

(** The sample gateway answers 413 for [notes.txt]. *)
Lemma remote_413_witness :
  host_fs Sample.host "/videos/notes.txt" = Some (RegularFile 12)
  /\ exists r' o,
       bulk_step Sample.host (new_summary 1) "/videos/notes.txt" Sample.world0
       = (Ok r', after_upload Sample.world0 "/videos/notes.txt" "notes.txt")
       /\ out_status o = Failed
       /\ occurs_in "limit" (out_message o).
Proof.
  split; [reflexivity |].
  destruct (remote_413_is_a_failure_not_a_skip Sample.host (new_summary 1)
              "/videos/notes.txt" (RegularFile 12) Sample.world0 None None
              "Request failed with status code 413" eq_refl
              ltac:(discriminate) eq_refl)
    as (r' & o & Hb & _ & _ & Hs & _ & Hl & _).
  exists r', o. auto.
Defined.

(* ================================================================== *)
(** ** Further properties of the client singleton and of the handlers *)
(* ================================================================== *)

Lemma getIagonClient_unavailable h w :
  clientInstance w = None ->
  truthy (host_IAGON_ACCESS_TOKEN h) = false ->
  getIagonClient h w
  = (Throw (JsError
       "IAGON_ACCESS_TOKEN is required. Generate one at https://app.iagon.com → Settings → Generate Token"),
     w).
Proof.
  intros Hnone Htoken. unfold getIagonClient, new_IagonClient, or_else.
  now rewrite Hnone, Htoken.
Qed.



(** X5: the client is built at most once.  After a call of
    [getIagonClient] that returned a client, every later call returns that
    same client and changes nothing, whatever the token in the environment
    is by then; a call that threw cached nothing, so a later call with a
    token in the environment succeeds. *)
Theorem client_is_built_once (h h' : Host) (w w' : World) :
  (forall c,
      getIagonClient h w = (Ok c, w') ->
      getIagonClient h' w' = (Ok c, w')
      /\ uploadCalls w' = uploadCalls w
      /\ requests w' = requests w)
  /\ (forall e,
         getIagonClient h w = (Throw e, w') ->
         w' = w
         /\ (truthy (host_IAGON_ACCESS_TOKEN h') = true ->
             exists c w'', getIagonClient h' w' = (Ok c, w'')))
.
Proof.
  split.
  - intros c. unfold getIagonClient.
    destruct (clientInstance w) as [c0|] eqn:Hc.
    + intros [= <- <-]. now rewrite Hc.
    + destruct (new_IagonClient h) as [c1|e]; [| discriminate].
      intros [= <- <-]. cbn. auto.
  - intros e. unfold getIagonClient at 1.
    destruct (clientInstance w) as [c0|] eqn:Hc; [discriminate |].
    destruct (new_IagonClient h) as [c1|e1]; [discriminate |].
    intros [= _ <-]. split; [reflexivity |].
    intros Htoken.
    destruct (getIagonClient_available h' w (or_intror Htoken)) as (c & Hrun).
    eauto.
Qed.

(** A fresh process on the sample machine. *)
Lemma client_is_built_once_witness :
  getIagonClient Sample.host Sample.world0
  = (Ok (mkIagonClient "token"), mkWorld (Some (mkIagonClient "token")) [] [])
  /\ getIagonClient Sample.host (mkWorld (Some (mkIagonClient "token")) [] [])
     = (Ok (mkIagonClient "token"), mkWorld (Some (mkIagonClient "token")) [] []).
Proof.
  split; [reflexivity |].
  exact (proj1 (proj1 (client_is_built_once Sample.host Sample.host
                         Sample.world0
                         (mkWorld (Some (mkIagonClient "token")) [] []))
                  (mkIagonClient "token") eq_refl)).
Defined.


(** X7: without a client and without a token the tools that need the
    client answer with the token error and do nothing else: no file is
    looked at by the bulk tool, no call of [uploadFile], no request. *)
Theorem without_token_nothing_is_sent (h : Host) (w : World) :
  clientInstance w = None ->
  truthy (host_IAGON_ACCESS_TOKEN h) = false ->
  (forall params, iagon_bulk_upload h params w = (Ok token_error, w))
  /\ (forall params, iagon_upload_file h params w = (Ok token_error, w))
  /\ (forall params, iagon_list_files h params w = (Ok token_error, w))
  /\ (forall params, iagon_search_files h params w = (Ok token_error, w))
  /\ (forall params sz entries f files,
         host_fs h (local_directory params) = Some (Directory sz entries) ->
         getFilesFromDirectory h (recursive params) (include_pattern params)
           (local_directory params) = Ok (f :: files) ->
         iagon_upload_directory h params w = (Ok token_error, w)).
Proof.
  intros Hnone Htoken.
  pose proof (getIagonClient_unavailable h w Hnone Htoken) as Hclient.
  repeat split; intros.
  - unfold iagon_bulk_upload, try_catch, bind. now rewrite Hclient.
  - unfold iagon_upload_file, try_catch, bind. now rewrite Hclient.
  - unfold iagon_list_files, try_catch, bind. now rewrite Hclient.
  - unfold iagon_search_files, try_catch, bind. now rewrite Hclient.
  - unfold iagon_upload_directory, try_catch, bind, lift, existsSync, statSync.
    rewrite H. cbn [negb stats_of st_isDirectory]. rewrite H0.
    now rewrite Hclient.
Qed.

(** The sample machine with its token taken away. *)
Lemma without_token_witness :
  truthy (host_IAGON_ACCESS_TOKEN
            (mkHost (host_fs Sample.host) Sample.join Sample.basename
               Sample.formatNonZero GlobRegex.engine Sample.http
               Sample.stringify Sample.replace_first None)) = false
  /\ iagon_bulk_upload
       (mkHost (host_fs Sample.host) Sample.join Sample.basename
          Sample.formatNonZero GlobRegex.engine Sample.http
          Sample.stringify Sample.replace_first None)
       (mkBulkUploadInput ["/videos/clip.MP4"] None) Sample.world0
     = (Ok token_error, Sample.world0).
Proof.
  split; [reflexivity |].
  exact (proj1 (without_token_nothing_is_sent
                  (mkHost (host_fs Sample.host) Sample.join Sample.basename
                     Sample.formatNonZero GlobRegex.engine Sample.http
                     Sample.stringify Sample.replace_first None)
                  Sample.world0 eq_refl eq_refl)
           (mkBulkUploadInput ["/videos/clip.MP4"] None)).
Defined.

(** X8: the directory tool checks its root before anything else.  A root
    that does not exist, a root that is not a directory and an enumeration
    that throws (an invalid pattern) each end the call with an error
    response and an unchanged world: no client is built, nothing is
    uploaded. *)
Theorem directory_tool_fails_before_uploading
    (h : Host) (params : UploadDirectoryInput) (w : World) :
  (host_fs h (local_directory params) = None ->
   iagon_upload_directory h params w
   = (Ok (mkResponse true ("Directory not found: " ++ local_directory params)), w))
  /\ (forall node,
         host_fs h (local_directory params) = Some node ->
         st_isDirectory (stats_of node) = false ->
         iagon_upload_directory h params w
         = (Ok (mkResponse true
                  ("Path is not a directory: " ++ local_directory params)), w))
  /\ (forall sz entries e,
         host_fs h (local_directory params) = Some (Directory sz entries) ->
         getFilesFromDirectory h (recursive params) (include_pattern params)
           (local_directory params) = Throw e ->
         iagon_upload_directory h params w
         = (Ok (mkResponse true ("Error: " ++ error_text e)), w)).
Proof.
  repeat split.
  - intros Hnone.
    unfold iagon_upload_directory, try_catch, existsSync. now rewrite Hnone.
  - intros node Hnode Hfile.
    unfold iagon_upload_directory, try_catch, bind, lift, existsSync, statSync.
    rewrite Hnode. cbn [negb]. now rewrite Hfile.
  - intros sz entries e Hdir Hthrow.
    unfold iagon_upload_directory, try_catch, bind, lift, existsSync, statSync.
    rewrite Hdir. cbn [negb stats_of st_isDirectory]. now rewrite Hthrow.
Qed.

(** A missing root, a file as root and an unbalanced bracket as pattern. *)
Lemma directory_tool_fails_witness :
  host_fs Sample.host "/nowhere" = None
  /\ iagon_upload_directory Sample.host
       (mkUploadDirectoryInput "/nowhere" None None false) Sample.world0
     = (Ok (mkResponse true "Directory not found: /nowhere"), Sample.world0)
  /\ iagon_upload_directory Sample.host
       (mkUploadDirectoryInput "/videos/notes.txt" None None false) Sample.world0
     = (Ok (mkResponse true "Path is not a directory: /videos/notes.txt"),
        Sample.world0)
  /\ (exists e,
         getFilesFromDirectory Sample.host false (Some "[") "/videos" = Throw e
         /\ iagon_upload_directory Sample.host
              (mkUploadDirectoryInput "/videos" None (Some "[") false)
              Sample.world0
            = (Ok (mkResponse true ("Error: " ++ error_text e)), Sample.world0)).
Proof.
  split; [reflexivity |].
  pose proof (directory_tool_fails_before_uploading Sample.host
                (mkUploadDirectoryInput "/nowhere" None None false) Sample.world0)
    as (Hmissing & _).
  pose proof (directory_tool_fails_before_uploading Sample.host
                (mkUploadDirectoryInput "/videos/notes.txt" None None false)
                Sample.world0)
    as (_ & Hfile & _).
  pose proof (directory_tool_fails_before_uploading Sample.host
                (mkUploadDirectoryInput "/videos" None (Some "[") false)
                Sample.world0)
    as (_ & _ & Hpattern).
  split; [exact (Hmissing eq_refl) |].
  split; [exact (Hfile (RegularFile 12) eq_refl eq_refl) |].
  eexists. split; [reflexivity |].
  exact (Hpattern 4096 _ _ eq_refl eq_refl).
Defined.

(* ================================================================== *)
(** ** Further properties of the enumerator *)
(* ================================================================== *)

Lemma append_empty (a : string) : a ++ EmptyString = a.
Proof.
  induction a as [|x a IH]; cbn; [reflexivity | now rewrite IH].
Qed.

Lemma scan_entries_flat h pattern descend dirPath entries :
  (forall name, exists keep, pattern_keeps h pattern name = Ok keep) ->
  scan_entries h false pattern descend dirPath entries []
  = Ok (map (host_join h dirPath) (kept_entries h pattern entries)).
Proof.
  intros Hfilter. unfold kept_entries.
  induction entries as [|[name child] rest IH]; [reflexivity |].
  cbn [scan_entries filter map fst snd].
  destruct child as [fsz | dsz sub | osz]; try exact IH.
  destruct (Hfilter name) as [[|] Hk]; rewrite Hk; [| exact IH].
  rewrite scan_entries_acc, IH. reflexivity.
Qed.

Lemma scan_entries_app h b pattern descend dirPath entries1 entries2 files :
  scan_entries h b pattern descend dirPath (entries1 ++ entries2) files
  = match scan_entries h b pattern descend dirPath entries1 files with
    | Ok found => scan_entries h b pattern descend dirPath entries2 found
    | Throw e => Throw e
    end.
Proof.
  revert files.
  induction entries1 as [|[name child] rest IH]; intros files; [reflexivity |].
  cbn [app scan_entries].
  destruct child as [fsz | dsz sub | osz]; try apply IH.
  - destruct (pattern_keeps h pattern name) as [[|]|e]; try apply IH; reflexivity.
  - destruct b; try apply IH.
    destruct (descend _ _); [apply IH | reflexivity].
Qed.

Lemma scan_entries_ext h b pattern1 pattern2 descend1 descend2 dirPath entries :
  (forall name, pattern_keeps h pattern1 name = pattern_keeps h pattern2 name) ->
  Forall (fun e => forall p, descend1 (snd e) p = descend2 (snd e) p) entries ->
  forall files,
    scan_entries h b pattern1 descend1 dirPath entries files
    = scan_entries h b pattern2 descend2 dirPath entries files.
Proof.
  intros Hsame Hall.
  induction Hall as [|[name child] rest Hchild _ IH]; intros files;
    [reflexivity |].
  cbn [scan_entries]. cbn [snd] in Hchild.
  destruct child as [fsz | dsz sub | osz]; try apply IH.
  - rewrite Hsame.
    destruct (pattern_keeps h pattern2 name) as [[|]|e]; try apply IH; reflexivity.
  - destruct b; try apply IH. rewrite Hchild.
    destruct (descend2 _ _); [apply IH | reflexivity].
Qed.

Lemma enumerate_ext h b pattern1 pattern2 :
  (forall name, pattern_keeps h pattern1 name = pattern_keeps h pattern2 name) ->
  forall node dirPath,
    enumerate h b pattern1 node dirPath = enumerate h b pattern2 node dirPath.
Proof.
  intros Hsame node.
  induction node as [fsz | dsz entries IH | osz] using fsnode_tree_ind;
    intros dirPath; try reflexivity.
  cbn [enumerate]. now apply scan_entries_ext.
Qed.

(** X9: without recursion the enumeration of a directory is the list of
    its own regular files that the filter keeps, joined to the root, in
    the order of the directory listing. *)
Theorem flat_enumeration_in_listing_order
    (h : Host) (pattern : option string) (root : string) (sz : Z)
    (entries : list (string * fsnode)) :
  host_fs h root = Some (Directory sz entries) ->
  (forall name, exists keep, pattern_keeps h pattern name = Ok keep) ->
  getFilesFromDirectory h false pattern root
  = Ok (map (host_join h root) (kept_entries h pattern entries)).
Proof.
  intros Hroot Hfilter. unfold getFilesFromDirectory. rewrite Hroot.
  cbn [enumerate]. now apply scan_entries_flat.
Qed.

(** The listing of [/videos], unfiltered. *)
Lemma flat_enumeration_witness :
  host_fs Sample.host "/videos" = Some Sample.videos
  /\ getFilesFromDirectory Sample.host false None "/videos"
     = Ok ["/videos/clip.MP4"; "/videos/clip.mp4x"; "/videos/notes.txt"].
Proof.
  split; [reflexivity |].
  exact (flat_enumeration_in_listing_order Sample.host None "/videos" 4096 _
           eq_refl (fun name => ex_intro _ true eq_refl)).
Defined.

(** X10: an empty pattern is no pattern.  The enumeration with the pattern
    [""] is the enumeration without a pattern, the regular-expression
    engine is not consulted, so the enumeration of a directory returns;
    and the note for an empty enumeration does not mention the pattern. *)
Theorem empty_pattern_is_no_pattern
    (h : Host) (recursive : bool) (root : string) :
  getFilesFromDirectory h recursive (Some EmptyString) root
  = getFilesFromDirectory h recursive None root
  /\ (forall sz entries,
         host_fs h root = Some (Directory sz entries) ->
         exists files,
           getFilesFromDirectory h recursive (Some EmptyString) root = Ok files)
  /\ (forall folder,
         no_files_text (mkUploadDirectoryInput root folder (Some EmptyString) recursive)
         = "No files found in " ++ root).
Proof.
  assert (Hsame : getFilesFromDirectory h recursive (Some EmptyString) root
                  = getFilesFromDirectory h recursive None root).
  { unfold getFilesFromDirectory. destruct (host_fs h root); [| reflexivity].
    apply enumerate_ext. reflexivity. }
  split; [exact Hsame |]. split.
  - intros sz entries Hroot. rewrite Hsame.
    unfold getFilesFromDirectory. rewrite Hroot.
    apply (enumerate_returns h None recursive
             (fun name => ex_intro _ true eq_refl) (Directory sz entries) root).
  - intros folder. unfold no_files_text.
    cbn [include_pattern local_directory or_else truthy].
    now rewrite append_empty.
Qed.

(** The sample directory, enumerated with an empty pattern. *)
Lemma empty_pattern_witness :
  host_fs Sample.host "/videos" = Some Sample.videos
  /\ exists files,
       getFilesFromDirectory Sample.host true (Some EmptyString) "/videos"
       = Ok files.
Proof.
  split; [reflexivity |].
  exact (proj1 (proj2 (empty_pattern_is_no_pattern Sample.host true "/videos"))
           4096 _ eq_refl).
Defined.

(** X11: the enumeration follows the listing entry by entry: the
    enumeration of a listing that is the concatenation of two listings is
    the enumeration of the first followed by that of the second, and it
    throws where the first of them to throw does. *)
Theorem enumeration_concatenates
    (h : Host) (recursive : bool) (pattern : option string) (root : string)
    (sz : Z) (entries1 entries2 : list (string * fsnode)) :
  enumerate h recursive pattern (Directory sz (entries1 ++ entries2)) root
  = match enumerate h recursive pattern (Directory sz entries1) root with
    | Ok files1 =>
        match enumerate h recursive pattern (Directory sz entries2) root with
        | Ok files2 => Ok (files1 ++ files2)%list
        | Throw e => Throw e
        end
    | Throw e => Throw e
    end.
Proof.
  cbn [enumerate]. rewrite scan_entries_app.
  destruct (scan_entries h recursive pattern _ root entries1 []) as [files1|e];
    [| reflexivity].
  now rewrite scan_entries_acc.
Qed.

(* ================================================================== *)
(** ** Further properties of the pattern filter *)
(* ================================================================== *)








(* ================================================================== *)
(** ** Further properties of the pagination *)
(* ================================================================== *)

Lemma returned_page h folderId query limit_arg offset_arg w w' page :
  listFiles h folderId limit_arg offset_arg w = (Ok page, w')
  \/ searchFiles h query limit_arg offset_arg w = (Ok page, w') ->
  exists data, page = page_of data (defaulted offset_arg 0).
Proof.
  intros [Hl | Hs].
  - destruct (listFiles_page h _ _ _ _ _ _ Hl) as (data & _ & ->). eauto.
  - destruct (searchFiles_page h _ _ _ _ _ _ Hs) as (data & _ & ->). eauto.
Qed.

(** X14: the offset to ask for next never lies before the offset of the
    page, and it is that same offset exactly when the page has no items:
    a body with a [total] beyond the offset and no items gives a page
    that has more and a next offset that does not advance. *)
Theorem next_offset_never_goes_back
    (h : Host) (folderId : option string) (query : string)
    (limit_arg offset_arg : option Z) (w w' : World) (page : PaginatedResponse)
    (n : Z) :
  listFiles h folderId limit_arg offset_arg w = (Ok page, w')
  \/ searchFiles h query limit_arg offset_arg w = (Ok page, w') ->
  nextOffset page = Some n ->
  offset page <= n /\ (n = offset page <-> items page = []).
Proof.
  intros Hrun Hnext.
  destruct (returned_page h _ _ _ _ _ _ _ Hrun) as (data & ->).
  destruct (page_of_shape data (defaulted offset_arg 0))
    as (Hcount & Hoff & _ & Hshape).
  cbv zeta in *. rewrite Hshape in Hnext.
  destruct (hasMore (page_of data (defaulted offset_arg 0))); [| discriminate].
  assert (Hn : n = defaulted offset_arg 0
                   + Z.of_nat (List.length
                       (items (page_of data (defaulted offset_arg 0))))).
  { rewrite <- Hcount. congruence. }
  rewrite Hn, Hoff. clear Hn Hnext Hshape Hcount.
  destruct (items (page_of data (defaulted offset_arg 0))) as [|x xs].
  - cbn. split; [lia |]. split; [reflexivity | lia].
  - cbn [List.length]. split; [lia |]. split; [lia | discriminate].
Qed.

(** The first page of the sample collection. *)
Lemma next_offset_witness :
  listFiles Sample.host None (Some 20) (Some 0) Sample.world0
  = (Ok (page_of (mkBody None None (Some (Sample.window 20 0)) None (Some 45)) 0),
     mkWorld None [] [GetFiles None 20 0])
  /\ 0 <= 20.
Proof.
  split; [reflexivity |].
  exact (proj1 (next_offset_never_goes_back Sample.host None EmptyString
                  (Some 20) (Some 0) Sample.world0
                  (mkWorld None [] [GetFiles None 20 0])
                  (page_of (mkBody None None (Some (Sample.window 20 0)) None
                              (Some 45)) 0)
                  20 (or_introl eq_refl) eq_refl)).
Defined.

Lemma firstn_plus {A : Type} (a b : nat) (l : list A) :
  firstn (a + b) l = (firstn a l ++ firstn b (skipn a l))%list.
Proof.
  revert l. induction a as [|a IH]; intros l; [reflexivity |].
  destruct l as [|x l]; cbn; [now rewrite firstn_nil | now rewrite IH].
Qed.

Lemma listFiles_served h folderId collection limit off w :
  serves h folderId collection ->
  listFiles h folderId (Some limit) (Some off) w
  = (Ok (page_of
           (mkBody None None
              (Some (firstn (Z.to_nat limit) (skipn (Z.to_nat off) collection)))
              None (Some (Z.of_nat (List.length collection))))
           off),
     mkWorld (clientInstance w) (uploadCalls w)
       (requests w ++ [GetFiles folderId limit off])).
Proof.
  intros Hserves. unfold listFiles, try_catch, bind, send, ret.
  cbn [defaulted]. now rewrite Hserves.
Qed.

(** X15: two pages in a row leave no gap and repeat nothing.  When the
    gateway lists a fixed collection, a page holds the window asked for;
    if it names a next offset, the page asked from there continues the
    collection exactly where the first page ended; if it names none, the
    page holds everything from its offset on. *)
Theorem following_next_offset_leaves_no_gap
    (h : Host) (folderId : option string) (collection : list IagonFile)
    (limit1 limit2 off : Z) (w : World) :
  serves h folderId collection ->
  0 <= off -> 0 <= limit1 -> 0 <= limit2 ->
  exists page1 w1,
    listFiles h folderId (Some limit1) (Some off) w = (Ok page1, w1)
    /\ items page1
       = firstn (Z.to_nat limit1) (skipn (Z.to_nat off) collection)
    /\ (nextOffset page1 = None ->
        items page1 = skipn (Z.to_nat off) collection)
    /\ (forall n,
           nextOffset page1 = Some n ->
           exists page2 w2,
             listFiles h folderId (Some limit2) (Some n) w1 = (Ok page2, w2)
             /\ (items page1 ++ items page2)%list
                = firstn (Z.to_nat limit1 + Z.to_nat limit2)
                    (skipn (Z.to_nat off) collection)).
Proof.
  intros Hserves Hoff Hl1 Hl2.
  rewrite (listFiles_served h folderId collection limit1 off w Hserves).
  do 2 eexists. split; [reflexivity |].
  set (rest := skipn (Z.to_nat off) collection).
  assert (Hrest : List.length rest = (List.length collection - Z.to_nat off)%nat)
    by apply length_skipn.
  unfold page_of.
  cbn [items nextOffset body_files body_items body_total].
  fold rest.
  assert (Hcount : List.length (firstn (Z.to_nat limit1) rest)
                   = Nat.min (Z.to_nat limit1) (List.length rest))
    by apply length_firstn.
  split; [reflexivity |].
  destruct (Z.of_nat (List.length collection) =? 0) eqn:Hempty.
  - apply Z.eqb_eq in Hempty.
    assert (Hnil : collection = []).
    { destruct collection; [reflexivity | cbn in Hempty; lia]. }
    assert (Hrest_nil : rest = []).
    { unfold rest. rewrite Hnil. now destruct (Z.to_nat off). }
    rewrite Hrest_nil, firstn_nil. cbn [List.length].
    destruct (Z.gtb_spec (Z.of_nat 0) (off + Z.of_nat 0)) as [Hgt | _];
      [cbn in Hgt; lia |].
    split; [reflexivity | discriminate].
  - apply Z.eqb_neq in Hempty.
    destruct (Z.gtb_spec (Z.of_nat (List.length collection))
                (off + Z.of_nat (List.length (firstn (Z.to_nat limit1) rest))))
      as [Hmore | Hdone].
    + split; [discriminate |].
      intros n [= <-].
      assert (Hfull : List.length (firstn (Z.to_nat limit1) rest) = Z.to_nat limit1)
        by lia.
      rewrite Hfull, Z2Nat.id by lia.
      rewrite (listFiles_served h folderId collection limit2 (off + limit1) _ Hserves).
      do 2 eexists. split; [reflexivity |].
      cbn [items page_of body_files].
      rewrite Z2Nat.inj_add by lia.
      rewrite (Nat.add_comm (Z.to_nat off)), <- skipn_skipn. fold rest.
      symmetry. apply firstn_plus.
    + split; [| discriminate].
      intros _. apply firstn_all2. lia.
Qed.

(** The sample gateway lists a collection of 45 files. *)
Lemma following_next_offset_witness :
  serves Sample.host None Sample.remote_files
  /\ exists page1 w1,
       listFiles Sample.host None (Some 20) (Some 0) Sample.world0 = (Ok page1, w1)
       /\ items page1 = firstn 20 Sample.remote_files.
Proof.
  assert (Hserves : serves Sample.host None Sample.remote_files).
  { intros history limit offset. reflexivity. }
  split; [exact Hserves |].
  destruct (following_next_offset_leaves_no_gap Sample.host None
              Sample.remote_files 20 20 0 Sample.world0 Hserves
              ltac:(discriminate) ltac:(discriminate) ltac:(discriminate))
    as (page1 & w1 & Hrun & Hitems & _).
  exists page1, w1. split; [exact Hrun | exact Hitems].
Defined.

Lemma in_join_lines line lines :
  In line lines -> occurs_in line (join_lines lines).
Proof.
  induction lines as [|l rest IH]; [intros [] |].
  intros [-> | Hin].
  - destruct rest; [exists EmptyString, EmptyString; cbn; now rewrite append_empty |].
    cbn [join_lines]. apply occurs_in_prefix.
  - destruct rest as [|l' rest']; [destruct Hin |].
    cbn [join_lines]. do 2 apply occurs_in_append_r. now apply IH.
Qed.

Lemma occurs_in_within (a b c : string) :
  occurs_in a b -> occurs_in b c -> occurs_in a c.
Proof.
  intros (x & y & ->) (x' & y' & ->).
  exists (x' ++ x), (y ++ y'). now rewrite !append_assoc.
Qed.

(** X16: a gateway error during a listing or a search reaches the caller
    classified: the client throws the text of [handleError], and the tool
    answers with an error response that carries this text, after exactly
    one request. *)
Theorem listing_failure_is_classified
    (h : Host) (lparams : ListFilesInput) (sparams : SearchFilesInput)
    (w : World) (e : ErrorValue) :
  client_available h w ->
  (host_http h (requests w)
     (GetFiles (list_folder_id lparams) (list_limit lparams) (list_offset lparams))
   = Rejected e ->
   exists w',
     iagon_list_files h lparams w
     = (Ok (mkResponse true ("Error: " ++ handleError e)), w')
     /\ requests w'
        = (requests w
           ++ [GetFiles (list_folder_id lparams) (list_limit lparams)
                 (list_offset lparams)])%list)
  /\ (host_http h (requests w)
        (GetSearch (search_query sparams) (search_limit sparams)
           (search_offset sparams))
      = Rejected e ->
      exists w',
        iagon_search_files h sparams w
        = (Ok (mkResponse true ("Error: " ++ handleError e)), w')
        /\ requests w'
           = (requests w
              ++ [GetSearch (search_query sparams) (search_limit sparams)
                    (search_offset sparams)])%list).
Proof.
  intros Havailable.
  destruct (getIagonClient_available h w Havailable) as (c & Hclient).
  split; intros Hhttp.
  - eexists.
    unfold iagon_list_files, try_catch, bind. rewrite Hclient.
    unfold listFiles, try_catch, bind, send, throw. cbn [defaulted requests].
    rewrite Hhttp. cbn. split; reflexivity.
  - eexists.
    unfold iagon_search_files, try_catch, bind. rewrite Hclient.
    unfold searchFiles, try_catch, bind, send, throw. cbn [defaulted requests].
    rewrite Hhttp. cbn. split; reflexivity.
Qed.

(** A gateway that answers every request with status 429. *)
Lemma listing_failure_witness :
  client_available
    (mkHost (host_fs Sample.host) Sample.join Sample.basename
       Sample.formatNonZero GlobRegex.engine
       (fun _ _ => Rejected (AxiosError (Some (429, None)) None "Too Many Requests"))
       Sample.stringify Sample.replace_first (Some "token"))
    Sample.world0
  /\ exists w',
       iagon_list_files
         (mkHost (host_fs Sample.host) Sample.join Sample.basename
            Sample.formatNonZero GlobRegex.engine
            (fun _ _ =>
               Rejected (AxiosError (Some (429, None)) None "Too Many Requests"))
            Sample.stringify Sample.replace_first (Some "token"))
         (mkListFilesInput 20 0 None MARKDOWN) Sample.world0
       = (Ok (mkResponse true
                "Error: Rate limit exceeded. Please wait before making more requests."),
          w')
       /\ requests w' = [GetFiles None 20 0].
Proof.
  split; [right; reflexivity |].
  exact (proj1 (listing_failure_is_classified
                  (mkHost (host_fs Sample.host) Sample.join Sample.basename
                     Sample.formatNonZero GlobRegex.engine
                     (fun _ _ =>
                        Rejected (AxiosError (Some (429, None)) None
                                    "Too Many Requests"))
                     Sample.stringify Sample.replace_first (Some "token"))
                  (mkListFilesInput 20 0 None MARKDOWN)
                  (mkSearchFilesInput 20 0 "mp4" MARKDOWN)
                  Sample.world0 _ (or_intror eq_refl))
           eq_refl).
Defined.

(** X17: the markdown of a page that has more names the page's own next
    offset: the hint that [formatFilesAsMarkdown] computes from the offset
    and the number of files is the [nextOffset] that the client computed. *)
Theorem markdown_hint_is_the_next_offset
    (h : Host) (folderId : option string) (query : string)
    (limit_arg offset_arg : option Z) (w w' : World) (page : PaginatedResponse)
    (n : Z) :
  listFiles h folderId limit_arg offset_arg w = (Ok page, w')
  \/ searchFiles h query limit_arg offset_arg w = (Ok page, w') ->
  nextOffset page = Some n ->
  occurs_in
    ("*More files available. Use offset=" ++ string_of_Z n
     ++ " to see next page.*")
    (formatFilesAsMarkdown h (items page) (total page) (offset page)
       (hasMore page)).
Proof.
  intros Hrun Hnext.
  destruct (returned_page h _ _ _ _ _ _ _ Hrun) as (data & ->).
  destruct (page_of_shape data (defaulted offset_arg 0))
    as (Hcount & Hoff & _ & Hshape).
  cbv zeta in *. rewrite Hshape in Hnext.
  destruct (hasMore (page_of data (defaulted offset_arg 0))); [| discriminate].
  assert (Hn : n = offset (page_of data (defaulted offset_arg 0))
                   + Z.of_nat (List.length
                       (items (page_of data (defaulted offset_arg 0))))).
  { rewrite <- Hcount, Hoff. congruence. }
  rewrite Hn. unfold formatFilesAsMarkdown.
  apply in_join_lines. rewrite !in_app_iff. right. right.
  right. left. reflexivity.
Qed.

(** The first page of the sample collection, rendered. *)
Lemma markdown_hint_witness :
  occurs_in "*More files available. Use offset=20 to see next page.*"
    (formatFilesAsMarkdown Sample.host (Sample.window 20 0) 45 0 true).
Proof.
  exact (markdown_hint_is_the_next_offset Sample.host None EmptyString
           (Some 20) (Some 0) Sample.world0
           (mkWorld None [] [GetFiles None 20 0])
           (page_of (mkBody None None (Some (Sample.window 20 0)) None (Some 45)) 0)
           20 (or_introl eq_refl) eq_refl).
Defined.






(* ================================================================== *)
(** ** Further properties of the input schemas *)
(* ================================================================== *)

Lemma integer_is_integer l : Q_isInteger (inject_Z l) = true.
Proof.
  unfold Q_isInteger. apply Qeq_bool_iff. now rewrite Qfloor_Z.
Qed.

Lemma Q_isInteger_floor x :
  Q_isInteger x = true <-> (x == inject_Z (Qfloor x))%Q.
Proof. unfold Q_isInteger. apply Qeq_bool_iff. Qed.

(** X19: the pagination schema accepts exactly the integers of its range
    and hands them on unchanged: a number is a valid limit [l] exactly
    when it equals the integer [l] and [1 <= l <= 100], and a valid
    offset [o] exactly when it equals the integer [o] and [0 <= o]; a
    number with a fractional part is rejected even inside the range. *)
Theorem pagination_accepts_exactly_the_integers_in_range (x : Q) (n : Z) :
  (parse_limit (Some (JNumber x)) = Valid n <->
   (x == inject_Z n)%Q /\ 1 <= n <= 100)
  /\ (parse_offset (Some (JNumber x)) = Valid n <->
      (x == inject_Z n)%Q /\ 0 <= n).
Proof.
  split; split.
  - intros Hvalid.
    destruct (parse_limit_valid _ _ Hvalid) as (Hrange & _).
    split; [| exact Hrange].
    unfold parse_limit, check in Hvalid.
    destruct (Q_isInteger x) eqn:Hint.
    + apply Q_isInteger_floor in Hint.
      destruct (Qle_bool 1 x); destruct (Qle_bool x (inject_Z MAX_PAGE_LIMIT));
        try discriminate.
      cbn in Hvalid. injection Hvalid as <-. exact Hint.
    + destruct (Qle_bool 1 x); destruct (Qle_bool x (inject_Z MAX_PAGE_LIMIT));
        discriminate.
  - intros (Heq & Hlow & Hhigh).
    assert (Hfloor : Qfloor x = n) by (rewrite Heq; apply Qfloor_Z).
    unfold parse_limit, check.
    assert (Hint : Q_isInteger x = true).
    { apply Q_isInteger_floor. now rewrite Hfloor. }
    assert (H1 : Qle_bool 1 x = true).
    { apply Qle_bool_iff. rewrite Heq. change 1%Q with (inject_Z 1).
      rewrite <- Zle_Qle. exact Hlow. }
    assert (H2 : Qle_bool x (inject_Z MAX_PAGE_LIMIT) = true).
    { apply Qle_bool_iff. rewrite Heq. rewrite <- Zle_Qle. exact Hhigh. }
    rewrite Hint, H1, H2. cbn. now rewrite Hfloor.
  - intros Hvalid.
    destruct (parse_offset_valid _ _ Hvalid) as (Hrange & _).
    split; [| exact Hrange].
    unfold parse_offset, check in Hvalid.
    destruct (Q_isInteger x) eqn:Hint.
    + apply Q_isInteger_floor in Hint.
      destruct (Qle_bool 0 x); try discriminate.
      cbn in Hvalid. injection Hvalid as <-. exact Hint.
    + destruct (Qle_bool 0 x); discriminate.
  - intros (Heq & Hlow).
    assert (Hfloor : Qfloor x = n) by (rewrite Heq; apply Qfloor_Z).
    unfold parse_offset, check.
    assert (Hint : Q_isInteger x = true).
    { apply Q_isInteger_floor. now rewrite Hfloor. }
    assert (H0 : Qle_bool 0 x = true).
    { apply Qle_bool_iff. rewrite Heq. change 0%Q with (inject_Z 0).
      rewrite <- Zle_Qle. exact Hlow. }
    rewrite Hint, H0. cbn. now rewrite Hfloor.
Qed.

Lemma parse_strings_valid xs ss :
  parse_strings xs = Valid ss -> xs = map JString ss.
Proof.
  revert ss. induction xs as [|x xs IH]; intros ss; cbn.
  - now intros [= <-].
  - destruct x; destruct (parse_strings xs) as [ss'|]; try discriminate.
    intros [= <-]. cbn. now rewrite (IH ss' eq_refl).
Qed.

Lemma parse_strings_strings ss : parse_strings (map JString ss) = Valid ss.
Proof.
  induction ss as [|s ss IH]; [reflexivity |]. cbn. now rewrite IH.
Qed.

Lemma parse_file_paths_valid v ss :
  parse_file_paths v = Valid ss ->
  v = Some (Elements (map JString ss))
  /\ (1 <= List.length ss <= 100)%nat.
Proof.
  unfold parse_file_paths, check.
  destruct v as [[v | xs]|]; try discriminate.
  destruct (Nat.leb_spec 1 (List.length xs)) as [Hlow | Hlow];
    [| discriminate].
  destruct (Nat.leb_spec (List.length xs) 100) as [Hhigh | Hhigh];
    [| discriminate].
  cbn [app].
  destruct (parse_strings xs) as [ss'|issues] eqn:Hparse.
  - cbn. intros [= <-].
    rewrite (parse_strings_valid xs ss' Hparse) in *.
    rewrite length_map in *. auto.
  - cbn. destruct issues; discriminate.
Qed.

Lemma BulkUploadSchema_valid args params :
  BulkUploadSchema args = Valid params ->
  parse_file_paths (bu_file_paths args) = Valid (file_paths params).
Proof.
  unfold BulkUploadSchema.
  destruct (parse_file_paths (bu_file_paths args)); try discriminate.
  destruct (parse_optional_string (bu_folder_id args)); try discriminate.
  destruct (strict (bu_unknown_keys args)); try discriminate.
  now intros [= <-].
Qed.

(** X20: the bulk tool takes between 1 and 100 paths.  An empty array and
    an array of more than 100 elements are rejected before the handler
    runs; arguments that parse hold the very strings of the array, between
    1 and 100 of them, so the summary that the tool then returns has a
    total between 1 and 100. *)
Theorem bulk_tool_takes_1_to_100_paths
    (h : Host) (args : BulkUploadArgs) (w : World) :
  (forall xs,
      bu_file_paths args = Some (Elements xs) ->
      xs = [] \/ (100 < List.length xs)%nat ->
      exists issues, bulk_upload_tool h args w = (InvalidParams issues, w))
  /\ (forall params,
         BulkUploadSchema args = Valid params ->
         bu_file_paths args = Some (Elements (map JString (file_paths params)))
         /\ (client_available h w ->
             exists r w',
               bulk_upload_tool h args w
               = (Handled (mkResponse false (formatBulkResultAsMarkdown h r)), w')
               /\ covers r (file_paths params)
               /\ 1 <= bulk_total r <= 100)).
Proof.
  split.
  - intros xs Hpaths Hbad.
    assert (Hinvalid : exists issues, BulkUploadSchema args = Invalid issues).
    { unfold BulkUploadSchema, parse_file_paths, check. rewrite Hpaths.
      destruct Hbad as [-> | Hlong].
      - cbn. destruct (parse_optional_string (bu_folder_id args)); eauto.
      - destruct (Nat.leb_spec (List.length xs) 100) as [Hle | _]; [lia |].
        destruct (1 <=? List.length xs)%nat; cbn;
          destruct (parse_optional_string (bu_folder_id args)); eauto. }
    destruct Hinvalid as (issues & Hinvalid).
    exists issues. now apply call_tool_invalid.
  - intros params Hvalid.
    destruct (parse_file_paths_valid _ _ (BulkUploadSchema_valid _ _ Hvalid))
      as (Hpaths & Hlow & Hhigh).
    split; [exact Hpaths |].
    intros Havailable.
    destruct (iagon_bulk_upload_summary h params w Havailable)
      as (r & w' & Hrun & Hcovers).
    exists r, w'. unfold bulk_upload_tool, call_tool. rewrite Hvalid, Hrun.
    split; [reflexivity |]. split; [exact Hcovers |].
    rewrite (covers_total _ _ Hcovers). lia.
Qed.

(** An empty array, and one path. *)
Lemma bulk_tool_paths_witness :
  (exists issues,
      bulk_upload_tool Sample.host (mkBulkUploadArgs (Some (Elements [])) None [])
        Sample.world0
      = (InvalidParams issues, Sample.world0))
  /\ BulkUploadSchema
       (mkBulkUploadArgs (Some (Elements [JString "/videos/clip.MP4"])) None [])
     = Valid (mkBulkUploadInput ["/videos/clip.MP4"] None)
  /\ exists r w',
       bulk_upload_tool Sample.host
         (mkBulkUploadArgs (Some (Elements [JString "/videos/clip.MP4"])) None [])
         Sample.world0
       = (Handled (mkResponse false (formatBulkResultAsMarkdown Sample.host r)), w')
       /\ covers r ["/videos/clip.MP4"]
       /\ 1 <= bulk_total r <= 100.
Proof.
  split.
  - exact (proj1 (bulk_tool_takes_1_to_100_paths Sample.host
                    (mkBulkUploadArgs (Some (Elements [])) None []) Sample.world0)
             [] eq_refl (or_introl eq_refl)).
  - split; [reflexivity |].
    exact (proj2 (proj2 (bulk_tool_takes_1_to_100_paths Sample.host
                           (mkBulkUploadArgs
                              (Some (Elements [JString "/videos/clip.MP4"])) None [])
                           Sample.world0)
                    (mkBulkUploadInput ["/videos/clip.MP4"] None) eq_refl)
             (or_intror eq_refl)).
Defined.

(** X21: every schema is strict.  An argument object with a key that the
    schema does not declare is rejected by each of the five tools before
    its handler runs, whatever the other arguments are. *)
Theorem unknown_arguments_are_rejected (h : Host) (w : World) :
  (forall args, lf_unknown_keys args <> [] ->
   exists issues, list_files_tool h args w = (InvalidParams issues, w))
  /\ (forall args, sf_unknown_keys args <> [] ->
      exists issues, search_files_tool h args w = (InvalidParams issues, w))
  /\ (forall args, uf_unknown_keys args <> [] ->
      exists issues, upload_file_tool h args w = (InvalidParams issues, w))
  /\ (forall args, ud_unknown_keys args <> [] ->
      exists issues, upload_directory_tool h args w = (InvalidParams issues, w))
  /\ (forall args, bu_unknown_keys args <> [] ->
      exists issues, bulk_upload_tool h args w = (InvalidParams issues, w)).
Proof.
  repeat split; intros args Hkeys.
  - assert (Hinvalid : exists issues, ListFilesSchema args = Invalid issues).
    { unfold ListFilesSchema, strict.
      destruct (lf_unknown_keys args); [congruence |].
      destruct (parse_limit _); destruct (parse_offset _);
        destruct (parse_optional_string _); destruct (parse_response_format _);
        eauto. }
    destruct Hinvalid as (issues & Hinvalid).
    exists issues. now apply call_tool_invalid.
  - assert (Hinvalid : exists issues, SearchFilesSchema args = Invalid issues).
    { unfold SearchFilesSchema, strict.
      destruct (sf_unknown_keys args); [congruence |].
      destruct (parse_limit _); destruct (parse_offset _);
        destruct (parse_query _); destruct (parse_response_format _); eauto. }
    destruct Hinvalid as (issues & Hinvalid).
    exists issues. now apply call_tool_invalid.
  - assert (Hinvalid : exists issues, UploadFileSchema args = Invalid issues).
    { unfold UploadFileSchema, strict.
      destruct (uf_unknown_keys args); [congruence |].
      destruct (parse_required_string _ _);
        destruct (parse_optional_string (uf_remote_path args));
        destruct (parse_optional_string (uf_folder_id args)); eauto. }
    destruct Hinvalid as (issues & Hinvalid).
    exists issues. now apply call_tool_invalid.
  - assert (Hinvalid : exists issues, UploadDirectorySchema args = Invalid issues).
    { unfold UploadDirectorySchema, strict.
      destruct (ud_unknown_keys args); [congruence |].
      destruct (parse_required_string _ _);
        destruct (parse_optional_string (ud_folder_id args));
        destruct (parse_optional_string (ud_include_pattern args));
        destruct (parse_recursive _); eauto. }
    destruct Hinvalid as (issues & Hinvalid).
    exists issues. now apply call_tool_invalid.
  - assert (Hinvalid : exists issues, BulkUploadSchema args = Invalid issues).
    { unfold BulkUploadSchema, strict.
      destruct (bu_unknown_keys args); [congruence |].
      destruct (parse_file_paths _); destruct (parse_optional_string _); eauto. }
    destruct Hinvalid as (issues & Hinvalid).
    exists issues. now apply call_tool_invalid.
Qed.

(** A listing with an argument that the schema does not know. *)
Lemma unknown_arguments_witness :
  lf_unknown_keys (mkListFilesArgs None None None None ["page"]) <> []
  /\ exists issues,
       list_files_tool Sample.host (mkListFilesArgs None None None None ["page"])
         Sample.world0
       = (InvalidParams issues, Sample.world0).
Proof.
  split; [discriminate |].
  exact (proj1 (unknown_arguments_are_rejected Sample.host Sample.world0)
           (mkListFilesArgs None None None None ["page"]) ltac:(discriminate)).
Defined.




Lemma client_calls_unchanged h w w' :
  (forall c, getIagonClient h w = (Ok c, w') ->
             clientInstance w' = Some c
             /\ uploadCalls w' = uploadCalls w
             /\ requests w' = requests w)
  /\ (forall e, getIagonClient h w = (Throw e, w') -> w' = w).
Proof.
  unfold getIagonClient. split.
  - intros c. destruct (clientInstance w) as [c0|] eqn:Hc.
    + intros [= <- <-]. auto.
    + destruct (new_IagonClient h); [| discriminate].
      intros [= <- <-]. cbn. auto.
  - intros e. destruct (clientInstance w); [discriminate |].
    destruct (new_IagonClient h); [discriminate |]. now intros [= _ <-].
Qed.

(** What a flat enumeration returns, as a membership. *)
Lemma flat_membership h pattern root sz entries :
  host_fs h root = Some (Directory sz entries) ->
  forall files,
    getFilesFromDirectory h false pattern root = Ok files ->
    forall p, In p files <-> direct_file h pattern root entries p.
Proof.
  intros Hroot files Hscan p.
  unfold getFilesFromDirectory in Hscan. rewrite Hroot in Hscan.
  cbn [enumerate] in Hscan.
  rewrite (scan_entries_In h pattern false _ root entries files Hscan p).
  unfold direct_file. split.
  - intros [Hd | (Hb & _)]; [exact Hd | discriminate].
  - intros Hd. now left.
Qed.

Lemma for_each_cons {A S : Type} (step : S -> A -> M S) x xs acc w :
  for_each step (x :: xs) acc w
  = match step acc x w with
    | (Ok acc', w') => for_each step xs acc' w'
    | (Throw e, w') => (Throw e, w')
    end.
Proof. reflexivity. Qed.

(** Whether the directory loop ends or throws, [uploadFile] was called on
    candidates only. *)
Lemma directory_loop_calls h xs :
  forall acc w res w',
    for_each (directory_step h) xs acc w = (res, w') ->
    exists calls,
      uploadCalls w' = (uploadCalls w ++ calls)%list /\ incl calls xs.
Proof.
  induction xs as [|x xs IH]; intros acc w res w' Hrun.
  - cbn in Hrun. injection Hrun as _ <-.
    exists []. rewrite app_nil_r. split; [reflexivity | apply incl_nil_l].
  - rewrite for_each_cons in Hrun.
    destruct (host_fs h x) as [node|] eqn:Hx.
    + rewrite (directory_step_existing h acc x node w Hx) in Hrun.
      destruct (check_size_spec h acc x node w Hx)
        as (r1 & o & w1 & Hstep & _ & _ & _ & _ & Hcalls & _).
      rewrite Hstep in Hrun.
      destruct (IH r1 w1 res w' Hrun) as (calls & Hcalls' & Hincl).
      exists ((if uploadable h x then [x] else []) ++ calls)%list.
      split; [now rewrite Hcalls', Hcalls, <- app_assoc |].
      apply incl_app; [| now apply incl_tl].
      destruct (uploadable h x); [| apply incl_nil_l].
      intros y [<- | []]. now left.
    + unfold directory_step, bind, lift, statSync in Hrun. rewrite Hx in Hrun.
      injection Hrun as _ <-.
      exists []. rewrite app_nil_r. split; [reflexivity | apply incl_nil_l].
Qed.

(** X23: recursion is off unless asked for, and then the directory tool
    stays in the root.  Arguments without [recursive] parse to
    [recursive = false]; whatever the call then returns, every file that
    [uploadFile] was called on is a regular file listed in the root
    directory itself and kept by the pattern. *)
Theorem directory_tool_stays_in_the_root_by_default
    (h : Host) (args : UploadDirectoryArgs) (params : UploadDirectoryInput)
    (sz : Z) (entries : list (string * fsnode)) (w w' : World)
    (result : ToolResult) :
  UploadDirectorySchema args = Valid params ->
  ud_recursive args = None ->
  host_fs h (local_directory params) = Some (Directory sz entries) ->
  upload_directory_tool h args w = (result, w') ->
  recursive params = false
  /\ exists calls,
       uploadCalls w' = (uploadCalls w ++ calls)%list
       /\ forall q,
            In q calls ->
            direct_file h (include_pattern params) (local_directory params)
              entries q.
Proof.
  intros Hvalid Homitted Hdir Hrun.
  assert (Hflat : recursive params = false).
  { unfold UploadDirectorySchema in Hvalid. rewrite Homitted in Hvalid.
    destruct (parse_required_string _ _); try discriminate.
    destruct (parse_optional_string (ud_folder_id args)); try discriminate.
    destruct (parse_optional_string (ud_include_pattern args)); try discriminate.
    cbn in Hvalid. destruct (strict (ud_unknown_keys args)); try discriminate.
    now injection Hvalid as <-. }
  split; [exact Hflat |].
  assert (Hnothing : w' = w -> exists calls,
             uploadCalls w' = (uploadCalls w ++ calls)%list
             /\ forall q, In q calls ->
                  direct_file h (include_pattern params) (local_directory params)
                    entries q).
  { intros ->. exists []. rewrite app_nil_r. split; [reflexivity | intros q []]. }
  unfold upload_directory_tool, call_tool in Hrun. rewrite Hvalid in Hrun.
  unfold iagon_upload_directory, try_catch, bind, lift, existsSync, statSync
    in Hrun.
  rewrite Hdir in Hrun. cbn [negb stats_of st_isDirectory] in Hrun.
  rewrite Hflat in Hrun.
  destruct (getFilesFromDirectory h false (include_pattern params)
              (local_directory params)) as [files|e] eqn:Henum.
  - destruct files as [|f files].
    + cbn in Hrun. apply Hnothing. now injection Hrun as _ <-.
    + destruct (getIagonClient h w) as [[c|e] w1] eqn:Hclient.
      * assert (Hsame : uploadCalls w1 = uploadCalls w).
        { exact (proj1 (proj2 (proj1 (client_calls_unchanged h w w1) c Hclient))). }
        destruct (uploadDirectory_run h (f :: files) w1) as [res w2] eqn:Hloop.
        destruct (directory_loop_calls h (f :: files) _ w1 res w2 Hloop)
          as (calls & Hcalls & Hincl).
        assert (Hend : w' = w2).
        { destruct res; cbn in Hrun; now injection Hrun as _ <-. }
        subst w'. exists calls. split; [now rewrite Hcalls, Hsame |].
        intros q Hq. apply Hincl in Hq.
        destruct (flat_membership h (include_pattern params)
                    (local_directory params) sz entries Hdir (f :: files) Henum q)
          as [Hdirect _].
        now apply Hdirect.
      * assert (Hsame : w1 = w).
        { exact (proj2 (client_calls_unchanged h w w1) e Hclient). }
        cbn in Hrun. apply Hnothing. injection Hrun as _ <-. exact Hsame.
  - cbn in Hrun. apply Hnothing. now injection Hrun as _ <-.
Qed.

(** The directory tool on [/videos] with [recursive] left out. *)
Lemma directory_tool_default_witness :
  UploadDirectorySchema
    (mkUploadDirectoryArgs (Some (JString "/videos")) None None None [])
  = Valid (mkUploadDirectoryInput "/videos" None None false)
  /\ exists calls,
       uploadCalls
         (snd (upload_directory_tool Sample.host
                 (mkUploadDirectoryArgs (Some (JString "/videos")) None None None [])
                 Sample.world0))
       = (uploadCalls Sample.world0 ++ calls)%list
       /\ forall q,
            In q calls ->
            direct_file Sample.host None "/videos"
              [ ("clip.MP4", RegularFile 1048576);
                ("clip.mp4x", RegularFile 2048);
                ("notes.txt", RegularFile 12);
                ("raw", Directory 4096 [ ("take1.mp4", RegularFile 52428800) ]);
                ("latest", OtherNode 9) ] q.
Proof.
  split; [reflexivity |].
  exact (proj2 (directory_tool_stays_in_the_root_by_default Sample.host
                  (mkUploadDirectoryArgs (Some (JString "/videos")) None None None [])
                  (mkUploadDirectoryInput "/videos" None None false) 4096 _
                  Sample.world0 _ _ eq_refl eq_refl eq_refl
                  (surjective_pairing _))).
Defined.

(* ================================================================== *)
(** ** Further properties of the upload tool *)
(* ================================================================== *)

Lemma occurs_in_refl (a : string) : occurs_in a a.
Proof. exists EmptyString, EmptyString. cbn. now rewrite append_empty. Qed.

Lemma getIagonClient_present h w c :
  clientInstance w = Some c -> getIagonClient h w = (Ok c, w).
Proof. intros Hc. unfold getIagonClient. now rewrite Hc. Qed.

(** X24: the upload tool reports what [uploadFile] returned.  With the
    client at hand, a missing file gives an error response with the text
    "File not found" and no request; a rejected upload gives an error
    response with the classified text of the error; a resolved upload
    gives a response that is not an error and shows the identifier of the
    answer, or the word undefined when the answer holds none. *)
Theorem upload_tool_reports_the_upload
    (h : Host) (params : UploadFileInput) (w : World) (c : IagonClient) :
  clientInstance w = Some c ->
  (host_fs h (local_path params) = None ->
   iagon_upload_file h params w
   = (Ok (mkResponse true
            ("**Upload Failed**" ++ newline ++ newline ++ "File not found: "
             ++ local_path params)),
      after_call w (local_path params)))
  /\ (forall node,
         host_fs h (local_path params) = Some node ->
         st_size (stats_of node) <= FILE_SIZE_LIMIT ->
         (forall e,
             host_http h (requests w)
               (PostUpload (local_path params)
                  (upload_name h (local_path params) (remote_path params)))
             = Rejected e ->
             iagon_upload_file h params w
             = (Ok (mkResponse true
                      ("**Upload Failed**" ++ newline ++ newline ++ handleError e)),
                after_upload w (local_path params)
                  (upload_name h (local_path params) (remote_path params))))
         /\ (forall data,
                host_http h (requests w)
                  (PostUpload (local_path params)
                     (upload_name h (local_path params) (remote_path params)))
                = Resolved data ->
                exists text,
                  iagon_upload_file h params w
                  = (Ok (mkResponse false text),
                     after_upload w (local_path params)
                       (upload_name h (local_path params) (remote_path params)))
                  /\ occurs_in
                       ("- ID: `"
                        ++ show_optional (or_else (body_id data) (body_fileId data))
                        ++ "`") text)).
Proof.
  intros Hclient.
  pose proof (getIagonClient_present h w c Hclient) as Hget.
  split.
  - intros Hmissing.
    unfold iagon_upload_file, try_catch, bind. rewrite Hget.
    now rewrite (uploadFile_missing h _ (remote_path params) w Hmissing).
  - intros node Hnode Hsize.
    assert (Hle : (st_size (stats_of node) >? FILE_SIZE_LIMIT) = false).
    { rewrite Z.gtb_ltb. apply Z.ltb_ge. exact Hsize. }
    assert (Hupload :
              uploadFile h (local_path params) (remote_path params) w
              = match host_http h (requests w)
                        (PostUpload (local_path params)
                           (upload_name h (local_path params) (remote_path params)))
                with
                | Resolved data =>
                    (Ok (mkUploadResult true
                           (or_else (body_id data) (body_fileId data))
                           (upload_name h (local_path params) (remote_path params))
                           (st_size (stats_of node))
                           ("Successfully uploaded "
                            ++ upload_name h (local_path params) (remote_path params)
                            ++ " (" ++ formatBytes h (st_size (stats_of node))
                            ++ ")")),
                     after_upload w (local_path params)
                       (upload_name h (local_path params) (remote_path params)))
                | Rejected e =>
                    (Ok (mkUploadResult false None
                           (upload_name h (local_path params) (remote_path params))
                           (st_size (stats_of node)) (handleError e)),
                     after_upload w (local_path params)
                       (upload_name h (local_path params) (remote_path params)))
                end).
    { unfold uploadFile, bind, enter_uploadFile, existsSync, statSync, lift.
      rewrite Hnode. cbn [negb]. rewrite Hle.
      unfold try_catch, bind, send, ret. cbn [requests].
      fold (upload_name h (local_path params) (remote_path params)).
      destruct (host_http h (requests w) _); reflexivity. }
    split.
    + intros e Hhttp.
      unfold iagon_upload_file, try_catch, bind. rewrite Hget, Hupload, Hhttp.
      reflexivity.
    + intros data Hhttp. eexists.
      unfold iagon_upload_file, try_catch, bind. rewrite Hget, Hupload, Hhttp.
      split; [reflexivity |].
      unfold upload_text. cbn [success fileName fileSize fileId].
      do 9 apply occurs_in_append_r. apply occurs_in_refl.
Qed.

(** A missing file through the upload tool. *)
Lemma upload_tool_witness :
  clientInstance (mkWorld (Some (mkIagonClient "token")) [] [])
  = Some (mkIagonClient "token")
  /\ host_fs Sample.host "/nowhere/a.mp4" = None
  /\ iagon_upload_file Sample.host (mkUploadFileInput "/nowhere/a.mp4" None None)
       (mkWorld (Some (mkIagonClient "token")) [] [])
     = (Ok (mkResponse true
              ("**Upload Failed**" ++ newline ++ newline
               ++ "File not found: /nowhere/a.mp4")),
        mkWorld (Some (mkIagonClient "token")) ["/nowhere/a.mp4"] []).
Proof.
  split; [reflexivity |]. split; [reflexivity |].
  exact (proj1 (upload_tool_reports_the_upload Sample.host
                  (mkUploadFileInput "/nowhere/a.mp4" None None)
                  (mkWorld (Some (mkIagonClient "token")) [] [])
                  (mkIagonClient "token") eq_refl)
           eq_refl).
Defined.

(** X25: the folder identifier of the three upload tools has no effect.
    Whether [folder_id] is left out or names any folder, the tool returns
    the same response and leaves the same world: the uploads and the
    requests are the same. *)
Theorem folder_id_is_ignored (h : Host) (w : World) (folder folder' : option string) :
  (forall l r keys,
      upload_file_tool h (mkUploadFileArgs l r (option_map JString folder) keys) w
      = upload_file_tool h (mkUploadFileArgs l r (option_map JString folder') keys) w)
  /\ (forall d p r keys,
         upload_directory_tool h
           (mkUploadDirectoryArgs d (option_map JString folder) p r keys) w
         = upload_directory_tool h
             (mkUploadDirectoryArgs d (option_map JString folder') p r keys) w)
  /\ (forall ps keys,
         bulk_upload_tool h (mkBulkUploadArgs ps (option_map JString folder) keys) w
         = bulk_upload_tool h (mkBulkUploadArgs ps (option_map JString folder') keys) w).
Proof.
  assert (Hparse : forall f, parse_optional_string (option_map JString f) = Valid f).
  { now intros [f|]. }
  repeat split; intros.
  - unfold upload_file_tool, call_tool, UploadFileSchema.
    cbn [uf_local_path uf_remote_path uf_folder_id uf_unknown_keys].
    rewrite !Hparse.
    destruct (parse_required_string _ l); destruct (parse_optional_string r);
      destruct (strict keys); reflexivity.
  - unfold upload_directory_tool, call_tool, UploadDirectorySchema.
    cbn [ud_local_directory ud_folder_id ud_include_pattern ud_recursive
         ud_unknown_keys].
    rewrite !Hparse.
    destruct (parse_required_string _ d); destruct (parse_optional_string p);
      destruct (parse_recursive r); destruct (strict keys); reflexivity.
  - unfold bulk_upload_tool, call_tool, BulkUploadSchema.
    cbn [bu_file_paths bu_folder_id bu_unknown_keys].
    rewrite !Hparse.
    destruct (parse_file_paths ps); destruct (strict keys); reflexivity.
Qed.

(* ================================================================== *)
(** ** Further properties: file metadata, deletion and folders *)
(* ================================================================== *)

Lemma in_world_client h s c :
  clientInstance (session_world s) = Some c ->
  in_world (getIagonClient h) s = (Ok c, s).
Proof.
  intros Hc. unfold in_world.
  rewrite (getIagonClient_present h (session_world s) c Hc).
  now destruct s.
Qed.

(** X26: for the metadata tool a 404 and an empty body are the same
    absence.  With the client at hand, a request answered with status 404
    or resolved without a body gives the error response "File not found:
    <id>"; any other rejection gives an error response with the classified
    text of the error.  Either way exactly one request was made. *)
Theorem file_info_404_is_absence
    (h : Host) (remote : Remote) (params : GetFileInfoInput) (s : Session)
    (c : IagonClient) :
  clientInstance (session_world s) = Some c ->
  (remote_getFile remote s (info_file_id params) = Ok None
   \/ (exists e, remote_getFile remote s (info_file_id params) = Throw e
                 /\ is_404 e = true) ->
   iagon_get_file_info h remote params s
   = (Ok (mkResponse true ("File not found: " ++ info_file_id params)),
      sent s (GetFile (info_file_id params))))
  /\ (forall e,
         remote_getFile remote s (info_file_id params) = Throw e ->
         is_404 e = false ->
         iagon_get_file_info h remote params s
         = (Ok (mkResponse true ("Error: " ++ handleError e)),
            sent s (GetFile (info_file_id params)))).
Proof.
  intros Hclient.
  pose proof (in_world_client h s c Hclient) as Hget.
  split.
  - intros Habsent.
    unfold iagon_get_file_info, try_catchS, bindS. rewrite Hget.
    unfold getFileInfo.
    destruct Habsent as [-> | (e & -> & ->)]; reflexivity.
  - intros e Hthrow Hother.
    unfold iagon_get_file_info, try_catchS, bindS. rewrite Hget.
    unfold getFileInfo. rewrite Hthrow, Hother.
    unfold error_responseS, in_world, error_response, ret. reflexivity.
Qed.

(** The identifiers [gone], [nope] and [down] on the sample service. *)
Lemma file_info_witness :
  clientInstance (session_world session0) = Some (mkIagonClient "token")
  /\ iagon_get_file_info Sample.host sample_remote
       (mkGetFileInfoInput "gone" MARKDOWN) session0
     = (Ok (mkResponse true "File not found: gone"), sent session0 (GetFile "gone"))
  /\ iagon_get_file_info Sample.host sample_remote
       (mkGetFileInfoInput "nope" MARKDOWN) session0
     = (Ok (mkResponse true "File not found: nope"), sent session0 (GetFile "nope"))
  /\ iagon_get_file_info Sample.host sample_remote
       (mkGetFileInfoInput "down" MARKDOWN) session0
     = (Ok (mkResponse true "Error: Iagon server error. Please try again later."),
        sent session0 (GetFile "down")).
Proof.
  split; [reflexivity |].
  pose proof (file_info_404_is_absence Sample.host sample_remote
                (mkGetFileInfoInput "gone" MARKDOWN) session0 _ eq_refl)
    as (Hgone & _).
  pose proof (file_info_404_is_absence Sample.host sample_remote
                (mkGetFileInfoInput "nope" MARKDOWN) session0 _ eq_refl)
    as (Hnope & _).
  pose proof (file_info_404_is_absence Sample.host sample_remote
                (mkGetFileInfoInput "down" MARKDOWN) session0 _ eq_refl)
    as (_ & Hdown).
  split; [exact (Hgone (or_introl eq_refl)) |].
  split; [exact (Hnope (or_intror (ex_intro _ _ (conj eq_refl eq_refl)))) |].
  exact (Hdown _ eq_refl eq_refl).
Defined.

(** X27: the two deletion tools make exactly one request and report the
    gateway's verdict.  With the client at hand, the response is an error
    exactly when the gateway rejected the request, and then its text is
    the classified text of the error; otherwise it names the identifier
    as permanently deleted. *)
Theorem deletion_reports_the_gateway_verdict
    (h : Host) (remote : Remote) (id : string) (s : Session) (c : IagonClient) :
  clientInstance (session_world s) = Some c ->
  (exists response,
      iagon_delete_file h remote id s = (Ok response, sent s (DeleteFile id))
      /\ (isError response = true <->
          exists e, remote_delete remote s (DeleteFile id) = Throw e)
      /\ (forall e, remote_delete remote s (DeleteFile id) = Throw e ->
          text response
          = "**Delete Failed**" ++ newline ++ newline ++ handleError e)
      /\ (isError response = false -> occurs_in id (text response)))
  /\ (exists response,
         iagon_delete_folder h remote id s = (Ok response, sent s (DeleteFolder id))
         /\ (isError response = true <->
             exists e, remote_delete remote s (DeleteFolder id) = Throw e)
         /\ (forall e, remote_delete remote s (DeleteFolder id) = Throw e ->
             text response
             = "**Delete Failed**" ++ newline ++ newline ++ handleError e)
         /\ (isError response = false -> occurs_in id (text response))).
Proof.
  intros Hclient.
  pose proof (in_world_client h s c Hclient) as Hget.
  split.
  - unfold iagon_delete_file, try_catchS, bindS. rewrite Hget.
    unfold deleteFile.
    destruct (remote_delete remote s (DeleteFile id)) as [[]|e] eqn:Hdelete;
      eexists; (split; [reflexivity |]); cbn.
    + split; [split; [discriminate | intros (e & He); discriminate] |].
      split; [intros e He; discriminate |].
      intros _.
      exists ("**File Deleted**" ++ newline ++ newline ++ "File ID `"),
        "` has been permanently deleted.".
      reflexivity.
    + split; [split; [eauto | reflexivity] |].
      split; [now intros e' [= <-] | discriminate].
  - unfold iagon_delete_folder, try_catchS, bindS. rewrite Hget.
    unfold deleteFolder.
    destruct (remote_delete remote s (DeleteFolder id)) as [[]|e] eqn:Hdelete;
      eexists; (split; [reflexivity |]); cbn.
    + split; [split; [discriminate | intros (e & He); discriminate] |].
      split; [intros e He; discriminate |].
      intros _.
      exists ("**Folder Deleted**" ++ newline ++ newline ++ "Folder ID `"),
        "` has been permanently deleted.".
      reflexivity.
    + split; [split; [eauto | reflexivity] |].
      split; [now intros e' [= <-] | discriminate].
Qed.

(** The file [locked] on the sample service cannot be deleted. *)
Lemma deletion_witness :
  clientInstance (session_world session0) = Some (mkIagonClient "token")
  /\ exists response,
       iagon_delete_file Sample.host sample_remote "locked" session0
       = (Ok response, sent session0 (DeleteFile "locked"))
       /\ text response
          = "**Delete Failed**" ++ newline ++ newline
            ++ "Permission denied. You don't have access to this resource.".
Proof.
  split; [reflexivity |].
  destruct (proj1 (deletion_reports_the_gateway_verdict Sample.host sample_remote
                     "locked" session0 _ eq_refl))
    as (response & Hrun & _ & Htext & _).
  exists response. split; [exact Hrun |].
  exact (Htext _ eq_refl).
Defined.

(** X28: a folder that the gateway created without describing it is
    reported as a failure.  With the client at hand, when the request to
    create a folder resolves with an empty body, the tool answers with an
    error response, headed as a failure to create the folder, whose message
    says that the folder was created successfully; with a folder in the
    body the response is not an error and shows the folder's identifier. *)
Theorem created_folder_without_body_is_reported_failed
    (h : Host) (remote : Remote) (params : CreateFolderInput) (s : Session)
    (c : IagonClient) :
  clientInstance (session_world s) = Some c ->
  (remote_postFolder remote s (new_folder_name params) (new_folder_parent_id params)
   = Ok None ->
   iagon_create_folder h remote params s
   = (Ok (mkResponse true
            ("**Failed to Create Folder**" ++ newline ++ newline
             ++ "Folder " ++ dquote ++ new_folder_name params ++ dquote
             ++ " created successfully")),
      sent s (PostFolder (new_folder_name params) (new_folder_parent_id params))))
  /\ (forall folder,
         remote_postFolder remote s (new_folder_name params)
           (new_folder_parent_id params) = Ok (Some folder) ->
         exists text,
           iagon_create_folder h remote params s
           = (Ok (mkResponse false text),
              sent s (PostFolder (new_folder_name params)
                        (new_folder_parent_id params)))
           /\ occurs_in ("- **ID**: `" ++ folder_id folder ++ "`") text).
Proof.
  intros Hclient.
  pose proof (in_world_client h s c Hclient) as Hget.
  split.
  - intros Hempty.
    unfold iagon_create_folder, try_catchS, bindS. rewrite Hget.
    unfold createFolder. now rewrite Hempty.
  - intros folder Hfolder. eexists.
    unfold iagon_create_folder, try_catchS, bindS. rewrite Hget.
    unfold createFolder. rewrite Hfolder.
    cbn [created_success created_folder]. unfold retS.
    split; [reflexivity |].
    apply in_join_lines. cbn [filter_Boolean]. right. right. left. reflexivity.
Qed.

(** The folder [ghost] on the sample service is created without a body. *)
Lemma created_folder_witness :
  clientInstance (session_world session0) = Some (mkIagonClient "token")
  /\ iagon_create_folder Sample.host sample_remote
       (mkCreateFolderInput "ghost" None) session0
     = (Ok (mkResponse true
              ("**Failed to Create Folder**" ++ newline ++ newline
               ++ "Folder " ++ dquote ++ "ghost" ++ dquote
               ++ " created successfully")),
        sent session0 (PostFolder "ghost" None)).
Proof.
  split; [reflexivity |].
  exact (proj1 (created_folder_without_body_is_reported_failed Sample.host
                  sample_remote (mkCreateFolderInput "ghost" None) session0 _
                  eq_refl)
           eq_refl).
Defined.
